(** * alexa.go: the request dispatcher of an Alexa skill, and its helpers

    A shallow embedding of package [alexa] (file [alexa.go]).  Structs are
    records, pointers that may be nil are options, Go maps are references
    into a store of map objects, and the methods of the [RequestHandler]
    interface are state transformers over the objects they receive by
    pointer.  A nil dereference is an explicit [Panic].  *)

From Stdlib Require Import ZArith Lia SpecFloat.
From stdpp Require Import base option list gmap fin_maps strings pretty.

Local Open Scope Z_scope.
Local Open Scope string_scope.

(** ** Constants (alexa.go, lines 14-19) *)

Definition sdkVersion : string := "1.0".
Definition launchRequestName : string := "LaunchRequest".
Definition intentRequestName : string := "IntentRequest".
Definition sessionEndedRequestName : string := "SessionEndedRequest".

(** [var timestampTolerance = 150] is a package-level variable: the state
    of the package is the value it holds. *)
Record Package := { timestampTolerance : Z }.

Definition Package_init : Package := {| timestampTolerance := 150 |}.

(** ** Locales (alexa.go, lines 39-68) *)

Definition LocaleItalian : string := "it-IT".
Definition LocaleGerman : string := "de-DE".
Definition LocaleAustralianEnglish : string := "en-AU".
Definition LocaleCanadianEnglish : string := "en-CA".
Definition LocaleBritishEnglish : string := "en-GB".
Definition LocaleIndianEnglish : string := "en-IN".
Definition LocaleAmericanEnglish : string := "en-US".
Definition LocaleJapanese : string := "ja-JP".

(** [strings.HasPrefix(locale, "en-")]; a Go string is the sequence of its
    bytes. *)
Definition IsEnglish (locale : string) : bool := String.prefix "en-" locale.

(** ** Go values that are not specific to this package *)

(** A computation that may dereference a nil pointer. *)
Inductive Go (A : Type) : Type :=
| Value (a : A)
| Panic.
Arguments Value {A} a.
Arguments Panic {A}.

(** The identity of a map object: a Go map is a reference, two variables may
    hold the same one. *)
Definition loc := positive.

(** float64 is IEEE 754 binary64, here the Standard Library's executable
    specification at precision 53 and maximal exponent 1024. *)
Definition float64 := spec_float.
Definition float64_of_int (z : Z) : float64 := binary_normalize 53 1024 z 0 false.
Definition float64_add (x y : float64) : float64 := SFadd 53 1024 x y.
Definition float64_div (x y : float64) : float64 := SFdiv 53 1024 x y.
(** [x > y] on float64. *)
Definition float64_gt (x y : float64) : bool := SFltb y x.
Definition math_Abs (x : float64) : float64 := SFabs x.

(** time.Duration: an int64 count of nanoseconds. *)
Definition Duration := Z.
Definition time_Second : Duration := 1000000000.
Definition minDuration : Duration := - 2 ^ 63.
Definition maxDuration : Duration := 2 ^ 63 - 1.

(** [func (d Duration) Seconds() float64]:
    [sec := d / Second; nsec := d % Second;
     return float64(sec) + float64(nsec)/1e9]; Go's integer division
    truncates towards zero. *)
Definition Duration_Seconds (d : Duration) : float64 :=
  let sec := Z.quot d time_Second in
  let nsec := Z.rem d time_Second in
  float64_add (float64_of_int sec)
              (float64_div (float64_of_int nsec) (float64_of_int 1000000000)).

Definition time_RFC3339 : string := "2006-01-02T15:04:05Z07:00".

(** ** Measuring float64 values

    Used to state what the float64 operations compute on the values the
    timestamp check meets. *)

(** The absolute value of a float64, in units of 2^-128 (an integer for
    the values met here). *)
Definition magnitude (x : spec_float) : Z :=
  match x with
  | S754_finite _ m e => Z.pos m * 2 ^ (e + 128)
  | _ => 0
  end.

(** A normal number of sign [s] whose unit in the last place is at least
    2^-128. *)
Definition normal (s : bool) (x : spec_float) : Prop :=
  match x with
  | S754_finite s' m e => s' = s /\ Z.pos (digits2_pos m) = 53 /\ -128 <= e
  | _ => False
  end.

(** A float64 that is [+0] or a positive normal number. *)
Definition nonneg (x : spec_float) : Prop :=
  x = S754_zero false \/ normal false x.

(** What the rounding record holds once [M] has been shifted right by [j]
    bits: the quotient, whether the bits shifted out reach one half, and
    whether they are neither nothing nor exactly one half. *)
Definition shifted (M j : Z) (mrs : shr_record) : Prop :=
  shr_m mrs = M / 2 ^ j /\
  (shr_r mrs = true <-> 2 ^ j <= 2 * (M mod 2 ^ j)) /\
  (shr_s mrs = true <-> M mod 2 ^ j <> 0 /\ 2 * (M mod 2 ^ j) <> 2 ^ j).

(** ** The data model (alexa.go, lines 74-361) *)

Inductive ConfirmationStatus := ConfirmationStatus_of (s : string).
Definition ConfConfirmed := ConfirmationStatus_of "CONFIRMED".
Definition ConfDenied := ConfirmationStatus_of "DENIED".
Definition ConfNone := ConfirmationStatus_of "NONE".

Record ResolutionValue := {
  ResolutionValue_Name : string;
  ResolutionValue_ID : string
}.

Record EchoResolutionPerAuthority := {
  Authority : string;
  Status_Code : string;
  Values : list (gmap string ResolutionValue)
}.

Record Resolutions := {
  ResolutionsPerAuthority : list EchoResolutionPerAuthority
}.

Record IntentSlot := {
  IntentSlot_Name : string;
  IntentSlot_ConfirmationStatus : ConfirmationStatus;
  IntentSlot_Value : string;
  IntentSlot_Resolutions : option Resolutions
}.

Record Intent := {
  Intent_Name : string;
  Intent_ConfirmationStatus : ConfirmationStatus;
  Intent_Slots : gmap string IntentSlot
}.

Record Request := {
  Request_Locale : string;
  Request_Timestamp : string;
  Request_Type : string;
  Request_RequestID : string;
  Request_DialogState : string;
  Request_Intent : Intent;
  Request_Name : string;
  Request_Reason : string
}.

Record Session := {
  Session_New : bool;
  Session_SessionID : string;
  Session_Application_ApplicationID : string;
  (** [map[string]interface{}]: nil, or a reference to a map object *)
  Session_Attributes : option loc;
  Session_User_UserID : string;
  Session_User_AccessToken : string
}.

Record Context := {
  Context_AudioPlayer_Token : string;
  Context_AudioPlayer_OffsetInMilliseconds : Z;
  Context_AudioPlayer_PlayerActivity : string;
  Context_Display_Token : string;
  Context_System_Application_ApplicationID : string;
  Context_System_User_UserID : string;
  Context_System_User_AccessToken : string;
  Context_System_Device_DeviceID : string;
  Context_System_Device_Display_TemplateVersion : string;
  Context_System_Device_Display_MarkupVersion : string;
  Context_System_APIEndpoint : string;
  Context_System_APIAccessToken : string
}.

(** The three sub-objects are held by pointer: each may be nil. *)
Record RequestEnvelope := {
  RequestEnvelope_Version : string;
  RequestEnvelope_Session : option Session;
  RequestEnvelope_Request : option Request;
  RequestEnvelope_Context : option Context
}.

Record OutputSpeech := {
  OutputSpeech_Type : string;
  OutputSpeech_Text : string;
  OutputSpeech_SSML : string;
  OutputSpeech_PlayBehavior : string
}.

Record Image := {
  SmallImageURL : string;
  LargeImageURL : string
}.

Record Card := {
  Card_Type : string;
  Card_Title : string;
  Card_Content : string;
  Card_Text : string;
  Card_Image : option Image
}.

Record Reprompt := {
  Reprompt_OutputSpeech : option OutputSpeech
}.

Record Stream := {
  Stream_Token : string;
  Stream_URL : string;
  Stream_OffsetInMilliseconds : Z
}.

Record AudioItem := {
  AudioItem_Stream : Stream
}.

Record AudioPlayerDirective := {
  AudioPlayerDirective_Type : string;
  AudioPlayerDirective_PlayBehavior : string;
  AudioPlayerDirective_AudioItem : option AudioItem
}.

Record DialogDirective := {
  DialogDirective_Type : string;
  DialogDirective_SlotToElicit : string;
  DialogDirective_SlotToConfirm : string;
  DialogDirective_UpdatedIntent : option Intent
}.

(** An element of [Directives []interface{}]; [V] is what an [interface{}]
    holds besides the two directives this file builds. *)
Inductive Directive (V : Type) :=
| Directive_AudioPlayer (d : AudioPlayerDirective)
| Directive_Dialog (d : DialogDirective)
| Directive_other (v : V).
Arguments Directive_AudioPlayer {V} d.
Arguments Directive_Dialog {V} d.
Arguments Directive_other {V} v.

Record Response (V : Type) := {
  Response_OutputSpeech : option OutputSpeech;
  Response_Card : option Card;
  Response_Reprompt : option Reprompt;
  Response_Directives : list (Directive V);
  Response_ShouldEndSession : bool
}.
Arguments Build_Response {V} _ _ _ _ _.
Arguments Response_OutputSpeech {V} r.
Arguments Response_Card {V} r.
Arguments Response_Reprompt {V} r.
Arguments Response_Directives {V} r.
Arguments Response_ShouldEndSession {V} r.

(** [Response] is held by pointer; the record keeps the object as it is when
    the envelope is returned.  [SessionAttributes] is a map reference. *)
Record ResponseEnvelope (V : Type) := {
  ResponseEnvelope_Version : string;
  ResponseEnvelope_SessionAttributes : option loc;
  ResponseEnvelope_Response : Response V
}.
Arguments Build_ResponseEnvelope {V} _ _ _.
Arguments ResponseEnvelope_Version {V} r.
Arguments ResponseEnvelope_SessionAttributes {V} r.
Arguments ResponseEnvelope_Response {V} r.

(** ** Errors

    [errors.New] builds a new error value on every call, and error values
    compare by identity: an error that comes out of a handler is never one
    of those built by this file, whatever its text.  [E] is the type of the
    error values of the handler. *)
Inductive error (E : Type) :=
| ErrRequestEnvelopeNil
| errors_New (text : string)
| HandlerError (e : E).
Arguments ErrRequestEnvelopeNil {E}.
Arguments errors_New {E} text.
Arguments HandlerError {E} e.

(** ** Package [time]

    [time.Time] with the three operations of package [time] the file uses:
    the instant a time denotes (nanoseconds on the time line), [time.Parse]
    (a time, or the text of the parse error) and [Time.String]. *)
Class TimePackage (Time : Type) := {
  Time_instant : Time -> Z;
  time_Parse : string -> string -> Time + string;
  Time_String : Time -> string
}.

Section Skill.

(** [V]: what an [interface{}] holds (session attribute values);
    [E]: the error values a handler returns;
    [GoContext]: [context.Context], handed to the handler untouched. *)
Context {V E GoContext Time : Type} `{!TimePackage Time}.

(** ** Accessors of the request envelope (lines 172-194) *)

(** [r.Request.Type]: panics when [r.Request] is nil. *)
Definition GetRequestType (r : RequestEnvelope) : Go string :=
  match RequestEnvelope_Request r with
  | Some request => Value (Request_Type request)
  | None => Panic
  end.

Definition GetIntentName (r : RequestEnvelope) : Go string :=
  match GetRequestType r with
  | Panic => Panic
  | Value ty =>
      if String.eqb ty "IntentRequest" then
        match RequestEnvelope_Request r with
        | Some request => Value (Intent_Name (Request_Intent request))
        | None => Panic
        end
      else GetRequestType r
  end.

(** [r.Session.SessionID]: panics when [r.Session] is nil. *)
Definition GetSessionID (r : RequestEnvelope) : Go string :=
  match RequestEnvelope_Session r with
  | Some session => Value (Session_SessionID session)
  | None => Panic
  end.

(** [r.Session.User.UserID] *)
Definition GetUserID (r : RequestEnvelope) : Go string :=
  match RequestEnvelope_Session r with
  | Some session => Value (Session_User_UserID session)
  | None => Panic
  end.

(** ** Slots and locale (lines 196-225) *)

(** [GetSlot] returns the pair [(&slot, nil)] for a key of
    [r.Request.Intent.Slots], [slot] being a copy of the entry, and
    [(nil, errors.New("slot name not found"))] otherwise; indexing a nil
    map finds nothing. *)
Definition GetSlot (r : RequestEnvelope) (slotName : string)
    : Go (option IntentSlot * option (error E)) :=
  match RequestEnvelope_Request r with
  | None => Panic
  | Some request =>
      match Intent_Slots (Request_Intent request) !! slotName with
      | Some slot => Value (Some slot, None)
      | None => Value (None, Some (errors_New "slot name not found"))
      end
  end.

(** [slot, err := r.GetSlot(slotName)], then [return "", err] when
    [err != nil], and [return slot.Value, nil] otherwise, which
    dereferences [slot]. *)
Definition GetSlotValue (r : RequestEnvelope) (slotName : string)
    : Go (string * option (error E)) :=
  match GetSlot r slotName with
  | Panic => Panic
  | Value (_, Some err) => Value ("", Some err)
  | Value (Some slot, None) => Value (IntentSlot_Value slot, None)
  | Value (None, None) => Panic
  end.

(** [r.Request.Intent.Slots] *)
Definition AllSlots (r : RequestEnvelope) : Go (gmap string IntentSlot) :=
  match RequestEnvelope_Request r with
  | Some request => Value (Intent_Slots (Request_Intent request))
  | None => Panic
  end.

(** [r.Request.Locale] *)
Definition Locale (r : RequestEnvelope) : Go string :=
  match RequestEnvelope_Request r with
  | Some request => Value (Request_Locale request)
  | None => Panic
  end.

(** ** Helpers that fill in a response (lines 444-519) *)

Definition SetEndSession (flag : bool) (r : Response V) : Response V :=
  {| Response_OutputSpeech := Response_OutputSpeech r;
     Response_Card := Response_Card r;
     Response_Reprompt := Response_Reprompt r;
     Response_Directives := Response_Directives r;
     Response_ShouldEndSession := flag |}.

Definition SetSimpleCard (title content : string) (r : Response V) : Response V :=
  {| Response_OutputSpeech := Response_OutputSpeech r;
     Response_Card :=
       Some {| Card_Type := "Simple"; Card_Title := title; Card_Content := content;
               Card_Text := ""; Card_Image := None |};
     Response_Reprompt := Response_Reprompt r;
     Response_Directives := Response_Directives r;
     Response_ShouldEndSession := Response_ShouldEndSession r |}.

Definition SetOutputSpeech (text : string) (r : Response V) : Response V :=
  {| Response_OutputSpeech :=
       Some {| OutputSpeech_Type := "PlainText"; OutputSpeech_Text := text;
               OutputSpeech_SSML := ""; OutputSpeech_PlayBehavior := "" |};
     Response_Card := Response_Card r;
     Response_Reprompt := Response_Reprompt r;
     Response_Directives := Response_Directives r;
     Response_ShouldEndSession := Response_ShouldEndSession r |}.

(** [r.Directives = append(r.Directives, d)] *)
Definition append_directive (d : Directive V) (r : Response V) : Response V :=
  {| Response_OutputSpeech := Response_OutputSpeech r;
     Response_Card := Response_Card r;
     Response_Reprompt := Response_Reprompt r;
     Response_Directives := Response_Directives r ++ [d];
     Response_ShouldEndSession := Response_ShouldEndSession r |}.

Definition AddAudioPlayer (playerType playBehavior streamToken url : string)
    (offsetInMilliseconds : Z) (r : Response V) : Response V :=
  let d :=
    {| AudioPlayerDirective_Type := playerType;
       AudioPlayerDirective_PlayBehavior := playBehavior;
       AudioPlayerDirective_AudioItem :=
         Some {| AudioItem_Stream :=
                   {| Stream_Token := streamToken;
                      Stream_URL := url;
                      Stream_OffsetInMilliseconds := offsetInMilliseconds |} |} |} in
  append_directive (Directive_AudioPlayer d) r.

Definition AddDialogDirective (dialogType slotToElicit slotToConfirm : string)
    (intent : option Intent) (r : Response V) : Response V :=
  let d :=
    {| DialogDirective_Type := dialogType;
       DialogDirective_SlotToElicit := slotToElicit;
       DialogDirective_SlotToConfirm := slotToConfirm;
       DialogDirective_UpdatedIntent := intent |} in
  append_directive (Directive_Dialog d) r.

(** [r.Card = &Card{Type: "Standard", Title: title, Text: text}], then
    [r.Card.Image = &Image{...}]. *)
Definition SetStandardCard (title text smallImageURL largeImageURL : string)
    (r : Response V) : Response V :=
  {| Response_OutputSpeech := Response_OutputSpeech r;
     Response_Card :=
       Some {| Card_Type := "Standard"; Card_Title := title; Card_Content := "";
               Card_Text := text;
               Card_Image := Some {| SmallImageURL := smallImageURL;
                                     LargeImageURL := largeImageURL |} |};
     Response_Reprompt := Response_Reprompt r;
     Response_Directives := Response_Directives r;
     Response_ShouldEndSession := Response_ShouldEndSession r |}.

Definition SetLinkAccountCard (r : Response V) : Response V :=
  {| Response_OutputSpeech := Response_OutputSpeech r;
     Response_Card :=
       Some {| Card_Type := "LinkAccount"; Card_Title := ""; Card_Content := "";
               Card_Text := ""; Card_Image := None |};
     Response_Reprompt := Response_Reprompt r;
     Response_Directives := Response_Directives r;
     Response_ShouldEndSession := Response_ShouldEndSession r |}.

Definition SetOutputSSML (ssml : string) (r : Response V) : Response V :=
  {| Response_OutputSpeech :=
       Some {| OutputSpeech_Type := "SSML"; OutputSpeech_Text := "";
               OutputSpeech_SSML := ssml; OutputSpeech_PlayBehavior := "" |};
     Response_Card := Response_Card r;
     Response_Reprompt := Response_Reprompt r;
     Response_Directives := Response_Directives r;
     Response_ShouldEndSession := Response_ShouldEndSession r |}.

(** [p.OutputSpeech = speech] on a reprompt. *)
Definition set_Reprompt_OutputSpeech (speech : option OutputSpeech) (p : Reprompt)
    : Reprompt :=
  {| Reprompt_OutputSpeech := speech |}.

(** [if r.Reprompt == nil { r.Reprompt = &Reprompt{} }], then
    [r.Reprompt.OutputSpeech = &OutputSpeech{Type: "PlainText", Text: text}]. *)
Definition SetRepromptText (text : string) (r : Response V) : Response V :=
  let reprompt :=
    match Response_Reprompt r with
    | None => {| Reprompt_OutputSpeech := None |}
    | Some p => p
    end in
  {| Response_OutputSpeech := Response_OutputSpeech r;
     Response_Card := Response_Card r;
     Response_Reprompt :=
       Some (set_Reprompt_OutputSpeech
               (Some {| OutputSpeech_Type := "PlainText"; OutputSpeech_Text := text;
                        OutputSpeech_SSML := ""; OutputSpeech_PlayBehavior := "" |})
               reprompt);
     Response_Directives := Response_Directives r;
     Response_ShouldEndSession := Response_ShouldEndSession r |}.

(** The same, with [&OutputSpeech{Type: "SSML", SSML: ssml}]. *)
Definition SetRepromptSSML (ssml : string) (r : Response V) : Response V :=
  let reprompt :=
    match Response_Reprompt r with
    | None => {| Reprompt_OutputSpeech := None |}
    | Some p => p
    end in
  {| Response_OutputSpeech := Response_OutputSpeech r;
     Response_Card := Response_Card r;
     Response_Reprompt :=
       Some (set_Reprompt_OutputSpeech
               (Some {| OutputSpeech_Type := "SSML"; OutputSpeech_Text := "";
                        OutputSpeech_SSML := ssml; OutputSpeech_PlayBehavior := "" |})
               reprompt);
     Response_Directives := Response_Directives r;
     Response_ShouldEndSession := Response_ShouldEndSession r |}.

(** ** The handler interface and the [Alexa] struct (lines 74-89) *)

(** What a method of the handler works on: the objects behind the four
    pointers it receives ([request] and [context] may be nil) and the map
    objects of the program. *)
Record Objects := {
  obj_request : option Request;
  obj_session : Session;
  obj_context : option Context;
  obj_response : Response V;
  obj_maps : gmap loc (gmap string V)
}.

(** A method of [RequestHandler]: it may change every object it is given,
    and returns an error or nil. *)
Definition Callback := GoContext -> Objects -> option E * Objects.

Record RequestHandler := {
  OnSessionStarted : Callback;
  OnLaunch : Callback;
  OnIntent : Callback;
  OnSessionEnded : Callback
}.

Inductive Method := MOnSessionStarted | MOnLaunch | MOnIntent | MOnSessionEnded.

Definition method (h : RequestHandler) (m : Method) : Callback :=
  match m with
  | MOnSessionStarted => OnSessionStarted h
  | MOnLaunch => OnLaunch h
  | MOnIntent => OnIntent h
  | MOnSessionEnded => OnSessionEnded h
  end.

Record Alexa := {
  ApplicationID : string;
  Alexa_RequestHandler : RequestHandler;
  IgnoreApplicationID : bool;
  IgnoreTimestamp : bool
}.

(** [SetTimestampTolerance] assigns the package variable (lines 440-442). *)
Definition SetTimestampTolerance (alexa : Alexa) (seconds : Z) (pkg : Package) : Package :=
  {| timestampTolerance := seconds |}.

(** ** Verification of the envelope (lines 521-562) *)

Definition verifyApplicationID (alexa : Alexa) (request : option RequestEnvelope)
    : Go (option (error E)) :=
  match request with
  | None => Value (Some ErrRequestEnvelopeNil)
  | Some env =>
      let appID := ApplicationID alexa in
      match RequestEnvelope_Session env with
      | None => Panic
      | Some session =>
          let requestAppID := Session_Application_ApplicationID session in
          if String.eqb appID "" then
            Value (Some (errors_New "application ID was set to an empty string"))
          else if String.eqb requestAppID "" then
            Value (Some (errors_New "request Application ID was set to an empty string"))
          else if negb (String.eqb appID requestAppID) then
            Value (Some (errors_New
              "request Application ID does not match expected ApplicationId"))
          else Value None
      end
  end.

(** [func (t Time) Sub(u Time) Duration]: the difference of the two
    instants, and the largest or smallest duration when it does not fit. *)
Definition Time_Sub (t u : Time) : Duration :=
  let d := Time_instant t - Time_instant u in
  if (d <? minDuration)%Z then minDuration
  else if (maxDuration <? d)%Z then maxDuration
  else d.

(** The text of the error for a timestamp off the current time. *)
Definition timestamp_off_text (timestamp now : Time) (tolerance : Z) : string :=
  "invalid Timestamp. The request timestamp " +:+ Time_String timestamp +:+
  " was off the current time " +:+ Time_String now +:+
  " by more than " +:+ pretty tolerance +:+ " seconds.".

(** [now] is what [time.Now()] returns when line 554 runs. *)
Definition verifyTimestamp (pkg : Package) (now : Time) (request : option RequestEnvelope)
    : Go (option (error E)) :=
  match request with
  | None => Value (Some ErrRequestEnvelopeNil)
  | Some env =>
      match RequestEnvelope_Request env with
      | None => Panic
      | Some r =>
          match time_Parse time_RFC3339 (Request_Timestamp r) with
          | inr err =>
              Value (Some (errors_New ("unable to parse request timestamp.  Err: " +:+ err)))
          | inl timestamp =>
              let delta := Time_Sub now timestamp in
              let deltaSecsAbs := math_Abs (Duration_Seconds delta) in
              if float64_gt deltaSecsAbs (float64_of_int (timestampTolerance pkg)) then
                Value (Some (errors_New
                  (timestamp_off_text timestamp now (timestampTolerance pkg))))
              else Value None
          end
      end
  end.

(** ** ProcessRequest (lines 363-436) *)

(** What a call of [ProcessRequest] works on: the envelope behind
    [requestEnv] (none when the pointer is nil), the map objects, and the
    methods of the handler called so far, oldest first.  The lines that
    [log.Println] and [fmt.Println] write are not part of it. *)
Record Store := {
  st_envelope : option RequestEnvelope;
  st_maps : gmap loc (gmap string V);
  st_calls : list Method
}.

(** How a call ends: with the pair [(responseEnv, err)], or in a panic. *)
Inductive Result :=
| Returned (responseEnv : option (ResponseEnvelope V)) (err : option (error E))
| Panicked.

(** A statement either falls through with a value or ends the call. *)
Inductive Step (A : Type) :=
| Next (a : A)
| Stop (r : Result).
Arguments Next {A} a.
Arguments Stop {A} r.

Definition Exec (A : Type) : Type := Store -> Step A * Store.

Definition exec_ret {A} (a : A) : Exec A := fun st => (Next a, st).

Definition exec_bind {A B} (m : Exec A) (f : A -> Exec B) : Exec B :=
  fun st =>
    match m st with
    | (Next a, st') => f a st'
    | (Stop r, st') => (Stop r, st')
    end.

Notation "'let*' x ':=' m 'in' k" := (exec_bind m (fun x => k))
  (at level 10, x binder, k at level 200).

Definition stop {A} (r : Result) : Exec A := fun st => (Stop r, st).

Definition lift {A} (g : Go A) : Exec A :=
  match g with
  | Value a => exec_ret a
  | Panic => stop Panicked
  end.

(** [return nil, err] when [err != nil]. *)
Definition check (err : option (error E)) : Exec unit :=
  match err with
  | Some e => stop (Returned None (Some e))
  | None => exec_ret tt
  end.

(** [*requestEnv] *)
Definition deref_envelope : Exec RequestEnvelope :=
  fun st =>
    match st_envelope st with
    | Some env => (Next env, st)
    | None => (Stop Panicked, st)
    end.

(** [*requestEnv.Session] *)
Definition deref_session : Exec Session :=
  let* env := deref_envelope in
  match RequestEnvelope_Session env with
  | Some session => exec_ret session
  | None => stop Panicked
  end.

(** [*requestEnv.Request] *)
Definition deref_request : Exec Request :=
  let* env := deref_envelope in
  match RequestEnvelope_Request env with
  | Some request => exec_ret request
  | None => stop Panicked
  end.

Definition set_Session_Attributes (a : option loc) (s : Session) : Session :=
  {| Session_New := Session_New s;
     Session_SessionID := Session_SessionID s;
     Session_Application_ApplicationID := Session_Application_ApplicationID s;
     Session_Attributes := a;
     Session_User_UserID := Session_User_UserID s;
     Session_User_AccessToken := Session_User_AccessToken s |}.

Definition set_RequestEnvelope_Session (s : Session) (env : RequestEnvelope)
    : RequestEnvelope :=
  {| RequestEnvelope_Version := RequestEnvelope_Version env;
     RequestEnvelope_Session := Some s;
     RequestEnvelope_Request := RequestEnvelope_Request env;
     RequestEnvelope_Context := RequestEnvelope_Context env |}.

(** [make(map[string]interface{})]: a map object no reference in the
    program points to yet. *)
Definition make_map : Exec loc :=
  fun st =>
    let l := fresh (dom (st_maps st)) in
    (Next l,
     {| st_envelope := st_envelope st;
        st_maps := <[l := ∅]> (st_maps st);
        st_calls := st_calls st |}).

(** [session.Attributes = a] *)
Definition assign_Attributes (a : option loc) : Exec unit :=
  let* session := deref_session in
  fun st =>
    (Next tt,
     {| st_envelope :=
          set_RequestEnvelope_Session (set_Session_Attributes a session) <$> st_envelope st;
        st_maps := st_maps st;
        st_calls := st_calls st |}).

(** What is behind a pointer after a callee had it: the object as the
    callee left it; a callee cannot make the caller's nil pointer point to
    an object. *)
Definition pointee {A} (before after : option A) : option A :=
  match before with
  | None => None
  | Some a => Some (default a after)
  end.

(** The objects a method of the handler is called on: those behind
    [requestEnv.Request], [requestEnv.Session] (dereferenced before any
    call) and [requestEnv.Context], the response, and the map objects. *)
Definition objects (st : Store) (response : Response V) : Go Objects :=
  match st_envelope st with
  | None => Panic
  | Some env =>
      match RequestEnvelope_Session env with
      | None => Panic
      | Some session =>
          Value {| obj_request := RequestEnvelope_Request env;
                   obj_session := session;
                   obj_context := RequestEnvelope_Context env;
                   obj_response := response;
                   obj_maps := st_maps st |}
      end
  end.

(** The store once method [m] has returned, leaving the objects as [o]. *)
Definition after_call (st : Store) (m : Method) (o : Objects) : Store :=
  {| st_envelope :=
       (fun env =>
          {| RequestEnvelope_Version := RequestEnvelope_Version env;
             RequestEnvelope_Session := Some (obj_session o);
             RequestEnvelope_Request := pointee (RequestEnvelope_Request env) (obj_request o);
             RequestEnvelope_Context := pointee (RequestEnvelope_Context env) (obj_context o) |})
       <$> st_envelope st;
     st_maps := obj_maps o;
     st_calls := st_calls st ++ [m] |}.

(** [alexa.RequestHandler.m(ctx, request, session, context, response)]:
    the call is recorded, the objects are left as the method left them,
    and the method's error and the response object come back. *)
Definition invoke (alexa : Alexa) (m : Method) (ctx : GoContext) (response : Response V)
    : Exec (option E * Response V) :=
  let* o := (fun st => lift (objects st response) st) in
  fun st =>
    let r := method (Alexa_RequestHandler alexa) m ctx o in
    (Next (fst r, obj_response (snd r)), after_call st m (snd r)).

(** A call of a method followed by
    [if err != nil { log.Println(...); return nil, err }]. *)
Definition handle (alexa : Alexa) (m : Method) (ctx : GoContext) (response : Response V)
    : Exec (Response V) :=
  let* r := invoke alexa m ctx response in
  match fst r with
  | Some e => stop (Returned None (Some (HandlerError e)))
  | None => exec_ret (snd r)
  end.

(** Lines 365-382: the nil check and the two verifications, each one run
    unless its flag says to ignore it; the first error found is the one
    returned. *)
Definition validate (alexa : Alexa) (pkg : Package) (now : Time)
    (requestEnv : option RequestEnvelope) : Go (option (error E)) :=
  match requestEnv with
  | None => Value (Some ErrRequestEnvelopeNil)
  | Some _ =>
      match
        (if negb (IgnoreApplicationID alexa) then verifyApplicationID alexa requestEnv
         else Value None)
      with
      | Panic => Panic
      | Value (Some err) => Value (Some err)
      | Value None =>
          if negb (IgnoreTimestamp alexa) then verifyTimestamp pkg now requestEnv
          else Value None
      end
  end.

Definition validation (alexa : Alexa) (pkg : Package) (now : Time) : Exec unit :=
  fun st => (let* err := lift (validate alexa pkg now (st_envelope st)) in check err) st.

(** Lines 391-394: [&Response{}] with [ShouldEndSession = true]. *)
Definition default_Response : Response V :=
  {| Response_OutputSpeech := None;
     Response_Card := None;
     Response_Reprompt := None;
     Response_Directives := [];
     Response_ShouldEndSession := true |}.

(** Lines 384-396: the attribute map is made when the session has none,
    and the response object is allocated. *)
Definition prepare : Exec (Response V) :=
  let* session := deref_session in
  let* _ :=
    match Session_Attributes session with
    | None => let* l := make_map in assign_Attributes (Some l)
    | Some _ => exec_ret tt
    end in
  exec_ret default_Response.

(** Lines 398-405. *)
Definition sessionStarted (alexa : Alexa) (ctx : GoContext) (response : Response V)
    : Exec (Response V) :=
  let* session := deref_session in
  if Session_New session then handle alexa MOnSessionStarted ctx response
  else exec_ret response.

(** The method the switch of lines 407-426 selects for a request type. *)
Definition method_of_type (ty : string) : option Method :=
  if String.eqb ty launchRequestName then Some MOnLaunch
  else if String.eqb ty intentRequestName then Some MOnIntent
  else if String.eqb ty sessionEndedRequestName then Some MOnSessionEnded
  else None.

(** Lines 407-426: [switch requestEnv.Request.Type]. *)
Definition dispatch (alexa : Alexa) (ctx : GoContext) (response : Response V)
    : Exec (Response V) :=
  let* request := deref_request in
  match method_of_type (Request_Type request) with
  | Some m => handle alexa m ctx response
  | None => exec_ret response
  end.

(** The loop of lines 430-433 over the entries of a map:
    [responseEnv.SessionAttributes[n] = v] for each of them. *)
Definition copy_entries (src dst : gmap string V) : gmap string V :=
  map_fold (fun n v acc => <[n := v]> acc) dst src.

(** Lines 428-435: the attributes are copied into a new map, and the
    envelope is returned.  Ranging over a nil map runs the body no time. *)
Definition copyAttributes (response : Response V) : Exec (ResponseEnvelope V) :=
  let* l := make_map in
  let* session := deref_session in
  fun st =>
    let src :=
      match Session_Attributes session with
      | Some a => default ∅ (st_maps st !! a)
      | None => ∅
      end in
    (Next {| ResponseEnvelope_Version := sdkVersion;
             ResponseEnvelope_SessionAttributes := Some l;
             ResponseEnvelope_Response := response |},
     {| st_envelope := st_envelope st;
        st_maps := <[l := copy_entries src (default ∅ (st_maps st !! l))]> (st_maps st);
        st_calls := st_calls st |}).

(** Lines 365-405: everything before the switch. *)
Definition beforeSwitch (alexa : Alexa) (pkg : Package) (now : Time) (ctx : GoContext)
    : Exec (Response V) :=
  let* _ := validation alexa pkg now in
  let* response := prepare in
  sessionStarted alexa ctx response.

Definition ProcessRequest_body (alexa : Alexa) (pkg : Package) (now : Time)
    (ctx : GoContext) : Exec (ResponseEnvelope V) :=
  let* response := beforeSwitch alexa pkg now ctx in
  let* response := dispatch alexa ctx response in
  copyAttributes response.

(** The store a call of [ProcessRequest] starts from. *)
Definition initial (requestEnv : option RequestEnvelope) (maps : gmap loc (gmap string V))
    : Store :=
  {| st_envelope := requestEnv; st_maps := maps; st_calls := [] |}.

(** [ProcessRequest] on the envelope [requestEnv] in a program whose map
    objects are [maps], with [pkg] the state of the package and [now] the
    time of the call: how the call ends, and the store it leaves. *)
Definition ProcessRequest (alexa : Alexa) (pkg : Package) (now : Time) (ctx : GoContext)
    (requestEnv : option RequestEnvelope) (maps : gmap loc (gmap string V))
    : Result * Store :=
  match ProcessRequest_body alexa pkg now ctx (initial requestEnv maps) with
  | (Next responseEnv, st') => (Returned (Some responseEnv) None, st')
  | (Stop r, st') => (r, st')
  end.

(** ** The kinds of error the verifications return *)

Definition identity_error (e : error E) : Prop :=
  e = errors_New "application ID was set to an empty string" \/
  e = errors_New "request Application ID was set to an empty string" \/
  e = errors_New "request Application ID does not match expected ApplicationId".

Definition parse_error (e : error E) : Prop :=
  exists msg, e = errors_New ("unable to parse request timestamp.  Err: " +:+ msg).

Definition tolerance_error (e : error E) : Prop :=
  exists timestamp now tolerance,
    e = errors_New (timestamp_off_text timestamp now tolerance).

(** The errors of lines 365-382. *)
Definition validation_error (e : error E) : Prop :=
  e = ErrRequestEnvelopeNil \/ identity_error e \/ parse_error e \/ tolerance_error e.

(** ** Sequences of calls of the two directive helpers *)

Inductive DirectiveCall :=
| Call_AddAudioPlayer (playerType playBehavior streamToken url : string)
    (offsetInMilliseconds : Z)
| Call_AddDialogDirective (dialogType slotToElicit slotToConfirm : string)
    (intent : option Intent).

Definition run_call (r : Response V) (c : DirectiveCall) : Response V :=
  match c with
  | Call_AddAudioPlayer playerType playBehavior streamToken url offset =>
      AddAudioPlayer playerType playBehavior streamToken url offset r
  | Call_AddDialogDirective dialogType slotToElicit slotToConfirm intent =>
      AddDialogDirective dialogType slotToElicit slotToConfirm intent r
  end.

Definition run_calls (r : Response V) (cs : list DirectiveCall) : Response V :=
  foldl run_call r cs.

(** ** Sequences of calls of the helpers of a response *)

Inductive HelperCall :=
| Call_SetSimpleCard (title content : string)
| Call_SetStandardCard (title text smallImageURL largeImageURL : string)
| Call_SetLinkAccountCard
| Call_SetOutputSpeech (text : string)
| Call_SetOutputSSML (ssml : string)
| Call_SetRepromptText (text : string)
| Call_SetRepromptSSML (ssml : string)
| Call_SetEndSession (flag : bool)
| Call_Directive (c : DirectiveCall).

Definition run_helper (r : Response V) (c : HelperCall) : Response V :=
  match c with
  | Call_SetSimpleCard title content => SetSimpleCard title content r
  | Call_SetStandardCard title text smallImageURL largeImageURL =>
      SetStandardCard title text smallImageURL largeImageURL r
  | Call_SetLinkAccountCard => SetLinkAccountCard r
  | Call_SetOutputSpeech text => SetOutputSpeech text r
  | Call_SetOutputSSML ssml => SetOutputSSML ssml r
  | Call_SetRepromptText text => SetRepromptText text r
  | Call_SetRepromptSSML ssml => SetRepromptSSML ssml r
  | Call_SetEndSession flag => SetEndSession flag r
  | Call_Directive c => run_call r c
  end.

Definition run_helpers (r : Response V) (cs : list HelperCall) : Response V :=
  foldl run_helper r cs.

(** The field of the response a helper assigns. *)
Inductive Field := FOutputSpeech | FCard | FReprompt | FDirectives | FShouldEndSession.

Definition field_of (c : HelperCall) : Field :=
  match c with
  | Call_SetSimpleCard _ _ | Call_SetStandardCard _ _ _ _ | Call_SetLinkAccountCard => FCard
  | Call_SetOutputSpeech _ | Call_SetOutputSSML _ => FOutputSpeech
  | Call_SetRepromptText _ | Call_SetRepromptSSML _ => FReprompt
  | Call_SetEndSession _ => FShouldEndSession
  | Call_Directive _ => FDirectives
  end.

(** The calls of [AddAudioPlayer] and [AddDialogDirective] among a sequence
    of calls, in the order of the sequence. *)
Definition directive_calls (cs : list HelperCall) : list DirectiveCall :=
  omap (fun c => match c with Call_Directive d => Some d | _ => None end) cs.

(** ** Notions used to state the properties *)

(** The store [st], whose envelope is [env] with session [session], once
    lines 386-388 have made the attribute map [a]. *)
Definition with_attributes (a : loc) (st : Store) (env : RequestEnvelope)
    (session : Session) : Store :=
  {| st_envelope :=
       Some (set_RequestEnvelope_Session (set_Session_Attributes (Some a) session) env);
     st_maps := <[a := ∅]> (st_maps st);
     st_calls := st_calls st |}.

(** The ways a call ends after the verifications, short of returning an
    envelope: a panic, or the error of a method of the handler. *)
Definition benign (r : Result) : Prop :=
  match r with
  | Panicked => True
  | Returned None (Some (HandlerError _)) => True
  | _ => False
  end.


Definition has_session (st : Store) : Prop :=
  exists env session,
    st_envelope st = Some env /\ RequestEnvelope_Session env = Some session.


(** The session's [Attributes] field refers to a map object of the program:
    it is not nil, and Go has no dangling map reference. *)
Definition attributes_live (o : Objects) : Prop :=
  exists a,
    Session_Attributes (obj_session o) = Some a /\ is_Some (obj_maps o !! a).

(** A method that, given a session whose [Attributes] is a map, leaves it
    one (it may add, change or remove entries, or assign another map). *)
Definition keeps_attributes (cb : Callback) : Prop :=
  forall ctx o, attributes_live o -> attributes_live (snd (cb ctx o)).

Definition store_live (st : Store) : Prop :=
  exists env session a,
    st_envelope st = Some env /\
    RequestEnvelope_Session env = Some session /\
    Session_Attributes session = Some a /\
    is_Some (st_maps st !! a).

End Skill.

Arguments Next {V E A} a.
Arguments Stop {V E A} r.

(** * Sample inputs

    A skill whose attribute values and handler errors are strings, with
    times counted in nanoseconds since the Unix epoch; the sample clock
    reads the timestamp of the sample requests and rejects anything else. *)

Definition sample_Parse (layout value : string) : Z + string :=
  if String.eqb value "2017-06-24T15:04:05Z" then inl 1498316645000000000
  else inr ("parsing time " +:+ value +:+ " as " +:+ layout +:+ ": cannot parse").

#[global] Instance sample_time : TimePackage Z :=
  {| Time_instant := fun t => t; time_Parse := sample_Parse; Time_String := pretty |}.

(** Thirty seconds after the timestamp of the sample requests. *)
Definition sample_now : Z := 1498316675000000000.

Definition sample_noop : @Callback string string unit := fun _ o => (None, o).

Definition quiet_handler : @RequestHandler string string unit :=
  {| OnSessionStarted := sample_noop; OnLaunch := sample_noop;
     OnIntent := sample_noop; OnSessionEnded := sample_noop |}.

(** [OnSessionStarted] greets with a card. *)
Definition welcome_handler : @RequestHandler string string unit :=
  {| OnSessionStarted := fun _ o =>
       (None,
        {| obj_request := obj_request o; obj_session := obj_session o;
           obj_context := obj_context o;
           obj_response := SetSimpleCard "Welcome" "Hello" (obj_response o);
           obj_maps := obj_maps o |});
     OnLaunch := sample_noop; OnIntent := sample_noop; OnSessionEnded := sample_noop |}.

(** [OnSessionStarted] fails. *)
Definition failing_handler : @RequestHandler string string unit :=
  {| OnSessionStarted := fun _ o => (Some "session store unavailable", o);
     OnLaunch := sample_noop; OnIntent := sample_noop; OnSessionEnded := sample_noop |}.

Definition sample_alexa (h : @RequestHandler string string unit) : Alexa :=
  {| ApplicationID := "amzn1.ask.skill.sample"; Alexa_RequestHandler := h;
     IgnoreApplicationID := false; IgnoreTimestamp := false |}.

Definition sample_intent : Intent :=
  {| Intent_Name := "HelloIntent"; Intent_ConfirmationStatus := ConfNone;
     Intent_Slots := ∅ |}.

Definition sample_request (type timestamp : string) : Request :=
  {| Request_Locale := "en-US"; Request_Timestamp := timestamp; Request_Type := type;
     Request_RequestID := "request-1"; Request_DialogState := "";
     Request_Intent := sample_intent; Request_Name := ""; Request_Reason := "" |}.

Definition sample_session (new : bool) (applicationID : string) : Session :=
  {| Session_New := new; Session_SessionID := "session-1";
     Session_Application_ApplicationID := applicationID;
     Session_Attributes := None;
     Session_User_UserID := "user-1"; Session_User_AccessToken := "" |}.

Definition sample_envelope (session : Session) (request : Request) : RequestEnvelope :=
  {| RequestEnvelope_Version := "1.0"; RequestEnvelope_Session := Some session;
     RequestEnvelope_Request := Some request; RequestEnvelope_Context := None |}.

(** A program that holds no map object yet. *)
Definition no_maps : gmap loc (gmap string string) := ∅.

(** An envelope that came without a session. *)
Definition sessionless_envelope : RequestEnvelope :=
  {| RequestEnvelope_Version := "1.0"; RequestEnvelope_Session := None;
     RequestEnvelope_Request := Some (sample_request "LaunchRequest" "2017-06-24T15:04:05Z");
     RequestEnvelope_Context := None |}.

(** A launch request that opens a session of the sample skill. *)
Definition launch_envelope : RequestEnvelope :=
  sample_envelope (sample_session true "amzn1.ask.skill.sample")
                  (sample_request "LaunchRequest" "2017-06-24T15:04:05Z").

(** An intent request within a session. *)
Definition intent_envelope : RequestEnvelope :=
  sample_envelope (sample_session false "amzn1.ask.skill.sample")
                  (sample_request "IntentRequest" "2017-06-24T15:04:05Z").

(** A request of a type the switch has no case for, opening a session. *)
Definition other_envelope : RequestEnvelope :=
  sample_envelope (sample_session true "amzn1.ask.skill.sample")
                  (sample_request "CanFulfillIntentRequest" "2017-06-24T15:04:05Z").

(** A request sent to another skill, with a timestamp that is no time. *)
Definition foreign_envelope : RequestEnvelope :=
  sample_envelope (sample_session true "amzn1.ask.skill.other")
                  (sample_request "LaunchRequest" "yesterday").

(** A request sent to another skill, with the timestamp of the others. *)
Definition dated_foreign_envelope : RequestEnvelope :=
  sample_envelope (sample_session true "amzn1.ask.skill.other")
                  (sample_request "LaunchRequest" "2017-06-24T15:04:05Z").

(** The package once [SetTimestampTolerance(16777216)] has run: 2^24
    seconds, some 194 days. *)
Definition lenient_package : Package :=
  SetTimestampTolerance (sample_alexa quiet_handler) 16777216 Package_init.

(** A request for the sample skill with a timestamp that is no time. *)
Definition undated_envelope : RequestEnvelope :=
  sample_envelope (sample_session true "amzn1.ask.skill.sample")
                  (sample_request "LaunchRequest" "yesterday").

(** An intent with two slots: a size, and a topping whose value is
    empty. *)
Definition order_intent : Intent :=
  {| Intent_Name := "OrderIntent"; Intent_ConfirmationStatus := ConfNone;
     Intent_Slots :=
       <["size" := {| IntentSlot_Name := "size"; IntentSlot_ConfirmationStatus := ConfNone;
                      IntentSlot_Value := "large"; IntentSlot_Resolutions := None |}]>
       (<["topping" := {| IntentSlot_Name := "topping";
                          IntentSlot_ConfirmationStatus := ConfNone;
                          IntentSlot_Value := ""; IntentSlot_Resolutions := None |}]> ∅) |}.

Definition order_request : Request :=
  {| Request_Locale := "en-GB"; Request_Timestamp := "2017-06-24T15:04:05Z";
     Request_Type := "IntentRequest"; Request_RequestID := "request-2";
     Request_DialogState := ""; Request_Intent := order_intent;
     Request_Name := ""; Request_Reason := "" |}.

(** An intent request with slots, within a session. *)
Definition order_envelope : RequestEnvelope :=
  sample_envelope (sample_session false "amzn1.ask.skill.sample") order_request.

(** An envelope that came without a request, opening a session. *)
Definition requestless_envelope : RequestEnvelope :=
  {| RequestEnvelope_Version := "1.0";
     RequestEnvelope_Session := Some (sample_session true "amzn1.ask.skill.sample");
     RequestEnvelope_Request := None; RequestEnvelope_Context := None |}.

(** [OnLaunch] fails. *)
Definition refusing_handler : @RequestHandler string string unit :=
  {| OnSessionStarted := sample_noop;
     OnLaunch := fun _ o => (Some "no launch today", o);
     OnIntent := sample_noop; OnSessionEnded := sample_noop |}.

(** [OnLaunch] says hello. *)
Definition greeting_handler : @RequestHandler string string unit :=
  {| OnSessionStarted := sample_noop;
     OnLaunch := fun _ o =>
       (None,
        {| obj_request := obj_request o; obj_session := obj_session o;
           obj_context := obj_context o;
           obj_response := SetOutputSpeech "Hello" (obj_response o);
           obj_maps := obj_maps o |});
     OnIntent := sample_noop; OnSessionEnded := sample_noop |}.

(** A skill that ignores both verifications, and has no application
    identifier. *)
Definition lax_alexa (h : @RequestHandler string string unit) : Alexa :=
  {| ApplicationID := ""; Alexa_RequestHandler := h;
     IgnoreApplicationID := true; IgnoreTimestamp := true |}.

(** A program with one map object, the attributes of a session under
    way. *)
Definition one_map : gmap loc (gmap string string) :=
  <[1%positive := <["visits" := "3"]> ∅]> ∅.

(** A request of a type the switch has no case for, in a session that
    carries the attributes of [one_map]. *)
Definition returning_envelope : RequestEnvelope :=
  sample_envelope
    {| Session_New := false; Session_SessionID := "session-1";
       Session_Application_ApplicationID := "amzn1.ask.skill.sample";
       Session_Attributes := Some 1%positive;
       Session_User_UserID := "user-1"; Session_User_AccessToken := "" |}
    (sample_request "CanFulfillIntentRequest" "2017-06-24T15:04:05Z").

(** * float64 arithmetic on durations *)

Local Close Scope string_scope.

(** ** The number of binary digits *)
Lemma digits2_pos_size p : digits2_pos p = Pos.size p.
Proof. induction p; simpl; congruence. Qed.

Lemma digits2_pos_bounds p :
  2 ^ (Z.pos (digits2_pos p) - 1) <= Z.pos p < 2 ^ Z.pos (digits2_pos p).
Proof.
  rewrite digits2_pos_size. split.
  - pose proof (Pos.size_le p) as H.
    assert (Hz : (Z.pos (2 ^ Pos.size p) <= Z.pos p~0)) by exact H.
    rewrite Pos2Z.inj_pow in Hz. change (Z.pos p~0) with (2 * Z.pos p) in Hz.
    replace (Z.pos (Pos.size p)) with (Z.pos (Pos.size p) - 1 + 1) in Hz by lia.
    rewrite Z.pow_add_r, Z.pow_1_r in Hz by lia. lia.
  - pose proof (Pos.size_gt p) as H.
    assert (Hz : (Z.pos p < Z.pos (2 ^ Pos.size p))) by exact H.
    rewrite Pos2Z.inj_pow in Hz. exact Hz.
Qed.

Lemma digits2_pos_unique p d :
  2 ^ (d - 1) <= Z.pos p < 2 ^ d -> Z.pos (digits2_pos p) = d.
Proof.
  intros [Hlo Hhi]. pose proof (digits2_pos_bounds p) as [Hlo' Hhi'].
  assert (0 < d).
  { destruct (Z_lt_le_dec 0 d); [assumption|].
    assert (2 ^ d <= 2 ^ 0) by (apply Z.pow_le_mono_r; lia). simpl in *. lia. }
  destruct (Z_lt_le_dec (Z.pos (digits2_pos p)) d) as [Hlt|Hge].
  - assert (2 ^ Z.pos (digits2_pos p) <= 2 ^ (d - 1)) by (apply Z.pow_le_mono_r; lia). lia.
  - destruct (Z_lt_le_dec d (Z.pos (digits2_pos p))) as [Hlt|Hle]; [|lia].
    assert (2 ^ d <= 2 ^ (Z.pos (digits2_pos p) - 1)) by (apply Z.pow_le_mono_r; lia). lia.
Qed.

(** ** Powers of two *)
Lemma pow2_pos n : 0 <= n -> 0 < 2 ^ n.
Proof. intros. apply Z.pow_pos_nonneg; lia. Qed.

Lemma pow2_split a b : 0 <= a -> 0 <= b -> 2 ^ (a + b) = 2 ^ a * 2 ^ b.
Proof. intros. apply Z.pow_add_r; lia. Qed.

Lemma pow2_le a b : 0 <= a <= b -> 2 ^ a <= 2 ^ b.
Proof. intros. apply Z.pow_le_mono_r; lia. Qed.

Lemma pow2_lt_inv a b : 0 <= a -> 0 <= b -> 2 ^ a < 2 ^ b -> a < b.
Proof.
  intros Ha Hb H. destruct (Z_lt_le_dec a b) as [|Hle]; [assumption|].
  assert (2 ^ b <= 2 ^ a) by (apply pow2_le; lia). lia.
Qed.

Lemma pow2_divide a b : 0 <= a <= b -> (2 ^ a | 2 ^ b).
Proof.
  intros H. exists (2 ^ (b - a)). rewrite <- pow2_split by lia. f_equal. lia.
Qed.

(** ** Shifting a mantissa right *)
Lemma shr_1_m mrs : 0 <= shr_m mrs -> shr_m (shr_1 mrs) = shr_m mrs / 2.
Proof.
  destruct mrs as [m r s]. cbn [shr_m]. intros Hm.
  destruct m as [|[p|p|]|p]; cbn [shr_1 shr_m]; try lia.
  - reflexivity.
  - rewrite Pos2Z.inj_xI. apply Z.div_unique with (r := 1); lia.
  - rewrite Pos2Z.inj_xO. apply Z.div_unique with (r := 0); lia.
  - reflexivity.
Qed.

Lemma shr_1_nonneg mrs : 0 <= shr_m mrs -> 0 <= shr_m (shr_1 mrs).
Proof. intros H. rewrite shr_1_m by exact H. apply Z.div_pos; lia. Qed.

Lemma pow2_xO k : 2 ^ Z.pos k~0 = 2 ^ Z.pos k * 2 ^ Z.pos k.
Proof.
  replace (Z.pos k~0) with (Z.pos k + Z.pos k) by lia.
  apply Z.pow_add_r; lia.
Qed.

Lemma pow2_xI k : 2 ^ Z.pos k~1 = 2 * (2 ^ Z.pos k * 2 ^ Z.pos k).
Proof.
  replace (Z.pos k~1) with (1 + (Z.pos k + Z.pos k)) by lia.
  rewrite Z.pow_add_r by lia. rewrite Z.pow_add_r by lia. reflexivity.
Qed.

Lemma iter_pos_shr_1 k : forall mrs,
  0 <= shr_m mrs ->
  shr_m (SpecFloat.iter_pos shr_1 k mrs) = shr_m mrs / 2 ^ Z.pos k.
Proof.
  induction k as [k IH|k IH|]; intros mrs Hm; cbn [SpecFloat.iter_pos].
  - assert (H1 : 0 <= shr_m (shr_1 mrs)) by (apply shr_1_nonneg; exact Hm).
    assert (H2 : 0 <= shr_m (SpecFloat.iter_pos shr_1 k (shr_1 mrs))).
    { rewrite IH by exact H1. apply Z.div_pos; lia. }
    rewrite IH by exact H2. rewrite IH by exact H1. rewrite shr_1_m by exact Hm.
    rewrite !Z.div_div by lia. rewrite pow2_xI. reflexivity.
  - assert (H2 : 0 <= shr_m (SpecFloat.iter_pos shr_1 k mrs)).
    { rewrite IH by exact Hm. apply Z.div_pos; lia. }
    rewrite IH by exact H2. rewrite IH by exact Hm.
    rewrite !Z.div_div by lia. rewrite pow2_xO. reflexivity.
  - rewrite shr_1_m by exact Hm. rewrite Z.pow_1_r. reflexivity.
Qed.

Lemma round_nearest_even_cases m l :
  round_nearest_even m l = m \/ round_nearest_even m l = m + 1.
Proof.
  unfold round_nearest_even. destruct l as [|[| |]]; auto.
  destruct (Z.even m); auto.
Qed.

Lemma shr_m_of_loc m l : shr_m (shr_record_of_loc m l) = m.
Proof. destruct l as [|[| |]]; reflexivity. Qed.

Lemma shr_spec mrs e n :
  0 <= n -> 0 <= shr_m mrs ->
  snd (shr mrs e n) = e + n /\ shr_m (fst (shr mrs e n)) = shr_m mrs / 2 ^ n.
Proof.
  intros Hn Hm. unfold shr. destruct n as [|p|p]; cbn [fst snd].
  - rewrite Z.add_0_r, Z.pow_0_r, Z.div_1_r. auto.
  - split; [reflexivity|]. apply iter_pos_shr_1. exact Hm.
  - lia.
Qed.

(** ** The bits shifted out *)
Lemma shr_1_r mrs : 0 <= shr_m mrs -> shr_r (shr_1 mrs) = Z.odd (shr_m mrs).
Proof.
  destruct mrs as [m r s]. cbn [shr_m]. intros Hm.
  destruct m as [|[p|p|]|p]; try lia; reflexivity.
Qed.

Lemma shr_1_s mrs : 0 <= shr_m mrs -> shr_s (shr_1 mrs) = orb (shr_r mrs) (shr_s mrs).
Proof.
  destruct mrs as [m r s]. cbn [shr_m]. intros Hm.
  destruct m as [|[p|p|]|p]; try lia; reflexivity.
Qed.

Lemma shifted_start M : shifted M 0 (Build_shr_record M false false).
Proof.
  unfold shifted. cbn [shr_m shr_r shr_s]. rewrite Z.pow_0_r, Z.div_1_r, Z.mod_1_r.
  split; [reflexivity|]. split; split; try discriminate; lia.
Qed.

Lemma shifted_step M j mrs :
  0 <= M -> 0 <= j -> shifted M j mrs -> shifted M (j + 1) (shr_1 mrs).
Proof.
  intros HM Hj (Hm & Hr & Hs).
  assert (Hp : 0 < 2 ^ j) by (apply pow2_pos; lia).
  assert (Hm0 : 0 <= shr_m mrs) by (rewrite Hm; apply Z.div_pos; lia).
  assert (Hpow : 2 ^ (j + 1) = 2 ^ j * 2) by (rewrite pow2_split by lia; reflexivity).
  pose proof (Z.mod_pos_bound M (2 ^ j) Hp) as HR.
  assert (Hrem : M mod 2 ^ (j + 1) = M mod 2 ^ j + 2 ^ j * ((M / 2 ^ j) mod 2)).
  { rewrite Hpow. apply Z.rem_mul_r; lia. }
  pose proof (Z.mod_pos_bound (M / 2 ^ j) 2 ltac:(lia)) as Hb.
  assert (Hodd : Z.odd (shr_m mrs) = true <-> (M / 2 ^ j) mod 2 = 1).
  { rewrite Hm, Zmod_odd. destruct (Z.odd (M / 2 ^ j)); split; intros; lia || congruence. }
  assert (Hc : (M / 2 ^ j) mod 2 = 0 \/ (M / 2 ^ j) mod 2 = 1) by lia.
  unfold shifted. rewrite shr_1_m, shr_1_r, shr_1_s by exact Hm0.
  split; [|split].
  - rewrite Hm, Z.div_div by lia. rewrite Hpow. reflexivity.
  - rewrite Hodd, Hrem, Hpow. destruct Hc as [Hc|Hc]; rewrite Hc; lia.
  - rewrite Bool.orb_true_iff, Hr, Hs, Hrem, Hpow.
    destruct Hc as [Hc|Hc]; rewrite Hc; lia.
Qed.

Lemma iter_pos_nat {A} (f : A -> A) k x :
  SpecFloat.iter_pos f k x = Nat.iter (Pos.to_nat k) f x.
Proof.
  revert x. induction k as [k IH|k IH|]; intros x; cbn [SpecFloat.iter_pos].
  - rewrite Pos2Nat.inj_xI. rewrite !IH.
    replace (S (2 * Pos.to_nat k)) with (Pos.to_nat k + (Pos.to_nat k + 1))%nat by lia.
    rewrite !Nat.iter_add. reflexivity.
  - rewrite Pos2Nat.inj_xO. rewrite !IH.
    replace (2 * Pos.to_nat k)%nat with (Pos.to_nat k + Pos.to_nat k)%nat by lia.
    rewrite Nat.iter_add. reflexivity.
  - reflexivity.
Qed.

Lemma shifted_iter M n :
  0 <= M -> shifted M (Z.of_nat n) (Nat.iter n shr_1 (Build_shr_record M false false)).
Proof.
  intros HM. induction n as [|n IH].
  - apply shifted_start.
  - rewrite Nat2Z.inj_succ. unfold Z.succ. cbn [Nat.iter].
    apply shifted_step; [exact HM|lia|exact IH].
Qed.

Lemma shr_exact_shifted M e k :
  0 <= M -> 0 <= k -> shifted M k (fst (shr (shr_record_of_loc M loc_Exact) e k)).
Proof.
  intros HM Hk. cbn [shr_record_of_loc]. unfold shr. destruct k as [|p|p]; try lia.
  - apply shifted_start.
  - cbn [fst]. rewrite iter_pos_nat. rewrite <- (positive_nat_Z p). apply shifted_iter, HM.
Qed.

(** ** Rounding to 53 bits *)
Lemma fexp_normal e : -1074 <= e - 53 -> fexp 53 1024 e = e - 53.
Proof. intros H. unfold fexp, emin. lia. Qed.

Lemma shr_fexp_spec m e l :
  0 < m -> 53 <= Zdigits2 m -> -1074 <= e ->
  snd (shr_fexp 53 1024 m e l) = e + (Zdigits2 m - 53) /\
  shr_m (fst (shr_fexp 53 1024 m e l)) = m / 2 ^ (Zdigits2 m - 53).
Proof.
  intros Hm Hd He. unfold shr_fexp.
  rewrite fexp_normal by lia.
  replace (Zdigits2 m + e - 53 - e) with (Zdigits2 m - 53) by lia.
  pose proof (shr_spec (shr_record_of_loc m l) e (Zdigits2 m - 53)) as H.
  rewrite shr_m_of_loc in H. apply H; lia.
Qed.

Lemma Zdigits2_unique m d : 0 < m -> 2 ^ (d - 1) <= m < 2 ^ d -> Zdigits2 m = d.
Proof. destruct m as [|p|p]; try lia. intros _. apply digits2_pos_unique. Qed.

Lemma div_pow2_bounds m d k :
  0 <= k -> k < d -> 2 ^ (d - 1) <= m < 2 ^ d ->
  2 ^ (d - k - 1) <= m / 2 ^ k < 2 ^ (d - k).
Proof.
  intros Hk Hkd [Hlo Hhi].
  assert (Hp : 0 < 2 ^ k) by (apply Z.pow_pos_nonneg; lia).
  split.
  - apply Z.div_le_lower_bound; [exact Hp|].
    rewrite <- Z.pow_add_r by lia. replace (k + (d - k - 1)) with (d - 1) by lia. exact Hlo.
  - apply Z.div_lt_upper_bound; [exact Hp|].
    rewrite <- Z.pow_add_r by lia. replace (k + (d - k)) with d by lia. exact Hhi.
Qed.

Lemma binary_round_aux_value sx m e l :
  53 <= Z.pos (digits2_pos m) ->
  -1074 <= e ->
  Z.pos (digits2_pos m) + e <= 1023 ->
  exists m' e',
    binary_round_aux 53 1024 sx (Z.pos m) e l = S754_finite sx m' e' /\
    Z.pos (digits2_pos m') = 53 /\
    e + (Z.pos (digits2_pos m) - 53) <= e' /\
    (Z.pos m' * 2 ^ (e' - (e + (Z.pos (digits2_pos m) - 53)))
       = Z.pos m / 2 ^ (Z.pos (digits2_pos m) - 53) \/
     Z.pos m' * 2 ^ (e' - (e + (Z.pos (digits2_pos m) - 53)))
       = Z.pos m / 2 ^ (Z.pos (digits2_pos m) - 53) + 1) /\
    (l = loc_Exact ->
     2 ^ (Z.pos (digits2_pos m) - 53)
       < 2 * (Z.pos m mod 2 ^ (Z.pos (digits2_pos m) - 53)) ->
     Z.pos m' * 2 ^ (e' - (e + (Z.pos (digits2_pos m) - 53)))
       = Z.pos m / 2 ^ (Z.pos (digits2_pos m) - 53) + 1).
Proof.
  intros Hd He Hmax. set (d := Z.pos (digits2_pos m)) in *. set (k := d - 53).
  unfold binary_round_aux.
  destruct (shr_fexp_spec (Z.pos m) e l) as [He1 Hm1]; [lia|exact Hd|exact He|].
  assert (Hsh : l = loc_Exact ->
                shifted (Z.pos m) k (fst (shr_fexp 53 1024 (Z.pos m) e l))).
  { intros ->. unfold shr_fexp. cbn [Zdigits2]. fold d. rewrite fexp_normal by lia.
    replace (d + e - 53 - e) with k by (unfold k; lia).
    apply shr_exact_shifted; lia. }
  change (Zdigits2 (Z.pos m)) with d in He1, Hm1. fold k in He1, Hm1.
  destruct (shr_fexp 53 1024 (Z.pos m) e l) as [mrs1 e1]. cbn [fst snd] in He1, Hm1, Hsh.
  set (mk := Z.pos m / 2 ^ k) in *.
  assert (Hmk : 2 ^ 52 <= mk < 2 ^ 53).
  { pose proof (div_pow2_bounds (Z.pos m) d k) as H.
    replace (d - k - 1) with 52 in H by lia. replace (d - k) with 53 in H by lia.
    apply H; [lia|lia|]. apply digits2_pos_bounds. }
  set (m1 := round_nearest_even (shr_m mrs1) (loc_of_shr_record mrs1)).
  assert (Hm1' : m1 = mk \/ m1 = mk + 1).
  { unfold m1. rewrite <- Hm1. apply round_nearest_even_cases. }
  assert (Hup : l = loc_Exact -> 2 ^ k < 2 * (Z.pos m mod 2 ^ k) -> m1 = mk + 1).
  { intros Hl Hhalf. destruct (Hsh Hl) as (_ & Hr & Hs).
    assert (Hr1 : shr_r mrs1 = true) by (apply Hr; lia).
    assert (Hs1 : shr_s mrs1 = true) by (apply Hs; lia).
    unfold m1. rewrite <- Hm1. destruct mrs1 as [mm rr ss].
    cbn [shr_m shr_r shr_s] in *. subst rr ss. reflexivity. }
  assert (Hm1pos : 0 < m1) by lia.
  assert (Hcase : Zdigits2 m1 = 53 \/ (m1 = 2 ^ 53 /\ Zdigits2 m1 = 54)).
  { destruct (Z.eq_dec m1 (2 ^ 53)) as [Heq|Hne].
    - right. split; [exact Heq|]. apply Zdigits2_unique; [lia|]. rewrite Heq.
      change (54 - 1) with 53. split; [lia|]. apply Z.pow_lt_mono_r; lia.
    - left. apply Zdigits2_unique; [lia|]. change (53 - 1) with 52. lia. }
  destruct (shr_fexp_spec m1 e1 loc_Exact) as [He2 Hm2]; [lia|lia|lia|].
  destruct (shr_fexp 53 1024 m1 e1 loc_Exact) as [mrs2 e2]. cbn [fst snd] in He2, Hm2.
  destruct Hcase as [H53|[H2p H54]].
  - rewrite H53 in He2, Hm2. change (53 - 53) with 0 in He2, Hm2.
    rewrite Z.pow_0_r, Z.div_1_r in Hm2. rewrite Z.add_0_r in He2.
    rewrite Hm2. destruct m1 as [|p1|p1]; try lia.
    assert (Hle : (e2 <=? 1024 - 53) = true) by (apply Z.leb_le; lia).
    rewrite Hle. exists p1, e2. split; [reflexivity|]. split; [exact H53|].
    split; [lia|]. replace (e2 - (e + k)) with 0 by lia. rewrite Z.pow_0_r, Z.mul_1_r.
    split; [exact Hm1'|exact Hup].
  - rewrite H54 in He2, Hm2. change (54 - 53) with 1 in He2, Hm2.
    rewrite Z.pow_1_r in Hm2. rewrite H2p in Hm2.
    assert (Hhalf : 2 ^ 53 / 2 = 2 ^ 52) by reflexivity. rewrite Hhalf in Hm2.
    rewrite Hm2. change (2 ^ 52) with (Z.pos (2 ^ 52)).
    assert (Hle : (e2 <=? 1024 - 53) = true) by (apply Z.leb_le; lia).
    rewrite Hle. exists (2 ^ 52)%positive, e2. split; [reflexivity|].
    split; [reflexivity|]. split; [lia|].
    replace (e2 - (e + k)) with 1 by lia. rewrite Z.pow_1_r.
    change (Z.pos (2 ^ 52) * 2) with (2 ^ 53). rewrite <- H2p.
    split; [exact Hm1'|exact Hup].
Qed.

(** Rounding brackets the value between the neighbouring multiples of the
    unit in the last place. *)
Lemma round_bracket sx m e l D :
  53 <= Z.pos (digits2_pos m) ->
  -128 <= e ->
  D <= 1023 ->
  Z.pos m * 2 ^ (e + 128) < 2 ^ (D + 128) ->
  exists r,
    binary_round_aux 53 1024 sx (Z.pos m) e l = r /\
    normal sx r /\
    forall c,
      (2 ^ (D + 75) | c) ->
      (c <= Z.pos m * 2 ^ (e + 128) -> c <= magnitude r) /\
      (Z.pos m * 2 ^ (e + 128) < c -> magnitude r <= c).
Proof.
  intros Hd He HD HX.
  set (d := Z.pos (digits2_pos m)) in *.
  pose proof (digits2_pos_bounds m) as [Hlo Hhi]. fold d in Hlo, Hhi.
  assert (Hde : d + e <= D).
  { assert (H : 2 ^ (d - 1 + (e + 128)) < 2 ^ (D + 128)).
    { rewrite pow2_split by lia. pose proof (pow2_pos (e + 128)). nia. }
    assert (0 <= D + 128).
    { destruct (Z_lt_le_dec (D + 128) 0) as [Hneg|]; [|lia].
      rewrite (Z.pow_neg_r 2 (D + 128)) in H by lia.
      pose proof (pow2_pos (d - 1 + (e + 128))). lia. }
    apply pow2_lt_inv in H; lia. }
  destruct (binary_round_aux_value sx m e l) as (m' & e' & Hr & Hd' & He' & Hval & _);
    [exact Hd|lia|lia|].
  fold d in He', Hval. set (k := d - 53) in *.
  exists (S754_finite sx m' e'). split; [exact Hr|]. split.
  { cbn [normal]. split; [reflexivity|]. split; [exact Hd'|lia]. }
  intros c Hc. cbn [magnitude].
  set (U := 2 ^ (e + k + 128)).
  assert (HU : 0 < U) by (apply pow2_pos; lia).
  assert (HcU : (U | c)).
  { apply Z.divide_trans with (2 ^ (D + 75)); [|exact Hc]. apply pow2_divide. lia. }
  destruct HcU as [c' ->].
  set (mk := Z.pos m / 2 ^ k) in *.
  assert (Hk2 : 0 < 2 ^ k) by (apply pow2_pos; lia).
  assert (Hmk : 2 ^ k * mk <= Z.pos m < 2 ^ k * (mk + 1)).
  { unfold mk. pose proof (Z.mul_div_le (Z.pos m) (2 ^ k) Hk2).
    pose proof (Z.mul_succ_div_gt (Z.pos m) (2 ^ k) Hk2). lia. }
  assert (HUk : U = 2 ^ k * 2 ^ (e + 128)).
  { unfold U. rewrite <- pow2_split by lia. f_equal. lia. }
  assert (He128 : 0 < 2 ^ (e + 128)) by (apply pow2_pos; lia).
  assert (Hmag : Z.pos m' * 2 ^ (e' + 128) = Z.pos m' * 2 ^ (e' - (e + k)) * U).
  { unfold U. rewrite <- Z.mul_assoc. rewrite <- pow2_split by lia. do 2 f_equal. lia. }
  rewrite Hmag.
  assert (HXlo : mk * U <= Z.pos m * 2 ^ (e + 128)) by (rewrite HUk; nia).
  assert (HXhi : Z.pos m * 2 ^ (e + 128) < (mk + 1) * U) by (rewrite HUk; nia).
  split; intros Hcx.
  - assert (c' <= mk) by nia. destruct Hval as [-> | ->]; nia.
  - assert (mk + 1 <= c') by nia. destruct Hval as [-> | ->]; nia.
Qed.

(** To nearest: an exact value more than half a unit above the multiple
    below it is rounded up. [D] is the binade of the value. *)
Lemma round_above_half sx m e D :
  53 <= Z.pos (digits2_pos m) ->
  -128 <= e ->
  D <= 1023 ->
  2 ^ (D + 127) <= Z.pos m * 2 ^ (e + 128) < 2 ^ (D + 128) ->
  forall c,
    (2 ^ (D + 75) | c) ->
    2 * c - 2 ^ (D + 75) < 2 * (Z.pos m * 2 ^ (e + 128)) ->
    c <= magnitude (binary_round_aux 53 1024 sx (Z.pos m) e loc_Exact).
Proof.
  intros Hd He HD [HXlo HXhi] c Hc Hhalf.
  set (d := Z.pos (digits2_pos m)) in *.
  pose proof (digits2_pos_bounds m) as [Hlo Hhi]. fold d in Hlo, Hhi.
  assert (He128 : 0 < 2 ^ (e + 128)) by (apply pow2_pos; lia).
  assert (HDe : d + e = D).
  { assert (H1 : 2 ^ (d - 1 + (e + 128)) < 2 ^ (D + 128)).
    { rewrite pow2_split by lia. nia. }
    assert (0 <= D + 128).
    { destruct (Z_lt_le_dec (D + 128) 0) as [Hneg|]; [|lia].
      rewrite (Z.pow_neg_r 2 (D + 128)) in H1 by lia.
      pose proof (pow2_pos (d - 1 + (e + 128))). lia. }
    apply pow2_lt_inv in H1; [|lia|lia].
    assert (H2 : 2 ^ (D + 127) < 2 ^ (d + (e + 128))).
    { rewrite (pow2_split d (e + 128)) by lia.
      apply Z.le_lt_trans with (Z.pos m * 2 ^ (e + 128)); [exact HXlo|].
      apply Z.mul_lt_mono_pos_r; assumption. }
    destruct (Z_lt_le_dec (D + 127) 0) as [Hneg|Hnn]; [lia|].
    apply pow2_lt_inv in H2; lia. }
  destruct (binary_round_aux_value sx m e loc_Exact) as (m' & e' & Hr & Hd' & He' & Hval & Hup);
    [exact Hd|lia|lia|].
  fold d in He', Hval, Hup. set (k := d - 53) in *.
  rewrite Hr. cbn [magnitude].
  set (U := 2 ^ (e + k + 128)).
  assert (HU : 0 < U) by (apply pow2_pos; lia).
  assert (HUD : 2 ^ (D + 75) = U) by (unfold U; f_equal; lia).
  rewrite HUD in Hc, Hhalf. destruct Hc as [c' ->].
  set (mk := Z.pos m / 2 ^ k) in *.
  assert (Hk2 : 0 < 2 ^ k) by (apply pow2_pos; lia).
  assert (Hmk : 2 ^ k * mk <= Z.pos m < 2 ^ k * (mk + 1)).
  { unfold mk. pose proof (Z.mul_div_le (Z.pos m) (2 ^ k) Hk2).
    pose proof (Z.mul_succ_div_gt (Z.pos m) (2 ^ k) Hk2). lia. }
  assert (HUk : U = 2 ^ k * 2 ^ (e + 128)).
  { unfold U. rewrite <- pow2_split by lia. f_equal. lia. }
  assert (Hmag : Z.pos m' * 2 ^ (e' + 128) = Z.pos m' * 2 ^ (e' - (e + k)) * U).
  { unfold U. rewrite <- Z.mul_assoc. rewrite <- pow2_split by lia. do 2 f_equal. lia. }
  rewrite Hmag.
  destruct (Z_le_gt_dec c' mk) as [Hle|Hgt].
  - destruct Hval as [-> | ->]; nia.
  - assert (HXhi' : Z.pos m * 2 ^ (e + 128) < (mk + 1) * U) by (rewrite HUk; nia).
    assert (Hc' : c' = mk + 1) by nia.
    rewrite Hup; [nia|reflexivity|].
    rewrite Z.mod_eq by lia. fold mk.
    assert ((2 * mk + 1) * 2 ^ k < 2 * Z.pos m); [|lia].
    subst c'. rewrite HUk in Hhalf. nia.
Qed.

(** Rounding an exactly representable value changes nothing. *)
Lemma binary_round_aux_exact sx m e :
  Z.pos (digits2_pos m) = 53 -> -1074 <= e <= 971 ->
  binary_round_aux 53 1024 sx (Z.pos m) e loc_Exact = S754_finite sx m e.
Proof.
  intros Hd He. unfold binary_round_aux, shr_fexp. cbn [Zdigits2 shr_record_of_loc].
  rewrite Hd, fexp_normal by lia. replace (53 + e - 53 - e) with 0 by lia.
  cbn [shr shr_m loc_of_shr_record round_nearest_even Zdigits2 shr_record_of_loc].
  rewrite Hd, fexp_normal by lia. replace (53 + e - 53 - e) with 0 by lia.
  cbn [shr shr_m]. assert (Hle : (e <=? 1024 - 53) = true) by (apply Z.leb_le; lia).
  rewrite Hle. reflexivity.
Qed.

Lemma iter_xO_value m d : Z.pos (Pos.iter xO m d) = Z.pos m * 2 ^ Z.pos d.
Proof.
  revert m. induction d as [d IH|d IH|]; intros m; cbn [Pos.iter].
  - rewrite Pos2Z.inj_xO, !IH, pow2_xI. lia.
  - rewrite !IH, pow2_xO. lia.
  - rewrite Pos2Z.inj_xO, Z.pow_1_r. lia.
Qed.

Lemma shl_align_spec mx ex ex' :
  Z.pos (fst (shl_align mx ex ex')) = Z.pos mx * 2 ^ (ex - snd (shl_align mx ex ex')) /\
  snd (shl_align mx ex ex') = Z.min ex ex'.
Proof.
  unfold shl_align. destruct (ex' - ex) as [|p|p] eqn:Hs; cbn [fst snd].
  - replace (ex - ex) with 0 by lia. rewrite Z.pow_0_r. lia.
  - replace (ex - ex) with 0 by lia. rewrite Z.pow_0_r. lia.
  - rewrite iter_xO_value. replace (ex - ex') with (Z.pos p) by lia. lia.
Qed.

Lemma digits2_pos_shift m k d :
  0 <= k -> Z.pos d = Z.pos m * 2 ^ k ->
  Z.pos (digits2_pos d) = Z.pos (digits2_pos m) + k.
Proof.
  intros Hk Heq. apply digits2_pos_unique. rewrite Heq.
  pose proof (digits2_pos_bounds m) as [Hlo Hhi]. pose proof (pow2_pos k Hk).
  replace (Z.pos (digits2_pos m) + k - 1) with (Z.pos (digits2_pos m) - 1 + k) by lia.
  rewrite !pow2_split by lia. nia.
Qed.

(** Conversion of an integer below 2^53 is exact. *)
Lemma binary_round_int sx p :
  Z.pos p < 2 ^ 53 ->
  exists r,
    binary_round 53 1024 sx p 0 = r /\ normal sx r /\ magnitude r = Z.pos p * 2 ^ 128.
Proof.
  intros Hp. unfold binary_round.
  pose proof (digits2_pos_bounds p) as [Hlo Hhi].
  set (d := Z.pos (digits2_pos p)) in *.
  assert (Hd : d <= 53).
  { destruct (Z_lt_le_dec 53 d) as [Hlt|]; [|lia].
    assert (2 ^ 53 <= 2 ^ (d - 1)) by (apply pow2_le; lia). lia. }
  assert (Hd0 : 0 < d) by (unfold d; lia).
  rewrite Z.add_0_r, fexp_normal by lia.
  pose proof (shl_align_spec p 0 (d - 53)) as [Hm He].
  destruct (shl_align p 0 (d - 53)) as [mz ez]. cbn [fst snd] in Hm, He.
  rewrite Z.min_r in He by lia. subst ez.
  replace (0 - (d - 53)) with (53 - d) in Hm by lia.
  assert (Hdz : Z.pos (digits2_pos mz) = 53).
  { rewrite (digits2_pos_shift p (53 - d) mz) by (lia || exact Hm). fold d. lia. }
  rewrite binary_round_aux_exact by lia.
  eexists. split; [reflexivity|]. split.
  - cbn [normal]. split; [reflexivity|]. split; [exact Hdz|lia].
  - cbn [magnitude]. rewrite Hm, <- Z.mul_assoc, <- pow2_split by lia.
    do 2 f_equal. lia.
Qed.

Lemma SFdiv_core_normal m1 e1 m2 e2 :
  Z.pos (digits2_pos m1) = 53 -> Z.pos (digits2_pos m2) = 53 ->
  -1074 <= e1 - e2 - 53 ->
  SFdiv_core_binary 53 1024 (Z.pos m1) e1 (Z.pos m2) e2
  = (Z.pos m1 * 2 ^ 53 / Z.pos m2, e1 - e2 - 53,
     new_location (Z.pos m2) (Z.pos m1 * 2 ^ 53 mod Z.pos m2)).
Proof.
  intros H1 H2 He. unfold SFdiv_core_binary. cbn [Zdigits2]. rewrite H1, H2.
  replace (53 + e1 - (53 + e2)) with (e1 - e2) by lia.
  rewrite fexp_normal by lia. rewrite Z.min_l by lia.
  replace (e1 - e2 - (e1 - e2 - 53)) with 53 by lia.
  rewrite Z.shiftl_mul_pow2 by lia.
  unfold Z.div, Z.modulo.
  destruct (Z.div_eucl (Z.pos m1 * 2 ^ 53) (Z.pos m2)) as [q r]. reflexivity.
Qed.

Lemma normal_mantissa s s' m e :
  normal s (S754_finite s' m e) -> 2 ^ 52 <= Z.pos m < 2 ^ 53.
Proof.
  intros (_ & Hd & _). pose proof (digits2_pos_bounds m) as H. rewrite Hd in H.
  exact H.
Qed.

(** Division of an integer between 1 and 10^9 - 1 by 10^9. *)
Lemma div_billion s x n :
  normal s x -> magnitude x = n * 2 ^ 128 -> 1 <= n < 10 ^ 9 ->
  exists r,
    SFdiv 53 1024 x (binary_normalize 53 1024 1000000000 0 false) = r /\
    normal s r /\
    2 ^ 98 + 2 ^ 75 <= magnitude r <= 2 ^ 128 - 2 ^ 75.
Proof.
  intros Hx Hmag Hn.
  change (binary_normalize 53 1024 1000000000 0 false)
    with (S754_finite false 8388608000000000 (-23)).
  destruct x as [| | |s' m1 e1]; try contradiction.
  destruct Hx as (-> & Hd1 & He1). cbn [magnitude] in Hmag.
  pose proof (digits2_pos_bounds m1) as Hm1. rewrite Hd1 in Hm1.
  change (53 - 1) with 52 in Hm1.
  assert (Hp : 0 < 2 ^ (e1 + 128)) by (apply pow2_pos; lia).
  (* the exponent of [x] *)
  assert (He1hi : e1 <= -23).
  { destruct (Z_lt_le_dec (-23) e1) as [Hgt|]; [|lia].
    assert (2 ^ 106 <= 2 ^ (e1 + 128)) by (apply pow2_le; lia).
    assert (2 ^ 52 * 2 ^ 106 <= Z.pos m1 * 2 ^ (e1 + 128)) by nia.
    change (2 ^ 52 * 2 ^ 106) with (2 ^ 30 * 2 ^ 128) in *.
    assert (n < 2 ^ 30) by (change (2 ^ 30) with 1073741824; change (10 ^ 9) with 1000000000 in Hn; lia).
    nia. }
  assert (He1lo : -52 <= e1).
  { destruct (Z_lt_le_dec e1 (-52)) as [Hlt|]; [|lia].
    assert (2 ^ (e1 + 128) <= 2 ^ 75) by (apply pow2_le; lia).
    assert (Z.pos m1 * 2 ^ (e1 + 128) < 2 ^ 53 * 2 ^ 75) by nia.
    change (2 ^ 53 * 2 ^ 75) with (1 * 2 ^ 128) in *. nia. }
  set (a := 30 - e1).
  assert (Hm1n : Z.pos m1 = n * 2 ^ (- e1)).
  { assert (H : 2 ^ 128 = 2 ^ (- e1) * 2 ^ (e1 + 128)).
    { rewrite <- pow2_split by lia. f_equal. lia. }
    rewrite H in Hmag. nia. }
  unfold SFdiv. rewrite SFdiv_core_normal by (reflexivity || lia || exact Hd1).
  set (q := Z.pos m1 * 2 ^ 53 / 8388608000000000).
  assert (Hq : q = n * 2 ^ a / 10 ^ 9).
  { unfold q. rewrite Hm1n.
    replace (n * 2 ^ (- e1) * 2 ^ 53) with (n * 2 ^ a * 2 ^ 23).
    - change 8388608000000000 with (10 ^ 9 * 2 ^ 23).
      apply Z.div_mul_cancel_r; lia.
    - unfold a. replace (30 - e1) with (- e1 + 30) by lia.
      rewrite pow2_split by lia. change (2 ^ 53) with (2 ^ 30 * 2 ^ 23). lia. }
  assert (Ha : 53 <= a <= 82) by (unfold a; lia).
  assert (H2a : 2 ^ a = 2 ^ (a - 53) * 2 ^ 53).
  { rewrite <- pow2_split by lia. f_equal. lia. }
  assert (H2a' : 2 ^ a = 2 ^ (a - 30) * 2 ^ 30).
  { rewrite <- pow2_split by lia. f_equal. lia. }
  assert (Hpa : 0 < 2 ^ (a - 53)) by (apply pow2_pos; lia).
  assert (Hpa' : 0 < 2 ^ (a - 30)) by (apply pow2_pos; lia).
  assert (H2a30 : 2 ^ (a - 30) = 2 ^ (a - 53) * 2 ^ 23).
  { rewrite <- pow2_split by lia. f_equal. lia. }
  assert (Hqlo : 2 ^ (a - 30) + 2 ^ (a - 53) <= q).
  { rewrite Hq. apply Z.div_le_lower_bound; [reflexivity|].
    rewrite H2a30, H2a. change (10 ^ 9) with 1000000000 in *.
    change (2 ^ 23) with 8388608. change (2 ^ 53) with 9007199254740992. nia. }
  assert (Hqhi : q < 2 ^ a - 2 ^ (a - 53)).
  { rewrite Hq. apply Z.div_lt_upper_bound; [reflexivity|].
    rewrite H2a. change (10 ^ 9) with 1000000000 in *.
    change (2 ^ 53) with 9007199254740992. nia. }
  assert (Hq52 : 2 ^ 52 <= q).
  { unfold q. apply Z.div_le_lower_bound; [reflexivity|].
    change (2 ^ 53) with 9007199254740992. change (2 ^ 52) with 4503599627370496 in *.
    lia. }
  destruct q as [|pq|pq] eqn:Hpq; try lia.
  assert (Hdq : 53 <= Z.pos (digits2_pos pq)).
  { pose proof (digits2_pos_bounds pq) as [_ Hhi].
    destruct (Z_lt_le_dec (Z.pos (digits2_pos pq)) 53) as [Hlt|]; [|lia].
    assert (2 ^ Z.pos (digits2_pos pq) <= 2 ^ 52) by (apply pow2_le; lia). lia. }
  replace (e1 - -23 - 53) with (- a) by (unfold a; lia).
  assert (Hscale : 2 ^ 128 = 2 ^ a * 2 ^ (- a + 128)).
  { rewrite <- pow2_split by lia. f_equal. lia. }
  assert (Hps : 0 < 2 ^ (- a + 128)) by (apply pow2_pos; lia).
  destruct (round_bracket (xorb s false) pq (- a)
              (new_location 8388608000000000 (Z.pos m1 * 2 ^ 53 mod 8388608000000000)) 0)
    as (r & Hr & Hnr & Hbr); [exact Hdq|lia|lia| |].
  { change (0 + 128) with 128. rewrite Hscale. nia. }
  exists r. split; [exact Hr|]. split.
  { destruct s; exact Hnr. }
  split.
  - apply (Hbr (2 ^ 98 + 2 ^ 75)).
    + change (0 + 75) with 75. exists (2 ^ 23 + 1). reflexivity.
    + assert (H98 : 2 ^ 98 = 2 ^ (a - 30) * 2 ^ (- a + 128)).
      { rewrite <- pow2_split by lia. f_equal. lia. }
      assert (H75 : 2 ^ 75 = 2 ^ (a - 53) * 2 ^ (- a + 128)).
      { rewrite <- pow2_split by lia. f_equal. lia. }
      rewrite H98, H75. nia.
  - apply (Hbr (2 ^ 128 - 2 ^ 75)).
    + change (0 + 75) with 75. exists (2 ^ 53 - 1). reflexivity.
    + assert (H75 : 2 ^ 75 = 2 ^ (a - 53) * 2 ^ (- a + 128)).
      { rewrite <- pow2_split by lia. f_equal. lia. }
      rewrite Hscale, H75. nia.
Qed.

(** Addition of two normal numbers of the same sign rounds their exact
    sum. *)
Lemma SFadd_same_sign s x y :
  normal s x -> normal s y ->
  exists M ez,
    SFadd 53 1024 x y = binary_round_aux 53 1024 s (Z.pos M) ez loc_Exact /\
    53 <= Z.pos (digits2_pos M) /\
    -128 <= ez /\
    Z.pos M * 2 ^ (ez + 128) = magnitude x + magnitude y.
Proof.
  intros Hx Hy.
  destruct x as [| | |sx mx ex]; try contradiction.
  destruct y as [| | |sy my ey]; try contradiction.
  pose proof (normal_mantissa _ _ _ _ Hx) as Hmx.
  destruct Hx as (-> & Hdx & Hex). destruct Hy as (-> & Hdy & Hey).
  pose proof (digits2_pos_bounds my) as Hmy. rewrite Hdy in Hmy. change (53 - 1) with 52 in Hmy.
  change (53 - 1) with 52 in Hmx.
  cbn [magnitude]. cbn [SFadd].
  set (ez := Z.min ex ey).
  pose proof (shl_align_spec mx ex ez) as [HA HAe].
  pose proof (shl_align_spec my ey ez) as [HB HBe].
  rewrite HAe in HA. rewrite HBe in HB.
  replace (Z.min ex ez) with ez in HA by (unfold ez; lia).
  replace (Z.min ey ez) with ez in HB by (unfold ez; lia).
  set (A := fst (shl_align mx ex ez)) in *. set (B := fst (shl_align my ey ez)) in *.
  assert (Hsum : cond_Zopp s (Z.pos A) + cond_Zopp s (Z.pos B)
                 = cond_Zopp s (Z.pos (A + B))) by (destruct s; reflexivity).
  rewrite Hsum.
  assert (Hnorm : binary_normalize 53 1024 (cond_Zopp s (Z.pos (A + B))) ez false
                  = binary_round 53 1024 s (A + B) ez) by (destruct s; reflexivity).
  rewrite Hnorm. unfold binary_round.
  assert (Hez : -128 <= ez) by (unfold ez; lia).
  assert (HpA : 0 < 2 ^ (ex - ez)) by (apply pow2_pos; unfold ez; lia).
  assert (HpB : 0 < 2 ^ (ey - ez)) by (apply pow2_pos; unfold ez; lia).
  assert (HM : 2 ^ 52 <= Z.pos (A + B)) by (rewrite Pos2Z.inj_add; nia).
  assert (HdM : 53 <= Z.pos (digits2_pos (A + B))).
  { pose proof (digits2_pos_bounds (A + B)) as [_ Hhi].
    destruct (Z_lt_le_dec (Z.pos (digits2_pos (A + B))) 53) as [Hlt|]; [|lia].
    assert (2 ^ Z.pos (digits2_pos (A + B)) <= 2 ^ 52) by (apply pow2_le; lia). lia. }
  rewrite fexp_normal by lia.
  pose proof (shl_align_spec (A + B) ez (Z.pos (digits2_pos (A + B)) + ez - 53)) as [HC HCe].
  destruct (shl_align (A + B) ez (Z.pos (digits2_pos (A + B)) + ez - 53)) as [mz ez'].
  cbn [fst snd] in HC, HCe. rewrite Z.min_l in HCe by lia. subst ez'.
  replace (ez - ez) with 0 in HC by lia. rewrite Z.pow_0_r, Z.mul_1_r in HC.
  injection HC as ->.
  exists (A + B)%positive, ez. split; [reflexivity|]. split; [exact HdM|]. split; [exact Hez|].
  rewrite Pos2Z.inj_add, HA, HB, Z.mul_add_distr_r.
  rewrite <- !Z.mul_assoc, <- !pow2_split by (unfold ez; lia).
  f_equal; do 2 f_equal; lia.
Qed.

(** The sum lies between the neighbouring multiples of the unit in the
    last place. *)
Lemma add_bracket s x y D :
  normal s x -> normal s y -> D <= 1023 ->
  magnitude x + magnitude y < 2 ^ (D + 128) ->
  exists r,
    SFadd 53 1024 x y = r /\
    normal s r /\
    forall c,
      (2 ^ (D + 75) | c) ->
      (c <= magnitude x + magnitude y -> c <= magnitude r) /\
      (magnitude x + magnitude y < c -> magnitude r <= c).
Proof.
  intros Hx Hy HD HX.
  destruct (SFadd_same_sign s x y Hx Hy) as (M & ez & -> & HdM & Hez & Hval).
  destruct (round_bracket s M ez loc_Exact D) as (r & Hr & Hnr & Hbr);
    [exact HdM|exact Hez|exact HD|rewrite Hval; exact HX|].
  exists r. split; [exact Hr|]. split; [exact Hnr|].
  intros c Hc. rewrite <- Hval. apply Hbr. exact Hc.
Qed.

(** A sum more than half a unit above a multiple of the unit is rounded
    up to the next one. *)
Lemma add_above_half s x y D :
  normal s x -> normal s y -> D <= 1023 ->
  2 ^ (D + 127) <= magnitude x + magnitude y < 2 ^ (D + 128) ->
  forall c,
    (2 ^ (D + 75) | c) ->
    2 * c - 2 ^ (D + 75) < 2 * (magnitude x + magnitude y) ->
    c <= magnitude (SFadd 53 1024 x y).
Proof.
  intros Hx Hy HD HX c Hc Hhalf.
  destruct (SFadd_same_sign s x y Hx Hy) as (M & ez & -> & HdM & Hez & Hval).
  rewrite <- Hval in HX, Hhalf.
  apply (round_above_half s M ez D HdM Hez HD HX c Hc Hhalf).
Qed.

Lemma SFltb_magnitude x y :
  nonneg x -> nonneg y -> (SFltb x y = true <-> magnitude x < magnitude y).
Proof.
  intros [-> | Hx] [-> | Hy].
  - unfold SFltb, SFcompare. cbn [magnitude]. split; [discriminate|lia].
  - destruct y as [| | |sy my ey]; try contradiction. destruct Hy as (-> & Hd & He).
    unfold SFltb, SFcompare. cbn [magnitude]. split; [intros _|reflexivity].
    assert (0 < 2 ^ (ey + 128)) by (apply pow2_pos; lia). nia.
  - destruct x as [| | |sx mx ex]; try contradiction. destruct Hx as (-> & Hd & He).
    unfold SFltb, SFcompare. cbn [magnitude]. split; [discriminate|].
    assert (0 < 2 ^ (ex + 128)) by (apply pow2_pos; lia). nia.
  - destruct x as [| | |sx mx ex]; try contradiction.
    destruct y as [| | |sy my ey]; try contradiction.
    pose proof (normal_mantissa _ _ _ _ Hx) as Hmx.
    pose proof (normal_mantissa _ _ _ _ Hy) as Hmy.
    destruct Hx as (-> & Hdx & Hex). destruct Hy as (-> & Hdy & Hey).
    unfold SFltb, SFcompare. cbn [magnitude].
    assert (Hpx : 0 < 2 ^ (ex + 128)) by (apply pow2_pos; lia).
    assert (Hpy : 0 < 2 ^ (ey + 128)) by (apply pow2_pos; lia).
    change (2 ^ 53) with (2 * 2 ^ 52) in *.
    destruct (Z.compare_spec ex ey) as [Heq|Hlt|Hgt].
    + subst ey. change (Pos.compare_cont Eq mx my) with (Pos.compare mx my).
      destruct (Pos.compare_spec mx my) as [Hm|Hm|Hm].
      * subst. split; [discriminate|lia].
      * split; [intros _|reflexivity]. apply Z.mul_lt_mono_pos_r; [exact Hpx|]. exact Hm.
      * split; [discriminate|]. intros H. apply Z.mul_lt_mono_pos_r in H; [|exact Hpx].
        assert (Z.pos my < Z.pos mx) by exact Hm. lia.
    + split; [intros _|reflexivity].
      assert (H2 : 2 ^ (ey + 128) = 2 ^ (ey - ex - 1) * (2 * 2 ^ (ex + 128))).
      { replace (2 * 2 ^ (ex + 128)) with (2 ^ (1 + (ex + 128)))
          by (rewrite pow2_split by lia; reflexivity).
        rewrite <- pow2_split by lia. f_equal. lia. }
      assert (0 < 2 ^ (ey - ex - 1)) by (apply pow2_pos; lia).
      rewrite H2. nia.
    + split; [discriminate|].
      assert (H2 : 2 ^ (ex + 128) = 2 ^ (ex - ey - 1) * (2 * 2 ^ (ey + 128))).
      { replace (2 * 2 ^ (ey + 128)) with (2 ^ (1 + (ey + 128)))
          by (rewrite pow2_split by lia; reflexivity).
        rewrite <- pow2_split by lia. f_equal. lia. }
      assert (0 < 2 ^ (ex - ey - 1)) by (apply pow2_pos; lia).
      rewrite H2. nia.
Qed.

(** The float64 of an integer of absolute value [z], negative when [s]. *)
Lemma float64_of_int_signed (s : bool) z :
  0 < z < 2 ^ 53 ->
  exists r,
    float64_of_int (cond_Zopp s z) = r /\ normal s r /\ magnitude r = z * 2 ^ 128.
Proof.
  intros Hz. destruct z as [|p|p]; try lia.
  destruct (binary_round_int s p) as (r & Hr & Hn & Hm); [lia|].
  exists r. split; [|split; assumption].
  unfold float64_of_int. destruct s; exact Hr.
Qed.

Lemma SFabs_normal s x : normal s x -> normal false (SFabs x) /\ magnitude (SFabs x) = magnitude x.
Proof.
  destruct x as [| | |sx m e]; try contradiction.
  intros (_ & Hd & He). cbn [SFabs normal magnitude]. auto.
Qed.

(** How [Seconds] splits a duration. *)
Lemma quot_rem_signed d :
  Z.quot d time_Second = cond_Zopp (d <? 0) (Z.abs d / time_Second) /\
  Z.rem d time_Second = cond_Zopp (d <? 0) (Z.abs d mod time_Second).
Proof.
  unfold time_Second. destruct d as [|p|p].
  - split; reflexivity.
  - change (Z.pos p <? 0) with false. cbn [cond_Zopp Z.abs].
    rewrite Z.quot_div_nonneg, Z.rem_mod_nonneg by lia. auto.
  - change (Z.neg p <? 0) with true. cbn [cond_Zopp Z.abs].
    change (Z.neg p) with (- Z.pos p).
    rewrite Z.quot_opp_l, Z.rem_opp_l by lia.
    rewrite Z.quot_div_nonneg, Z.rem_mod_nonneg by lia. auto.
Qed.

(** The magnitude of [|d.Seconds()|] against a whole number of seconds [T]. *)
Lemma seconds_against d T :
  Z.abs d <= 2 ^ 63 -> 0 <= T < 2 ^ 24 ->
  nonneg (math_Abs (Duration_Seconds d)) /\
  (T * 2 ^ 128 < magnitude (math_Abs (Duration_Seconds d)) <-> T * 10 ^ 9 < Z.abs d).
Proof.
  intros Hd HT. unfold Duration_Seconds, math_Abs, float64_add, float64_div.
  destruct (quot_rem_signed d) as [-> ->].
  set (sg := d <? 0). unfold time_Second.
  pose proof (Z.div_mod (Z.abs d) 1000000000 ltac:(lia)) as Hdm.
  pose proof (Z.mod_pos_bound (Z.abs d) 1000000000 ltac:(lia)) as Hn.
  set (s := Z.abs d / 1000000000) in *. set (n := Z.abs d mod 1000000000) in *.
  assert (Hs : 0 <= s < 2 ^ 34).
  { split; [apply Z.div_pos; lia|]. apply Z.div_lt_upper_bound; [lia|].
    change (2 ^ 34) with 17179869184. change (2 ^ 63) with 9223372036854775808 in Hd. lia. }
  change (10 ^ 9) with 1000000000. change (2 ^ 24) with 16777216 in HT.
  assert (H128 : 0 < 2 ^ 128) by reflexivity.
  assert (Hgoal : T * 1000000000 < Z.abs d <-> (T < s \/ (T = s /\ 0 < n))) by lia.
  rewrite Hgoal. clear Hgoal Hdm.
  destruct (Z.eq_dec n 0) as [Hn0|Hn0].
  - (* a whole number of seconds *)
    rewrite Hn0. replace (cond_Zopp sg 0) with 0 by (destruct sg; reflexivity).
    change (SFdiv 53 1024 (float64_of_int 0) (float64_of_int 1000000000))
      with (S754_zero false).
    destruct (Z.eq_dec s 0) as [Hs0|Hs0].
    + rewrite Hs0. replace (cond_Zopp sg 0) with 0 by (destruct sg; reflexivity).
      change (SFabs (SFadd 53 1024 (float64_of_int 0) (S754_zero false)))
        with (S754_zero false).
      split; [left; reflexivity|]. cbn [magnitude]. lia.
    + destruct (float64_of_int_signed sg s) as (x & -> & Hx & Hmx).
      { change (2 ^ 53) with 9007199254740992. change (2 ^ 34) with 17179869184 in Hs. lia. }
      assert (Hadd : SFadd 53 1024 x (S754_zero false) = x).
      { destruct x as [| | |sx m e]; try contradiction. reflexivity. }
      rewrite Hadd. destruct (SFabs_normal _ _ Hx) as [Hax ->].
      split; [right; exact Hax|]. rewrite Hmx. nia.
  - destruct (float64_of_int_signed sg n) as (y & -> & Hy & Hmy).
    { change (2 ^ 53) with 9007199254740992. lia. }
    destruct (div_billion sg y n Hy Hmy) as (q & Hq & Hnq & Hmq).
    { change (10 ^ 9) with 1000000000. lia. }
    change (float64_of_int 1000000000) with (binary_normalize 53 1024 1000000000 0 false).
    rewrite Hq.
    change (2 ^ 98) with 316912650057057350374175801344 in Hmq.
    destruct (Z.eq_dec s 0) as [Hs0|Hs0].
    + rewrite Hs0. replace (cond_Zopp sg 0) with 0 by (destruct sg; reflexivity).
      assert (Hadd : SFadd 53 1024 (float64_of_int 0) q = q).
      { destruct q as [| | |sq m e]; try contradiction. reflexivity. }
      rewrite Hadd. destruct (SFabs_normal _ _ Hnq) as [Haq ->].
      split; [right; exact Haq|].
      change (2 ^ 128) with 340282366920938463463374607431768211456 in *.
      change (2 ^ 75) with 37778931862957161709568 in *. lia.
    + destruct (float64_of_int_signed sg s) as (x & -> & Hx & Hmx).
      { change (2 ^ 53) with 9007199254740992. change (2 ^ 34) with 17179869184 in Hs. lia. }
      destruct (Z_lt_le_dec T s) as [Hlt|Hge].
      * (* more whole seconds than [T] *)
        destruct (add_bracket sg x q 35 Hx Hnq) as (r & -> & Hnr & Hbr); [lia| |].
        { rewrite Hmx. change (2 ^ (35 + 128)) with (2 ^ 35 * 2 ^ 128).
          change (2 ^ 35) with 34359738368. change (2 ^ 34) with 17179869184 in Hs.
          change (2 ^ 75) with 37778931862957161709568 in *. nia. }
        destruct (SFabs_normal _ _ Hnr) as [Har ->].
        split; [right; exact Har|].
        destruct (Hbr ((T + 1) * 2 ^ 128)) as [Hlo _].
        { change (2 ^ 128) with (2 ^ 18 * 2 ^ (35 + 75)).
          exists ((T + 1) * 2 ^ 18). lia. }
        split; [intros _; left; exact Hlt|intros _].
        assert ((T + 1) * 2 ^ 128 <= magnitude r) by (apply Hlo; rewrite Hmx; nia).
        nia.
      * (* at most [T] whole seconds *)
        destruct (add_bracket sg x q 24 Hx Hnq) as (r & Hr & Hnr & Hbr); [lia| |].
        { rewrite Hmx. change (2 ^ (24 + 128)) with (16777216 * 2 ^ 128).
          change (2 ^ 75) with 37778931862957161709568 in *. nia. }
        rewrite Hr. destruct (SFabs_normal _ _ Hnr) as [Har ->].
        split; [right; exact Har|].
        change (24 + 75) with 99 in Hbr.
        destruct (Z.eq_dec T s) as [Heq|Hne].
        -- (* exactly [T] whole seconds and some nanoseconds *)
           subst s. split; [intros _; right; lia|intros _].
           destruct (Z_lt_le_dec T 8388608) as [Hsmall|Hbig].
           ++ destruct (add_bracket sg x q 23 Hx Hnq) as (r' & Hr' & _ & Hbr'); [lia| |].
              { rewrite Hmx. change (2 ^ (23 + 128)) with (8388608 * 2 ^ 128).
                change (2 ^ 75) with 37778931862957161709568 in *. nia. }
              rewrite Hr in Hr'. subst r'.
              change (23 + 75) with 98 in Hbr'.
              destruct (Hbr' (T * 2 ^ 128 + 2 ^ 98)) as [Hlo _].
              { change (2 ^ 128) with (2 ^ 30 * 2 ^ 98). exists (T * 2 ^ 30 + 1). lia. }
              assert (T * 2 ^ 128 + 2 ^ 98 <= magnitude r).
              { apply Hlo. rewrite Hmx.
                change (2 ^ 98) with 316912650057057350374175801344. lia. }
              change (2 ^ 98) with 316912650057057350374175801344 in *. lia.
           ++ (* the unit in the last place is 2^-29 s, a nanosecond is more
                 than half of it *)
              pose proof (add_above_half sg x q 24 Hx Hnq ltac:(lia)) as Hup.
              change (24 + 75) with 99 in Hup. rewrite Hr in Hup.
              assert (T * 2 ^ 128 + 2 ^ 99 <= magnitude r).
              { apply Hup.
                - rewrite Hmx. change (2 ^ (24 + 127)) with (8388608 * 2 ^ 128).
                  change (2 ^ (24 + 128)) with (16777216 * 2 ^ 128).
                  change (2 ^ 75) with 37778931862957161709568 in *. nia.
                - change (2 ^ 128) with (2 ^ 29 * 2 ^ 99). exists (T * 2 ^ 29 + 1). lia.
                - rewrite Hmx. change (2 ^ 99) with (2 * 316912650057057350374175801344).
                  change (2 ^ 75) with 37778931862957161709568 in *. lia. }
              change (2 ^ 99) with 633825300114114700748351602688 in *. lia.
        -- destruct (Hbr (T * 2 ^ 128)) as [_ Hhi].
           { change (2 ^ 128) with (2 ^ 29 * 2 ^ 99). exists (T * 2 ^ 29). lia. }
           assert (magnitude r <= T * 2 ^ 128).
           { apply Hhi. rewrite Hmx.
             change (2 ^ 75) with 37778931862957161709568 in *. nia. }
           split; [lia|]. intros [Hc|[Hc _]]; lia.
Qed.

(** [math.Abs(d.Seconds()) > float64(T)] decides [|d| > T] seconds exactly,
    for a tolerance below 2^24 seconds. *)
Lemma seconds_gt_tolerance d T :
  Z.abs d <= 2 ^ 63 -> 0 <= T < 2 ^ 24 ->
  (float64_gt (math_Abs (Duration_Seconds d)) (float64_of_int T) = true
   <-> T * 10 ^ 9 < Z.abs d).
Proof.
  intros Hd HT. destruct (seconds_against d T Hd HT) as [Hnn Hiff].
  rewrite <- Hiff. unfold float64_gt.
  assert (HnT : nonneg (float64_of_int T) /\ magnitude (float64_of_int T) = T * 2 ^ 128).
  { destruct (Z.eq_dec T 0) as [->|HT0].
    - split; [left; reflexivity|reflexivity].
    - destruct (float64_of_int_signed false T) as (x & Hx & Hn & Hm).
      { change (2 ^ 53) with 9007199254740992. change (2 ^ 24) with 16777216 in HT. lia. }
      cbn [cond_Zopp] in Hx. rewrite Hx. split; [right; exact Hn|exact Hm]. }
  destruct HnT as [HnT HmT]. rewrite (SFltb_magnitude _ _ HnT Hnn), HmT. reflexivity.
Qed.

(** The float64 of a negative int64 is a negative number. *)
Lemma float64_of_int_negative T :
  - 2 ^ 63 <= T < 0 -> exists m e, float64_of_int T = S754_finite true m e.
Proof.
  intros HT. destruct T as [|p|p]; try lia. unfold float64_of_int.
  change (binary_normalize 53 1024 (Z.neg p) 0 false) with (binary_round 53 1024 true p 0).
  destruct (Z_lt_le_dec (Z.pos p) (2 ^ 53)) as [Hsmall|Hbig].
  - destruct (binary_round_int true p Hsmall) as (r & -> & Hn & _).
    destruct r as [| | |s m e]; try contradiction. destruct Hn as (-> & _). eauto.
  - unfold binary_round.
    pose proof (digits2_pos_bounds p) as [Hlo Hhi].
    set (d := Z.pos (digits2_pos p)) in *.
    assert (Hd : 54 <= d <= 64).
    { split.
      - destruct (Z_lt_le_dec d 54) as [Hlt|]; [|lia].
        assert (2 ^ d <= 2 ^ 53) by (apply pow2_le; unfold d; lia). lia.
      - destruct (Z_lt_le_dec 64 d) as [Hlt|]; [|lia].
        assert (2 ^ 64 <= 2 ^ (d - 1)) by (apply pow2_le; lia).
        change (2 ^ 64) with (2 * 2 ^ 63) in *. lia. }
    rewrite Z.add_0_r, fexp_normal by lia.
    pose proof (shl_align_spec p 0 (d - 53)) as [Hm He].
    destruct (shl_align p 0 (d - 53)) as [mz ez]. cbn [fst snd] in Hm, He.
    rewrite Z.min_l in He by lia. subst ez.
    change (0 - 0) with 0 in Hm. rewrite Z.pow_0_r, Z.mul_1_r in Hm. injection Hm as ->.
    destruct (binary_round_aux_value true p 0 loc_Exact) as (m' & e' & -> & _);
      [fold d; lia|lia|fold d; lia|]. eauto.
Qed.

Lemma seconds_gt_any_tolerance d T :
  Z.abs d <= 2 ^ 63 -> - 2 ^ 63 <= T < 2 ^ 24 ->
  (float64_gt (math_Abs (Duration_Seconds d)) (float64_of_int T) = true
   <-> T * 10 ^ 9 < Z.abs d).
Proof.
  intros Hd HT. destruct (Z_lt_le_dec T 0) as [Hneg|Hpos].
  - destruct (float64_of_int_negative T) as (m & e & ->); [lia|].
    destruct (seconds_against d 0 Hd) as [Hnn _]; [change (2 ^ 24) with 16777216; lia|].
    split; [intros _; change (10 ^ 9) with 1000000000; lia|intros _].
    unfold float64_gt, SFltb, SFcompare.
    destruct Hnn as [-> | Hn]; [reflexivity|].
    destruct (math_Abs (Duration_Seconds d)) as [| | |s' m' e']; try contradiction.
    destruct Hn as (-> & _). reflexivity.
  - apply seconds_gt_tolerance; [exact Hd|lia].
Qed.

Local Open Scope string_scope.

(** * Properties *)

Section Properties.

Context {V E GoContext Time : Type} `{!TimePackage Time}.

Implicit Types (alexa : @Alexa V E GoContext) (pkg : Package) (now : Time)
  (ctx : GoContext) (env : RequestEnvelope) (maps : gmap loc (gmap string V))
  (st : @Store V) (response : Response V) (e : error E) (o : @Objects V).

Local Arguments validate : simpl never.
Local Arguments verifyApplicationID : simpl never.
Local Arguments verifyTimestamp : simpl never.

(** ** The accessors *)

Lemma GetRequestType_Some env request :
  RequestEnvelope_Request env = Some request ->
  GetRequestType env = Value (Request_Type request).
Proof. unfold GetRequestType. intros ->. reflexivity. Qed.

(** C9: on an envelope whose request is present, [GetIntentName] returns
    the name of the intent when the request type is "IntentRequest", and
    the request type itself for every other type. *)
Theorem GetIntentName_by_type env request :
  RequestEnvelope_Request env = Some request ->
  (Request_Type request = "IntentRequest" ->
     GetIntentName env = Value (Intent_Name (Request_Intent request))) /\
  (Request_Type request <> "IntentRequest" ->
     GetIntentName env = Value (Request_Type request)).
Proof.
  intros Hreq. unfold GetIntentName.
  rewrite (GetRequestType_Some _ _ Hreq), Hreq.
  split; intros Hty.
  - rewrite Hty. reflexivity.
  - destruct (String.eqb_spec (Request_Type request) "IntentRequest") as [Heq|Hne].
    + contradiction.
    + reflexivity.
Qed.

(** ** The directive helpers *)

Lemma AddAudioPlayer_appends playerType playBehavior streamToken url offset response :
  exists d,
    Response_Directives
      (AddAudioPlayer playerType playBehavior streamToken url offset response)
    = (Response_Directives response ++ [d])%list.
Proof. eexists. reflexivity. Qed.

Lemma AddDialogDirective_appends dialogType slotToElicit slotToConfirm intent response :
  exists d,
    Response_Directives
      (AddDialogDirective dialogType slotToElicit slotToConfirm intent response)
    = (Response_Directives response ++ [d])%list.
Proof. eexists. reflexivity. Qed.

Lemma run_call_appends response (c : DirectiveCall) :
  exists d, Response_Directives (run_call response c) = (Response_Directives response ++ [d])%list.
Proof.
  destruct c; simpl.
  - apply AddAudioPlayer_appends.
  - apply AddDialogDirective_appends.
Qed.

(** C8: whatever the response and the sequence of calls of
    [AddAudioPlayer] and [AddDialogDirective], the directives afterwards are
    the directives before, unchanged and in their order, followed by one
    directive per call, in the order of the calls. *)
Lemma run_calls_snoc response (cs : list DirectiveCall) c :
  run_calls response (cs ++ [c])%list = run_call (run_calls response cs) c.
Proof. unfold run_calls. apply foldl_snoc. Qed.

Theorem directives_appended response (cs : list DirectiveCall) :
  exists ds,
    length ds = length cs /\
    Response_Directives (run_calls response cs) = (Response_Directives response ++ ds)%list /\
    forall c,
      exists d,
        Response_Directives (run_calls response (cs ++ [c])%list)
        = (Response_Directives (run_calls response cs) ++ [d])%list.
Proof.
  induction cs as [|c cs IH] using rev_ind.
  - exists []. split; [reflexivity|]. split.
    + unfold run_calls. simpl. rewrite app_nil_r. reflexivity.
    + intros c. rewrite run_calls_snoc. apply run_call_appends.
  - destruct IH as (ds & Hlen & Happ & Hlast).
    destruct (Hlast c) as [d Hd].
    exists (ds ++ [d])%list. split; [|split].
    + rewrite !length_app. simpl. lia.
    + rewrite Hd, Happ, <- app_assoc. reflexivity.
    + intros c'. rewrite run_calls_snoc. apply run_call_appends.
Qed.

(** ** The parts of [ProcessRequest] *)

Lemma validation_eq alexa pkg now st :
  validation alexa pkg now st =
  match validate alexa pkg now (st_envelope st) with
  | Panic => (Stop Panicked, st)
  | Value (Some e) => (Stop (Returned None (Some e)), st)
  | Value None => (Next tt, st)
  end.
Proof.
  unfold validation, exec_bind, lift, check, stop, exec_ret.
  destruct (validate alexa pkg now (st_envelope st)) as [[e|]|]; reflexivity.
Qed.

Lemma deref_session_eq st :
  deref_session (E:=E) st =
  match st_envelope st with
  | Some env =>
      match RequestEnvelope_Session env with
      | Some session => (Next session, st)
      | None => (Stop Panicked, st)
      end
  | None => (Stop Panicked, st)
  end.
Proof.
  unfold deref_session, deref_envelope, exec_bind, exec_ret, stop.
  destruct (st_envelope st) as [env|]; [|reflexivity].
  destruct (RequestEnvelope_Session env); reflexivity.
Qed.

Lemma deref_request_eq st :
  deref_request (E:=E) st =
  match st_envelope st with
  | Some env =>
      match RequestEnvelope_Request env with
      | Some request => (Next request, st)
      | None => (Stop Panicked, st)
      end
  | None => (Stop Panicked, st)
  end.
Proof.
  unfold deref_request, deref_envelope, exec_bind, exec_ret, stop.
  destruct (st_envelope st) as [env|]; [|reflexivity].
  destruct (RequestEnvelope_Request env); reflexivity.
Qed.

Lemma handle_eq alexa m ctx response st :
  handle alexa m ctx response st =
  match objects st response with
  | Panic => (Stop Panicked, st)
  | Value o =>
      let r := method (Alexa_RequestHandler alexa) m ctx o in
      (match fst r with
       | Some err => Stop (Returned None (Some (HandlerError err)))
       | None => Next (obj_response (snd r))
       end, after_call st m (snd r))
  end.
Proof.
  unfold handle, invoke, exec_bind, lift, exec_ret, stop.
  destruct (objects st response) as [o|]; [|reflexivity].
  simpl. destruct (fst (method (Alexa_RequestHandler alexa) m ctx o)); reflexivity.
Qed.


Lemma prepare_eq st :
  prepare (E:=E) st =
  match st_envelope st with
  | Some env =>
      match RequestEnvelope_Session env with
      | Some session =>
          (Next default_Response,
           match Session_Attributes session with
           | Some _ => st
           | None => with_attributes (fresh (dom (st_maps st))) st env session
           end)
      | None => (Stop Panicked, st)
      end
  | None => (Stop Panicked, st)
  end.
Proof.
  unfold prepare, exec_bind at 1. rewrite deref_session_eq.
  destruct (st_envelope st) as [env|] eqn:Henv; [|reflexivity].
  destruct (RequestEnvelope_Session env) as [session|] eqn:Hs; [|reflexivity].
  destruct (Session_Attributes session) as [a|] eqn:Ha.
  - reflexivity.
  - unfold make_map, assign_Attributes, exec_bind, exec_ret.
    rewrite deref_session_eq. simpl. rewrite Henv. simpl. rewrite Hs. reflexivity.
Qed.

Lemma sessionStarted_eq alexa ctx response st :
  sessionStarted alexa ctx response st =
  match st_envelope st with
  | Some env =>
      match RequestEnvelope_Session env with
      | Some session =>
          if Session_New session then handle alexa MOnSessionStarted ctx response st
          else (Next response, st)
      | None => (Stop Panicked, st)
      end
  | None => (Stop Panicked, st)
  end.
Proof.
  unfold sessionStarted, exec_bind. rewrite deref_session_eq.
  destruct (st_envelope st) as [env|]; [|reflexivity].
  destruct (RequestEnvelope_Session env) as [session|]; [|reflexivity].
  destruct (Session_New session); reflexivity.
Qed.

Lemma dispatch_eq alexa ctx response st :
  dispatch alexa ctx response st =
  match st_envelope st with
  | Some env =>
      match RequestEnvelope_Request env with
      | Some request =>
          match method_of_type (Request_Type request) with
          | Some m => handle alexa m ctx response st
          | None => (Next response, st)
          end
      | None => (Stop Panicked, st)
      end
  | None => (Stop Panicked, st)
  end.
Proof.
  unfold dispatch, exec_bind. rewrite deref_request_eq.
  destruct (st_envelope st) as [env|]; [|reflexivity].
  destruct (RequestEnvelope_Request env) as [request|]; [|reflexivity].
  destruct (method_of_type (Request_Type request)); reflexivity.
Qed.

Lemma copy_entries_empty (src : gmap string V) : copy_entries src ∅ = src.
Proof.
  unfold copy_entries.
  apply (map_fold_weak_ind (fun r m => r = m)); [reflexivity|].
  intros n v m r _ ->. reflexivity.
Qed.

Lemma copyAttributes_eq response st :
  copyAttributes (E:=E) response st =
  let l := fresh (dom (st_maps st)) in
  match st_envelope st with
  | Some env =>
      match RequestEnvelope_Session env with
      | Some session =>
          (Next {| ResponseEnvelope_Version := sdkVersion;
                   ResponseEnvelope_SessionAttributes := Some l;
                   ResponseEnvelope_Response := response |},
           {| st_envelope := st_envelope st;
              st_maps :=
                <[l := match Session_Attributes session with
                       | Some a => default ∅ (<[l := ∅]> (st_maps st) !! a)
                       | None => ∅
                       end]> (st_maps st);
              st_calls := st_calls st |})
      | None => (Stop Panicked,
                 {| st_envelope := st_envelope st;
                    st_maps := <[l := ∅]> (st_maps st);
                    st_calls := st_calls st |})
      end
  | None => (Stop Panicked,
             {| st_envelope := st_envelope st;
                st_maps := <[l := ∅]> (st_maps st);
                st_calls := st_calls st |})
  end.
Proof.
  unfold copyAttributes, make_map, exec_bind. simpl.
  rewrite deref_session_eq. simpl.
  destruct (st_envelope st) as [env|]; [|reflexivity].
  destruct (RequestEnvelope_Session env) as [session|]; [|reflexivity].
  simpl. rewrite lookup_insert_eq. simpl. rewrite copy_entries_empty, insert_insert_eq.
  reflexivity.
Qed.


Lemma beforeSwitch_eq alexa pkg now ctx st :
  beforeSwitch alexa pkg now ctx st =
  match validate alexa pkg now (st_envelope st) with
  | Panic => (Stop Panicked, st)
  | Value (Some e) => (Stop (Returned None (Some e)), st)
  | Value None =>
      match prepare st with
      | (Next response, st') => sessionStarted alexa ctx response st'
      | (Stop r, st') => (Stop r, st')
      end
  end.
Proof.
  unfold beforeSwitch, exec_bind at 1. rewrite validation_eq.
  destruct (validate alexa pkg now (st_envelope st)) as [[e|]|]; reflexivity.
Qed.

Lemma ProcessRequest_eq alexa pkg now ctx requestEnv maps :
  ProcessRequest alexa pkg now ctx requestEnv maps =
  match beforeSwitch alexa pkg now ctx (initial requestEnv maps) with
  | (Stop r, st1) => (r, st1)
  | (Next response, st1) =>
      match dispatch alexa ctx response st1 with
      | (Stop r, st2) => (r, st2)
      | (Next response', st2) =>
          match copyAttributes response' st2 with
          | (Stop r, st3) => (r, st3)
          | (Next responseEnv, st3) => (Returned (Some responseEnv) None, st3)
          end
      end
  end.
Proof.
  unfold ProcessRequest, ProcessRequest_body, exec_bind.
  destruct (beforeSwitch alexa pkg now ctx (initial requestEnv maps)) as [[response|r] st1];
    [|reflexivity].
  destruct (dispatch alexa ctx response st1) as [[response'|r] st2]; [|reflexivity].
  destruct (copyAttributes response' st2) as [[responseEnv|r] st3]; reflexivity.
Qed.

(** ** How the call may end once the envelope is valid *)

Lemma prepare_Stop st (r : @Result V E) st' : prepare st = (Stop r, st') -> benign r.
Proof.
  rewrite prepare_eq. intros Hp.
  repeat case_match; simplify_eq; exact I.
Qed.

Lemma handle_Stop alexa m ctx response st r st' :
  handle alexa m ctx response st = (Stop r, st') -> benign r.
Proof.
  rewrite handle_eq. cbv zeta. intros Hp.
  repeat case_match; simplify_eq; exact I.
Qed.

Lemma sessionStarted_Stop alexa ctx response st r st' :
  sessionStarted alexa ctx response st = (Stop r, st') -> benign r.
Proof.
  rewrite sessionStarted_eq. intros Hp.
  repeat case_match; simplify_eq; try exact I. eapply handle_Stop; eassumption.
Qed.

Lemma dispatch_Stop alexa ctx response st r st' :
  dispatch alexa ctx response st = (Stop r, st') -> benign r.
Proof.
  rewrite dispatch_eq. intros Hp.
  repeat case_match; simplify_eq; try exact I. eapply handle_Stop; eassumption.
Qed.

Lemma copyAttributes_Stop response st (r : @Result V E) st' :
  copyAttributes response st = (Stop r, st') -> benign r.
Proof.
  rewrite copyAttributes_eq. simpl. intros Hp.
  repeat case_match; simplify_eq; exact I.
Qed.

Lemma ProcessRequest_invalid alexa pkg now ctx requestEnv maps e :
  validate alexa pkg now requestEnv = Value (Some e) ->
  ProcessRequest alexa pkg now ctx requestEnv maps
  = (Returned None (Some e), initial requestEnv maps).
Proof.
  intros Hv. rewrite ProcessRequest_eq, beforeSwitch_eq. simpl. rewrite Hv. reflexivity.
Qed.

Lemma ProcessRequest_valid alexa pkg now ctx requestEnv maps :
  validate alexa pkg now requestEnv = Value None ->
  (exists responseEnv,
     fst (ProcessRequest alexa pkg now ctx requestEnv maps)
     = Returned (Some responseEnv) None) \/
  benign (fst (ProcessRequest alexa pkg now ctx requestEnv maps)).
Proof.
  intros Hv. rewrite ProcessRequest_eq, beforeSwitch_eq. simpl. rewrite Hv.
  destruct (prepare (initial requestEnv maps)) as [[response|r] st0] eqn:Hp.
  2:{ right. simpl. eapply prepare_Stop; eassumption. }
  destruct (sessionStarted alexa ctx response st0) as [[response1|r] st1] eqn:Hs.
  2:{ right. simpl. eapply sessionStarted_Stop; eassumption. }
  destruct (dispatch alexa ctx response1 st1) as [[response2|r] st2] eqn:Hd.
  2:{ right. simpl. eapply dispatch_Stop; eassumption. }
  destruct (copyAttributes response2 st2) as [[responseEnv|r] st3] eqn:Hc.
  2:{ right. simpl. eapply copyAttributes_Stop; eassumption. }
  left. eexists. reflexivity.
Qed.

Lemma ProcessRequest_panics alexa pkg now ctx requestEnv maps :
  validate alexa pkg now requestEnv = Panic ->
  ProcessRequest alexa pkg now ctx requestEnv maps = (Panicked, initial requestEnv maps).
Proof.
  intros Hv. rewrite ProcessRequest_eq, beforeSwitch_eq. simpl. rewrite Hv. reflexivity.
Qed.

(** The errors of the verifications are of the kinds named above. *)
Lemma verifyApplicationID_error alexa requestEnv e :
  verifyApplicationID alexa requestEnv = Value (Some e) ->
  e = ErrRequestEnvelopeNil \/ identity_error e.
Proof.
  unfold verifyApplicationID, identity_error. intros Hv.
  repeat case_match; simplify_eq; auto.
Qed.

Lemma verifyTimestamp_error pkg now requestEnv e :
  verifyTimestamp pkg now requestEnv = Value (Some e) ->
  e = ErrRequestEnvelopeNil \/ parse_error e \/ tolerance_error e.
Proof.
  unfold verifyTimestamp, parse_error, tolerance_error. intros Hv.
  repeat case_match; simplify_eq; eauto 6.
Qed.

Lemma validate_error alexa pkg now requestEnv e :
  validate alexa pkg now requestEnv = Value (Some e) -> validation_error e.
Proof.
  unfold validate, validation_error. intros Hv.
  destruct requestEnv as [env|]; [|simplify_eq; auto].
  destruct (IgnoreApplicationID alexa); cbn [negb] in Hv.
  - destruct (IgnoreTimestamp alexa); cbn [negb] in Hv; [discriminate|].
    apply verifyTimestamp_error in Hv. tauto.
  - destruct (verifyApplicationID alexa (Some env)) as [[e'|]|] eqn:Hid; simplify_eq.
    + apply verifyApplicationID_error in Hid. tauto.
    + destruct (IgnoreTimestamp alexa); cbn [negb] in Hv; [discriminate|].
      apply verifyTimestamp_error in Hv. tauto.
Qed.

Lemma handler_error_not_validation (err : E) : ~ validation_error (HandlerError err).
Proof.
  unfold validation_error, identity_error, parse_error, tolerance_error.
  intros [H|[[H|[H|H]]|[[msg H]|(t & n & z & H)]]]; discriminate.
Qed.

(** C10: when [ProcessRequest] fails with one of the errors of the
    verifications (nil envelope, application identity, timestamp), the
    store is as it was: the envelope, and with it the session and its
    attribute field, is unchanged (a nil attribute map is still nil), no map
    object was made, and no method of the handler was called. *)
Theorem failed_validation_changes_nothing alexa pkg now ctx requestEnv maps e :
  fst (ProcessRequest alexa pkg now ctx requestEnv maps) = Returned None (Some e) ->
  validation_error e ->
  let st' := snd (ProcessRequest alexa pkg now ctx requestEnv maps) in
  st_envelope st' = requestEnv /\ st_maps st' = maps /\ st_calls st' = [].
Proof.
  intros Hres Hkind.
  destruct (validate alexa pkg now requestEnv) as [[e'|]|] eqn:Hv.
  - rewrite (ProcessRequest_invalid _ _ _ _ _ _ _ Hv). simpl. auto.
  - destruct (ProcessRequest_valid alexa pkg now ctx requestEnv maps Hv) as [[r Hr]|Hb].
    + congruence.
    + rewrite Hres in Hb. simpl in Hb. destruct e; try contradiction.
      destruct (handler_error_not_validation _ Hkind).
  - rewrite (ProcessRequest_panics _ _ _ _ _ _ Hv) in Hres. discriminate.
Qed.


(** C5 (amended): when the request envelope itself is absent,
    [ProcessRequest] fails with the nil-envelope error, returns no response
    envelope, and leaves the store as it was. *)
Theorem nil_envelope_rejected alexa pkg now ctx maps :
  ProcessRequest alexa pkg now ctx None maps
  = (Returned None (Some ErrRequestEnvelopeNil), initial None maps).
Proof. apply ProcessRequest_invalid. reflexivity. Qed.

Lemma identity_error_not_parse e : identity_error e -> ~ parse_error e.
Proof.
  unfold identity_error, parse_error. intros [ -> | [ -> | -> ] ] [msg Hm]; discriminate.
Qed.

Lemma identity_error_not_tolerance e : identity_error e -> ~ tolerance_error e.
Proof.
  unfold identity_error, tolerance_error, timestamp_off_text.
  intros [ -> | [ -> | -> ] ] (t & n & z & Hm); discriminate.
Qed.

Lemma identity_error_not_nil : ~ identity_error (E:=E) ErrRequestEnvelopeNil.
Proof. unfold identity_error. intros [H|[H|H]]; discriminate. Qed.

Lemma identity_error_not_handler (err : E) : ~ identity_error (HandlerError err).
Proof. unfold identity_error. intros [H|[H|H]]; discriminate. Qed.





(** C7 (amended): on an envelope whose request is present and whose
    timestamp [time.Parse] rejects, with the timestamp check not disabled
    and the identity check disabled or passed, [ProcessRequest] returns (it
    does not panic) with the parse error built from the text of the parser's
    error and no response envelope, and leaves the store as it was. *)
Theorem malformed_timestamp_rejected alexa pkg now ctx env request maps msg :
  RequestEnvelope_Request env = Some request ->
  time_Parse time_RFC3339 (Request_Timestamp request) = inr msg ->
  IgnoreTimestamp alexa = false ->
  IgnoreApplicationID alexa = true \/ verifyApplicationID alexa (Some env) = Value None ->
  let e := errors_New ("unable to parse request timestamp.  Err: " +:+ msg) in
  parse_error e /\
  ProcessRequest alexa pkg now ctx (Some env) maps
  = (Returned None (Some e), initial (Some env) maps).
Proof.
  intros Hr Hparse Hon Hid e. split; [exists msg; reflexivity|].
  apply ProcessRequest_invalid. unfold validate. rewrite Hon. cbn [negb].
  assert (Ht : verifyTimestamp pkg now (Some env) = Value (Some e)).
  { unfold verifyTimestamp. rewrite Hr, Hparse. reflexivity. }
  destruct Hid as [-> | Hid]; cbn [negb].
  - exact Ht.
  - destruct (IgnoreApplicationID alexa); cbn [negb]; [exact Ht|]. rewrite Hid. exact Ht.
Qed.


(** ** The calls recorded by each part *)

Lemma objects_Value st response env session :
  st_envelope st = Some env -> RequestEnvelope_Session env = Some session ->
  objects st response =
  Value {| obj_request := RequestEnvelope_Request env;
           obj_session := session;
           obj_context := RequestEnvelope_Context env;
           obj_response := response;
           obj_maps := st_maps st |}.
Proof. unfold objects. intros -> ->. reflexivity. Qed.

Lemma has_session_objects st response :
  has_session st -> exists o, objects st response = Value o.
Proof. intros (env & session & He & Hs). rewrite (objects_Value _ _ _ _ He Hs). eauto. Qed.

Lemma after_call_has_session st m o : has_session st -> has_session (after_call st m o).
Proof.
  intros (env & session & He & Hs). unfold has_session, after_call. simpl.
  rewrite He. simpl. eauto.
Qed.

Lemma handle_calls alexa m ctx response st x st' :
  has_session st ->
  handle alexa m ctx response st = (x, st') ->
  st_calls st' = (st_calls st ++ [m])%list /\ has_session st'.
Proof.
  intros Hs. rewrite handle_eq.
  destruct (has_session_objects st response Hs) as [o ->]. cbv zeta.
  intros [= <- <-]. split; [reflexivity|]. apply after_call_has_session, Hs.
Qed.

Lemma method_of_type_specific ty m : method_of_type ty = Some m -> m <> MOnSessionStarted.
Proof. unfold method_of_type. repeat case_match; intros [= <-]; discriminate. Qed.

Lemma copyAttributes_calls response st x st' :
  copyAttributes (E:=E) response st = (x, st') -> st_calls st' = st_calls st.
Proof.
  rewrite copyAttributes_eq. cbv zeta.
  repeat case_match; intros [= <- <-]; reflexivity.
Qed.

Lemma prepare_Next st env session :
  st_envelope st = Some env -> RequestEnvelope_Session env = Some session ->
  exists st',
    prepare (E:=E) st = (Next default_Response, st') /\
    st_calls st' = st_calls st /\
    exists env' session',
      st_envelope st' = Some env' /\
      RequestEnvelope_Session env' = Some session' /\
      RequestEnvelope_Request env' = RequestEnvelope_Request env /\
      Session_New session' = Session_New session.
Proof.
  intros He Hs. rewrite prepare_eq, He, Hs.
  destruct (Session_Attributes session) as [a|]; eexists; (split; [reflexivity|]).
  - split; [reflexivity|]. eauto 10.
  - split; [reflexivity|]. unfold with_attributes. simpl. eauto 10.
Qed.

(** The calls made from the switch on, when the switch is reached in [st1]. *)
Lemma from_switch alexa pkg now ctx requestEnv maps response st1 :
  beforeSwitch alexa pkg now ctx (initial requestEnv maps) = (Next response, st1) ->
  has_session st1 ->
  forall env1 request,
    st_envelope st1 = Some env1 -> RequestEnvelope_Request env1 = Some request ->
    let out := ProcessRequest alexa pkg now ctx requestEnv maps in
    match method_of_type (Request_Type request) with
    | Some m => st_calls (snd out) = (st_calls st1 ++ [m])%list
    | None =>
        st_calls (snd out) = st_calls st1 /\
        fst out = Returned
          (Some {| ResponseEnvelope_Version := sdkVersion;
                   ResponseEnvelope_SessionAttributes := Some (fresh (dom (st_maps st1)));
                   ResponseEnvelope_Response := response |}) None
    end.
Proof.
  intros Hb Hs env1 request He Hr out. subst out.
  rewrite ProcessRequest_eq, Hb, dispatch_eq, He, Hr.
  destruct (method_of_type (Request_Type request)) as [m|].
  - destruct (handle alexa m ctx response st1) as [[response'|r] st2] eqn:Hh;
      destruct (handle_calls _ _ _ _ _ _ _ Hs Hh) as [Hc _]; [|exact Hc].
    destruct (copyAttributes response' st2) as [[responseEnv|r] st3] eqn:Hcp;
      simpl; rewrite (copyAttributes_calls _ _ _ _ Hcp); exact Hc.
  - rewrite copyAttributes_eq. cbv zeta. rewrite He.
    destruct Hs as (env' & session' & He' & Hs'). rewrite He in He'.
    injection He' as <-. rewrite Hs'. simpl. split; reflexivity.
Qed.

(** What happened before the switch, when it is reached. *)
Lemma switch_reached alexa pkg now ctx env maps response st1 :
  beforeSwitch alexa pkg now ctx (initial (Some env) maps) = (Next response, st1) ->
  has_session st1 /\
  exists session,
    RequestEnvelope_Session env = Some session /\
    st_calls st1 = (if Session_New session then [MOnSessionStarted] else []) /\
    (Session_New session = false -> response = default_Response).
Proof.
  rewrite beforeSwitch_eq. simpl.
  destruct (validate alexa pkg now (Some env)) as [[e|]|]; try discriminate.
  destruct (RequestEnvelope_Session env) as [session|] eqn:Hs.
  2:{ rewrite prepare_eq. simpl. rewrite Hs. discriminate. }
  destruct (prepare_Next (initial (Some env) maps) env session eq_refl Hs)
    as (st0 & -> & Hc0 & env0 & session0 & He0 & Hs0 & _ & Hnew).
  rewrite sessionStarted_eq, He0, Hs0, Hnew.
  assert (Hhas : has_session st0) by (exists env0, session0; auto).
  destruct (Session_New session) eqn:Hn.
  - intros Hh. destruct (handle_calls _ _ _ _ _ _ _ Hhas Hh) as [Hc Hs1].
    split; [exact Hs1|]. exists session. rewrite Hc, Hc0, Hn. simpl.
    split; [reflexivity|]. split; [reflexivity|discriminate].
  - intros [= <- <-]. split; [exact Hhas|]. exists session. rewrite Hc0, Hn. simpl. auto.
Qed.


(** C1 (amended): when the call reaches the switch on the request type
    (the envelope passed the verifications, its session is present, and
    [OnSessionStarted], called when the session is new, returned no error)
    and the request is present, the method called from there on is chosen
    by the request's [Type] as read at the switch: [OnLaunch] for
    "LaunchRequest", [OnIntent] for "IntentRequest", [OnSessionEnded] for
    "SessionEndedRequest", each called once; for any other type no method is
    called from there on and the envelope returned carries the response
    object as it stood before the switch.  Before the switch no
    type-specific method is called: the calls are [OnSessionStarted] alone
    when the session is new and none otherwise, in which case the response
    is the default one (no output speech, no card, [ShouldEndSession]
    true). *)
Theorem dispatch_by_type alexa pkg now ctx env maps response st1 env1 request :
  beforeSwitch alexa pkg now ctx (initial (Some env) maps) = (Next response, st1) ->
  st_envelope st1 = Some env1 ->
  RequestEnvelope_Request env1 = Some request ->
  let out := ProcessRequest alexa pkg now ctx (Some env) maps in
  let ty := Request_Type request in
  (ty = "LaunchRequest" -> st_calls (snd out) = (st_calls st1 ++ [MOnLaunch])%list) /\
  (ty = "IntentRequest" -> st_calls (snd out) = (st_calls st1 ++ [MOnIntent])%list) /\
  (ty = "SessionEndedRequest" ->
     st_calls (snd out) = (st_calls st1 ++ [MOnSessionEnded])%list) /\
  (ty <> "LaunchRequest" -> ty <> "IntentRequest" -> ty <> "SessionEndedRequest" ->
     st_calls (snd out) = st_calls st1 /\
     exists l,
       fst out = Returned
         (Some {| ResponseEnvelope_Version := sdkVersion;
                  ResponseEnvelope_SessionAttributes := Some l;
                  ResponseEnvelope_Response := response |}) None) /\
  (exists session,
     RequestEnvelope_Session env = Some session /\
     st_calls st1 = (if Session_New session then [MOnSessionStarted] else []) /\
     (Session_New session = false -> response = default_Response)).
Proof.
  intros Hb He Hr out ty.
  destruct (switch_reached _ _ _ _ _ _ _ _ Hb) as [Hs Hbefore].
  pose proof (from_switch _ _ _ _ _ _ _ _ Hb Hs env1 request He Hr) as Hsw.
  cbv zeta in Hsw. fold out in Hsw. fold ty in Hsw.
  repeat split.
  - intros Hty. rewrite Hty in Hsw. exact Hsw.
  - intros Hty. rewrite Hty in Hsw. exact Hsw.
  - intros Hty. rewrite Hty in Hsw. exact Hsw.
  - unfold method_of_type in Hsw.
    destruct (String.eqb_spec ty launchRequestName); [contradiction|].
    destruct (String.eqb_spec ty intentRequestName); [contradiction|].
    destruct (String.eqb_spec ty sessionEndedRequestName); [contradiction|].
    apply Hsw.
  - unfold method_of_type in Hsw.
    destruct (String.eqb_spec ty launchRequestName); [contradiction|].
    destruct (String.eqb_spec ty intentRequestName); [contradiction|].
    destruct (String.eqb_spec ty sessionEndedRequestName); [contradiction|].
    eexists. apply Hsw.
  - exact Hbefore.
Qed.

(** C2: on an envelope that passes the verifications and whose session
    is new, [OnSessionStarted] is the first method called and is called
    once, at most one other method follows it; and if [OnSessionStarted]
    returns an error, no other method is called and [ProcessRequest]
    returns that error with no response envelope. *)
Theorem session_started_first alexa pkg now ctx env session maps :
  validate alexa pkg now (Some env) = Value None ->
  RequestEnvelope_Session env = Some session ->
  Session_New session = true ->
  let out := ProcessRequest alexa pkg now ctx (Some env) maps in
  (exists rest,
     st_calls (snd out) = MOnSessionStarted :: rest /\
     (MOnSessionStarted ∉ rest) /\
     (length rest <= 1)%nat) /\
  (forall o err,
     objects (snd (prepare (E:=E) (initial (Some env) maps))) default_Response = Value o ->
     fst (OnSessionStarted (Alexa_RequestHandler alexa) ctx o) = Some err ->
     st_calls (snd out) = [MOnSessionStarted] /\
     fst out = Returned None (Some (HandlerError err))).
Proof.
  intros Hv Hs Hnew out.
  destruct (prepare_Next (initial (Some env) maps) env session eq_refl Hs)
    as (st0 & Hp & Hc0 & env0 & session0 & He0 & Hs0 & _ & Hnew0).
  assert (Hhas : has_session st0) by (exists env0, session0; auto).
  assert (Hb : beforeSwitch alexa pkg now ctx (initial (Some env) maps)
               = handle alexa MOnSessionStarted ctx default_Response st0).
  { rewrite beforeSwitch_eq. cbn [initial st_envelope]. rewrite Hv, Hp.
    rewrite sessionStarted_eq, He0, Hs0, Hnew0, Hnew. reflexivity. }
  rewrite Hp. cbn [snd].
  destruct (handle alexa MOnSessionStarted ctx default_Response st0)
    as [[response|r] st1] eqn:Hh.
  - (* the switch is reached *)
    destruct (handle_calls _ _ _ _ _ _ _ Hhas Hh) as [Hc1 Hs1].
    rewrite Hc0 in Hc1. cbn in Hc1.
    split.
    + destruct Hs1 as (env1 & session1 & He1 & Hs1').
      destruct (RequestEnvelope_Request env1) as [request|] eqn:Hr.
      * assert (Hhas1 : has_session st1) by (exists env1, session1; auto).
        pose proof (from_switch _ _ _ _ _ _ _ _ Hb Hhas1 env1 request He1 Hr) as Hsw.
        cbv zeta in Hsw. fold out in Hsw.
        destruct (method_of_type (Request_Type request)) as [m|] eqn:Hm.
        -- exists [m]. rewrite Hsw, Hc1. split; [reflexivity|]. split; [|simpl; lia].
           apply method_of_type_specific in Hm. rewrite list_elem_of_singleton. congruence.
        -- exists []. destruct Hsw as [-> _]. rewrite Hc1.
           split; [reflexivity|]. split; [apply not_elem_of_nil|simpl; lia].
      * exists []. subst out. rewrite ProcessRequest_eq, Hb, dispatch_eq, He1, Hr. simpl.
        rewrite Hc1. split; [reflexivity|]. split; [apply not_elem_of_nil|simpl; lia].
    + intros o err Ho Herr. exfalso.
      rewrite handle_eq, Ho in Hh. cbv zeta in Hh.
      change (method (Alexa_RequestHandler alexa) MOnSessionStarted)
        with (OnSessionStarted (Alexa_RequestHandler alexa)) in Hh.
      rewrite Herr in Hh. discriminate.
  - (* the call ends in [sessionStarted] *)
    destruct (handle_calls _ _ _ _ _ _ _ Hhas Hh) as [Hc1 _].
    rewrite Hc0 in Hc1. cbn in Hc1.
    assert (Hout : out = (r, st1)).
    { subst out. rewrite ProcessRequest_eq, Hb. reflexivity. }
    rewrite Hout. cbn [fst snd]. split.
    + exists []. rewrite Hc1. split; [reflexivity|].
      split; [apply not_elem_of_nil|simpl; lia].
    + intros o err Ho Herr. split; [exact Hc1|].
      rewrite handle_eq, Ho in Hh. cbv zeta in Hh.
      change (method (Alexa_RequestHandler alexa) MOnSessionStarted)
        with (OnSessionStarted (Alexa_RequestHandler alexa)) in Hh.
      rewrite Herr in Hh. injection Hh as <- _. reflexivity.
Qed.


(** ** The attribute map *)

Lemma handle_live alexa m ctx response st response' st' :
  (forall m, keeps_attributes (method (Alexa_RequestHandler alexa) m)) ->
  store_live st ->
  handle alexa m ctx response st = (Next response', st') ->
  store_live st' /\ st_calls st' <> [].
Proof.
  intros Hk (env & session & a & He & Hs & Ha & Hin).
  rewrite handle_eq, (objects_Value _ _ _ _ He Hs). cbv zeta.
  set (o := {| obj_request := RequestEnvelope_Request env; obj_session := session;
               obj_context := RequestEnvelope_Context env; obj_response := response;
               obj_maps := st_maps st |}).
  assert (Hlive : attributes_live o) by (exists a; auto).
  apply (Hk m ctx) in Hlive. destruct Hlive as (a' & Ha' & Hin').
  intros [= _ <-]. split.
  - unfold store_live, after_call. cbn. rewrite He. cbn. eauto 10.
  - cbn. intros Hnil. apply app_eq_nil in Hnil as [_ [=]].
Qed.

Lemma sessionStarted_live alexa ctx response st response' st' :
  (forall m, keeps_attributes (method (Alexa_RequestHandler alexa) m)) ->
  store_live st ->
  sessionStarted alexa ctx response st = (Next response', st') ->
  st' = st \/ (store_live st' /\ st_calls st' <> []).
Proof.
  intros Hk Hl. rewrite sessionStarted_eq.
  repeat case_match; try discriminate.
  - intros Hh. right. eapply handle_live; eassumption.
  - intros [= _ <-]. left. reflexivity.
Qed.

Lemma dispatch_live alexa ctx response st response' st' :
  (forall m, keeps_attributes (method (Alexa_RequestHandler alexa) m)) ->
  store_live st ->
  dispatch alexa ctx response st = (Next response', st') ->
  st' = st \/ (store_live st' /\ st_calls st' <> []).
Proof.
  intros Hk Hl. rewrite dispatch_eq.
  repeat case_match; try discriminate.
  - intros Hh. right. eapply handle_live; eassumption.
  - intros [= _ <-]. left. reflexivity.
Qed.

Lemma copyAttributes_live response st responseEnv st' :
  store_live st ->
  copyAttributes (E:=E) response st = (Next responseEnv, st') ->
  exists env session a l m,
    st_envelope st' = Some env /\
    RequestEnvelope_Session env = Some session /\
    Session_Attributes session = Some a /\
    ResponseEnvelope_SessionAttributes responseEnv = Some l /\
    l <> a /\
    st_maps st !! a = Some m /\
    st_maps st' !! a = Some m /\
    st_maps st' !! l = Some m /\
    st_calls st' = st_calls st.
Proof.
  intros (env & session & a & He & Hs & Ha & [m Hm]).
  rewrite copyAttributes_eq. cbv zeta. rewrite He, Hs, Ha.
  assert (Hne : fresh (dom (st_maps st)) <> a).
  { intros Heq. apply (is_fresh (dom (st_maps st))). rewrite Heq.
    apply elem_of_dom. eauto. }
  rewrite lookup_insert_ne by exact Hne. rewrite Hm. cbn [default].
  intros [= <- <-]. exists env, session, a, (fresh (dom (st_maps st))), m. cbn.
  rewrite lookup_insert_ne by exact Hne. rewrite lookup_insert_eq. auto 10.
Qed.


(** ** The timestamp check *)

Lemma Time_Sub_bounds (t u : Time) : Z.abs (Time_Sub t u) <= 2 ^ 63.
Proof.
  unfold Time_Sub, minDuration, maxDuration.
  change (2 ^ 63) with 9223372036854775808.
  repeat case_match; lia.
Qed.

Lemma Time_Sub_exceeds (t u : Time) T :
  T < 2 ^ 24 ->
  T * 10 ^ 9 < Z.abs (Time_Sub t u) <-> T * 10 ^ 9 < Z.abs (Time_instant t - Time_instant u).
Proof.
  unfold Time_Sub, minDuration, maxDuration.
  change (2 ^ 63) with 9223372036854775808. change (2 ^ 24) with 16777216.
  change (10 ^ 9) with 1000000000. intros HT.
  repeat case_match; lia.
Qed.

Lemma verifyTimestamp_parsed pkg now env request timestamp :
  RequestEnvelope_Request env = Some request ->
  time_Parse time_RFC3339 (Request_Timestamp request) = inl timestamp ->
  - 2 ^ 63 <= timestampTolerance pkg < 2 ^ 24 ->
  verifyTimestamp (E:=E) pkg now (Some env) =
  if decide (timestampTolerance pkg * 10 ^ 9
             < Z.abs (Time_instant now - Time_instant timestamp))
  then Value (Some (errors_New (timestamp_off_text timestamp now (timestampTolerance pkg))))
  else Value None.
Proof.
  intros Hr Hp HT. unfold verifyTimestamp. rewrite Hr, Hp.
  pose proof (seconds_gt_any_tolerance (Time_Sub now timestamp) (timestampTolerance pkg)
                (Time_Sub_bounds now timestamp) HT) as Hgt.
  rewrite (Time_Sub_exceeds now timestamp) in Hgt by lia.
  destruct (float64_gt _ _); case_decide; try reflexivity.
  - exfalso. tauto.
  - destruct Hgt as [_ Hgt]. specialize (Hgt ltac:(assumption)). discriminate.
Qed.

Lemma tolerance_error_not_handler (err : E) : ~ tolerance_error (HandlerError err).
Proof. intros (t & n & z & H). discriminate. Qed.

(** C4 (amended): on an envelope whose request is present and whose
    timestamp [time.Parse] accepts, with the timestamp check not disabled,
    the identity check disabled or passed, and a tolerance below 2^24
    seconds (the default of 150 is one), [ProcessRequest] fails with the
    tolerance error if and only if the time of the call and the parsed
    timestamp are more than the tolerance apart, counted exactly, in
    nanoseconds; when they are not, a difference equal to the tolerance
    included, the envelope passes the verifications. *)
Theorem tolerance_error_iff_apart alexa pkg now ctx env request maps timestamp :
  RequestEnvelope_Request env = Some request ->
  time_Parse time_RFC3339 (Request_Timestamp request) = inl timestamp ->
  IgnoreTimestamp alexa = false ->
  IgnoreApplicationID alexa = true \/ verifyApplicationID alexa (Some env) = Value None ->
  - 2 ^ 63 <= timestampTolerance pkg < 2 ^ 24 ->
  ((exists e,
      fst (ProcessRequest alexa pkg now ctx (Some env) maps) = Returned None (Some e) /\
      tolerance_error e)
   <-> timestampTolerance pkg * 10 ^ 9 < Z.abs (Time_instant now - Time_instant timestamp)) /\
  (Z.abs (Time_instant now - Time_instant timestamp) <= timestampTolerance pkg * 10 ^ 9 ->
   validate alexa pkg now (Some env) = Value None).
Proof.
  intros Hr Hp Hon Hid HT.
  assert (Hv : validate alexa pkg now (Some env) = verifyTimestamp pkg now (Some env)).
  { unfold validate. rewrite Hon. cbn [negb].
    destruct Hid as [-> | Hid]; cbn [negb]; [reflexivity|].
    destruct (IgnoreApplicationID alexa); cbn [negb]; [reflexivity|].
    rewrite Hid. reflexivity. }
  rewrite (verifyTimestamp_parsed _ _ _ _ _ Hr Hp HT) in Hv.
  case_decide as Hlate.
  - split; [|lia]. split; [intros _; exact Hlate|intros _].
    eexists. rewrite (ProcessRequest_invalid _ _ _ _ _ _ _ Hv). split; [reflexivity|].
    do 3 eexists. reflexivity.
  - split; [|intros _; exact Hv]. split; [|intros H; contradiction].
    intros (e & Hres & Hkind). exfalso.
    destruct (ProcessRequest_valid alexa pkg now ctx (Some env) maps Hv) as [[r Hok]|Hb].
    + congruence.
    + rewrite Hres in Hb. cbn in Hb. destruct e; try contradiction.
      exact (tolerance_error_not_handler _ Hkind).
Qed.


(** ** Locales *)

Lemma String_prefix_append (p s : string) :
  String.prefix p s = true <-> exists rest, s = p +:+ rest.
Proof.
  revert s. induction p as [|a p IH]; intros s.
  - split; [intros _; exists s; reflexivity|intros _; destruct s; reflexivity].
  - destruct s as [|b s].
    + split; [discriminate|]. intros [rest H]. discriminate.
    + change (String.prefix (String a p) (String b s))
        with (if Ascii.ascii_dec a b then String.prefix p s else false).
      destruct (Ascii.ascii_dec a b) as [->|Hne].
      * rewrite IH. split; intros [rest H]; exists rest.
        -- rewrite H. reflexivity.
        -- change (String b p +:+ rest) with (String b (p +:+ rest)) in H.
           injection H as ->. reflexivity.
      * split; [discriminate|]. intros [rest H].
        change (String a p +:+ rest) with (String a (p +:+ rest)) in H.
        injection H as H1 _. congruence.
Qed.

(** X1: [IsEnglish] holds of the locales that start with the three bytes
    [en-], whatever follows, and of no other: of the eight locales of the
    package, of the five English ones and not of the Italian, the German
    and the Japanese one. *)
Theorem IsEnglish_prefix locale :
  (IsEnglish locale = true <-> exists rest, locale = "en-" +:+ rest) /\
  Forall (fun l => IsEnglish l = true)
    [LocaleAustralianEnglish; LocaleCanadianEnglish; LocaleBritishEnglish;
     LocaleIndianEnglish; LocaleAmericanEnglish] /\
  Forall (fun l => IsEnglish l = false) [LocaleItalian; LocaleGerman; LocaleJapanese].
Proof.
  split; [apply String_prefix_append|].
  split; repeat constructor.
Qed.

(** ** Accessors of the request envelope *)

(** X2: an accessor of the envelope panics exactly when the sub-object it
    reads is nil: [GetSessionID] and [GetUserID] read the session, the six
    others the request; a slot that is missing is no panic. *)
Theorem accessors_panic_iff_nil (r : RequestEnvelope) slotName :
  (GetSessionID r = Panic <-> RequestEnvelope_Session r = None) /\
  (GetUserID r = Panic <-> RequestEnvelope_Session r = None) /\
  (GetRequestType r = Panic <-> RequestEnvelope_Request r = None) /\
  (GetIntentName r = Panic <-> RequestEnvelope_Request r = None) /\
  (GetSlotValue (E:=E) r slotName = Panic <-> RequestEnvelope_Request r = None) /\
  (GetSlot (E:=E) r slotName = Panic <-> RequestEnvelope_Request r = None) /\
  (AllSlots r = Panic <-> RequestEnvelope_Request r = None) /\
  (Locale r = Panic <-> RequestEnvelope_Request r = None).
Proof.
  unfold GetSessionID, GetUserID, GetIntentName, GetSlotValue, GetSlot, AllSlots, Locale,
    GetRequestType.
  destruct (RequestEnvelope_Session r), (RequestEnvelope_Request r) as [request|];
    repeat split; try discriminate; try reflexivity; try (intros _; reflexivity).
  all: try (destruct (String.eqb _ _); discriminate).
  all: destruct (Intent_Slots (Request_Intent request) !! slotName); discriminate.
Qed.

(** X3: on an envelope with a request, [GetSlot] finds a slot exactly under
    the keys of the map [AllSlots] returns, and returns the entry of the
    key, whatever the [Name] field of the slot says; under any other name it
    returns no slot and the error [slot name not found].  One of the slot
    and the error is nil, never both and never neither. *)
Theorem GetSlot_by_key env request slotName :
  RequestEnvelope_Request env = Some request ->
  exists slots,
    AllSlots env = Value slots /\
    slots = Intent_Slots (Request_Intent request) /\
    (forall slot,
       GetSlot (E:=E) env slotName = Value (Some slot, None) <-> slots !! slotName = Some slot) /\
    (GetSlot (E:=E) env slotName = Value (None, Some (errors_New "slot name not found"))
     <-> slots !! slotName = None) /\
    (forall slot err,
       GetSlot (E:=E) env slotName = Value (slot, err) -> (is_Some slot <-> err = None)).
Proof.
  intros Hr. exists (Intent_Slots (Request_Intent request)).
  unfold AllSlots, GetSlot. rewrite Hr.
  split; [reflexivity|]. split; [reflexivity|].
  destruct (Intent_Slots (Request_Intent request) !! slotName) as [found|].
  - split; [intros slot; split; congruence|].
    split; [split; discriminate|].
    intros slot err [= <- <-]. split; [reflexivity|eauto].
  - split; [intros slot; split; discriminate|].
    split; [split; reflexivity|].
    intros slot err [= <- <-]. split; [intros [? ?]; discriminate|discriminate].
Qed.

(** X4: on an envelope with a request, [GetSlotValue] returns the value of
    the slot filed under the name, with no error, and the empty string with
    the error [slot name not found] when there is none; a request that has
    no slots at all gets the error for every name.  An empty string alone
    does not tell a missing slot from a slot whose value is empty: the
    error does. *)
Theorem GetSlotValue_by_key env request slotName :
  RequestEnvelope_Request env = Some request ->
  let slots := Intent_Slots (Request_Intent request) in
  (forall slot,
     slots !! slotName = Some slot ->
     GetSlotValue (E:=E) env slotName = Value (IntentSlot_Value slot, None)) /\
  (slots !! slotName = None ->
   GetSlotValue (E:=E) env slotName = Value ("", Some (errors_New "slot name not found"))) /\
  (slots = ∅ ->
   GetSlotValue (E:=E) env slotName = Value ("", Some (errors_New "slot name not found"))) /\
  (forall value,
     GetSlotValue (E:=E) env slotName = Value (value, None) <->
     exists slot, slots !! slotName = Some slot /\ IntentSlot_Value slot = value).
Proof.
  intros Hr slots. unfold GetSlotValue, GetSlot. rewrite Hr. fold slots.
  split; [intros slot ->; reflexivity|].
  split; [intros ->; reflexivity|].
  split; [intros ->; rewrite lookup_empty; reflexivity|].
  intros value. destruct (slots !! slotName) as [found|].
  - split.
    + intros [= <-]. eauto.
    + intros (slot & [= <-] & <-). reflexivity.
  - split; [discriminate|]. intros (slot & Hs & _). discriminate.
Qed.

(** ** The helpers of a response *)

Lemma run_helpers_snoc response (cs : list HelperCall) c :
  run_helpers response (cs ++ [c])%list = run_helper (run_helpers response cs) c.
Proof. unfold run_helpers. apply foldl_snoc. Qed.

Lemma run_call_directives (r1 r2 : Response V) c :
  Response_Directives r1 = Response_Directives r2 ->
  Response_Directives (run_call r1 c) = Response_Directives (run_call r2 c).
Proof. intros H. destruct c; cbn; rewrite H; reflexivity. Qed.

Lemma directive_calls_snoc cs c :
  directive_calls (cs ++ [c])%list
  = (directive_calls cs
       ++ match c with Call_Directive d => [d] | _ => [] end)%list.
Proof. unfold directive_calls. rewrite omap_app. destruct c; reflexivity. Qed.

(** X5: in a sequence of calls of the helpers of a response, the setters
    leave the directives alone: the sequence leaves the directives that its
    calls of [AddAudioPlayer] and [AddDialogDirective] alone leave, in the
    same order, the directives that were there before coming first. *)
Theorem setters_keep_directives response (cs : list HelperCall) :
  Response_Directives (run_helpers response cs)
  = Response_Directives (run_calls response (directive_calls cs)) /\
  exists ds,
    Response_Directives (run_helpers response cs)
    = (Response_Directives response ++ ds)%list /\
    length ds = length (directive_calls cs).
Proof.
  assert (Heq : Response_Directives (run_helpers response cs)
                = Response_Directives (run_calls response (directive_calls cs))).
  { induction cs as [|c cs IH] using rev_ind; [reflexivity|].
    rewrite run_helpers_snoc, directive_calls_snoc.
    destruct c; try (rewrite app_nil_r; exact IH).
    rewrite run_calls_snoc. cbn [run_helper]. apply run_call_directives, IH. }
  split; [exact Heq|]. rewrite Heq.
  generalize (directive_calls cs). intros ds.
  induction ds as [|d ds IH] using rev_ind.
  - exists []. rewrite app_nil_r. split; reflexivity.
  - destruct IH as (out & Hout & Hlen). rewrite run_calls_snoc.
    destruct (run_call_appends (run_calls response ds) d) as [x Hx].
    exists (out ++ [x])%list. rewrite Hx, Hout, <- app_assoc.
    split; [reflexivity|]. rewrite !length_app, Hlen. reflexivity.
Qed.

(** X6: a setter overwrites what an earlier setter of the same field left:
    of two calls that set the card, or the output speech, or the reprompt,
    or the end of the session, only the later one shows. *)
Theorem later_setter_wins (response : Response V) (c1 c2 : HelperCall) :
  field_of c1 = field_of c2 ->
  field_of c2 <> FDirectives ->
  run_helper (run_helper response c1) c2 = run_helper response c2.
Proof.
  intros Hsame Hset.
  destruct c1, c2; try discriminate; try contradiction; reflexivity.
Qed.

(** X7: helpers that assign different fields of the response commute: the
    order of their calls does not show in the response. *)
Theorem helpers_commute (response : Response V) (c1 c2 : HelperCall) :
  field_of c1 <> field_of c2 ->
  run_helper (run_helper response c1) c2 = run_helper (run_helper response c2) c1.
Proof.
  intros Hdiff.
  destruct c1 as [| | | | | | | |[]], c2 as [| | | | | | | |[]];
    try contradiction; reflexivity.
Qed.


(** ** How a call of [ProcessRequest] ends *)

Lemma benign_cases (r : @Result V E) :
  benign r -> r = Panicked \/ exists err, r = Returned None (Some (HandlerError err)).
Proof.
  destruct r as [[?|] [[| |err]|]|]; cbn; try contradiction; eauto.
Qed.

(** X8: a call of [ProcessRequest] that does not panic returns either an
    error and no envelope, or an envelope and no error, never both and
    never neither; the envelope has version [1.0] and session attributes
    that are a map, never nil. *)
Theorem envelope_or_error alexa pkg now ctx requestEnv maps :
  let out := ProcessRequest alexa pkg now ctx requestEnv maps in
  fst out = Panicked \/
  (exists e, fst out = Returned None (Some e)) \/
  (exists l response,
     fst out = Returned (Some {| ResponseEnvelope_Version := "1.0";
                                 ResponseEnvelope_SessionAttributes := Some l;
                                 ResponseEnvelope_Response := response |}) None /\
     is_Some (st_maps (snd out) !! l)).
Proof.
  intros out. subst out.
  assert (Hb : forall r : @Result V E, benign r ->
            r = Panicked \/ (exists e, r = Returned None (Some e)) \/
            False).
  { intros r Hr. destruct (benign_cases r Hr) as [->|[err ->]]; eauto. }
  destruct (validate alexa pkg now requestEnv) as [[e|]|] eqn:Hv.
  - rewrite (ProcessRequest_invalid _ _ _ _ _ _ _ Hv). right. left. eauto.
  - rewrite ProcessRequest_eq, beforeSwitch_eq. cbn [initial st_envelope]. rewrite Hv.
    destruct (prepare (initial requestEnv maps)) as [[response0|r] st0] eqn:Hp.
    2:{ apply prepare_Stop in Hp. destruct (Hb r Hp) as [?|[?|[]]]; auto. }
    destruct (sessionStarted alexa ctx response0 st0) as [[response1|r] st1] eqn:Hs.
    2:{ apply sessionStarted_Stop in Hs. destruct (Hb r Hs) as [?|[?|[]]]; auto. }
    destruct (dispatch alexa ctx response1 st1) as [[response2|r] st2] eqn:Hd.
    2:{ apply dispatch_Stop in Hd. destruct (Hb r Hd) as [?|[?|[]]]; auto. }
    rewrite copyAttributes_eq. cbv zeta.
    destruct (st_envelope st2) as [env2|]; [|left; reflexivity].
    destruct (RequestEnvelope_Session env2) as [session2|]; [|left; reflexivity].
    right. right. eexists _, _. split; [reflexivity|].
    cbn [snd st_maps]. rewrite lookup_insert_eq. eauto.
  - rewrite (ProcessRequest_panics _ _ _ _ _ _ Hv). left. reflexivity.
Qed.





Lemma verifyTimestamp_not_nil pkg now env :
  verifyTimestamp (E:=E) pkg now (Some env) <> Value (Some ErrRequestEnvelopeNil).
Proof. unfold verifyTimestamp. repeat case_match; congruence. Qed.

(** X10: on an envelope whose session is nil, [ProcessRequest] calls no
    method of the handler and changes nothing; it panics, unless the
    identity check is ignored and the timestamp check, which does not read
    the session, rejects the request first. *)
Theorem absent_session_outcome alexa pkg now ctx env maps :
  RequestEnvelope_Session env = None ->
  let out := ProcessRequest alexa pkg now ctx (Some env) maps in
  snd out = initial (Some env) maps /\
  (fst out = Panicked \/
   (IgnoreApplicationID alexa = true /\ IgnoreTimestamp alexa = false /\
    exists e, fst out = Returned None (Some e) /\ (parse_error e \/ tolerance_error e))).
Proof.
  intros Hs out. subst out.
  destruct (validate alexa pkg now (Some env)) as [[e|]|] eqn:Hv.
  - rewrite (ProcessRequest_invalid _ _ _ _ _ _ _ Hv). split; [reflexivity|]. right.
    unfold validate in Hv. unfold verifyApplicationID in Hv at 1. rewrite Hs in Hv.
    destruct (IgnoreApplicationID alexa); cbn [negb] in Hv; [|discriminate].
    destruct (IgnoreTimestamp alexa); cbn [negb] in Hv; [discriminate|].
    split; [reflexivity|]. split; [reflexivity|]. exists e. split; [reflexivity|].
    destruct (verifyTimestamp_error _ _ _ _ Hv) as [->|H]; [|exact H].
    exfalso. exact (verifyTimestamp_not_nil _ _ _ Hv).
  - rewrite ProcessRequest_eq, beforeSwitch_eq. cbn [initial st_envelope]. rewrite Hv.
    rewrite prepare_eq. cbn [initial st_envelope]. rewrite Hs. cbn. auto.
  - rewrite (ProcessRequest_panics _ _ _ _ _ _ Hv). cbn. auto.
Qed.


Lemma after_call_no_request st m o env :
  st_envelope st = Some env -> RequestEnvelope_Request env = None ->
  exists env',
    st_envelope (after_call st m o) = Some env' /\ RequestEnvelope_Request env' = None.
Proof.
  intros He Hr. unfold after_call. cbn. rewrite He. cbn.
  eexists. split; [reflexivity|]. cbn. rewrite Hr. reflexivity.
Qed.

(** X11: on an envelope whose request is nil, [ProcessRequest] returns no
    envelope and calls none of [OnLaunch], [OnIntent] and [OnSessionEnded];
    [OnSessionStarted] is the only method it may call, and it calls none
    and changes nothing unless the timestamp check is ignored. *)
Theorem absent_request_outcome alexa pkg now ctx env maps :
  RequestEnvelope_Request env = None ->
  let out := ProcessRequest alexa pkg now ctx (Some env) maps in
  (forall responseEnv, fst out <> Returned (Some responseEnv) None) /\
  (st_calls (snd out) = [] \/ st_calls (snd out) = [MOnSessionStarted]) /\
  (IgnoreTimestamp alexa = false -> snd out = initial (Some env) maps).
Proof.
  intros Hr out. subst out.
  destruct (validate alexa pkg now (Some env)) as [[e|]|] eqn:Hv.
  - rewrite (ProcessRequest_invalid _ _ _ _ _ _ _ Hv). cbn.
    split; [discriminate|]. auto.
  - assert (Hig : IgnoreTimestamp alexa = true).
    { unfold validate in Hv.
      destruct (if negb (IgnoreApplicationID alexa) then _ else _) as [[?|]|];
        try discriminate.
      destruct (IgnoreTimestamp alexa); [reflexivity|]. cbn [negb] in Hv.
      unfold verifyTimestamp in Hv. rewrite Hr in Hv. discriminate. }
    rewrite ProcessRequest_eq, beforeSwitch_eq. cbn [initial st_envelope]. rewrite Hv.
    destruct (RequestEnvelope_Session env) as [session|] eqn:Hs.
    2:{ rewrite prepare_eq. cbn [initial st_envelope]. rewrite Hs. cbn.
        split; [discriminate|]. split; [auto|congruence]. }
    destruct (prepare_Next (initial (Some env) maps) env session eq_refl Hs)
      as (st0 & -> & Hc0 & env0 & session0 & He0 & Hs0 & Hr0 & _).
    rewrite Hr in Hr0. cbn [initial st_calls] in Hc0.
    rewrite sessionStarted_eq, He0, Hs0.
    destruct (Session_New session0).
    + rewrite handle_eq, (objects_Value _ _ _ _ He0 Hs0). cbv zeta.
      match goal with |- context [method ?h ?m ?c ?o] => set (r := method h m c o) end.
      destruct (fst r) as [err|].
      * cbn. rewrite Hc0. split; [discriminate|]. split; [auto|congruence].
      * destruct (after_call_no_request st0 MOnSessionStarted (snd r) env0 He0 Hr0)
          as (env1 & He1 & Hr1).
        rewrite dispatch_eq, He1, Hr1. cbn. rewrite Hc0.
        split; [discriminate|]. split; [auto|congruence].
    + rewrite dispatch_eq, He0, Hr0. cbn. rewrite Hc0.
      split; [discriminate|]. split; [auto|congruence].
  - rewrite (ProcessRequest_panics _ _ _ _ _ _ Hv). cbn.
    split; [discriminate|]. auto.
Qed.

(** ** The methods of the handler that are called *)

Lemma beforeSwitch_calls alexa pkg now ctx requestEnv maps x st1 :
  beforeSwitch alexa pkg now ctx (initial requestEnv maps) = (x, st1) ->
  (st_calls st1 = [] \/
   (st_calls st1 = [MOnSessionStarted] /\
    exists env session,
      requestEnv = Some env /\ RequestEnvelope_Session env = Some session /\
      Session_New session = true)) /\
  (forall response, x = Next response -> has_session st1).
Proof.
  rewrite beforeSwitch_eq. cbn [initial st_envelope].
  destruct (validate alexa pkg now requestEnv) as [[e|]|];
    try (intros [= <- <-]; split; [left; reflexivity|discriminate]).
  destruct requestEnv as [env|].
  2:{ rewrite prepare_eq. cbn. intros [= <- <-]. split; [left; reflexivity|discriminate]. }
  destruct (RequestEnvelope_Session env) as [session|] eqn:Hs.
  2:{ rewrite prepare_eq. cbn. rewrite Hs.
      intros [= <- <-]. split; [left; reflexivity|discriminate]. }
  destruct (prepare_Next (initial (Some env) maps) env session eq_refl Hs)
    as (st0 & -> & Hc0 & env0 & session0 & He0 & Hs0 & _ & Hnew).
  cbn [initial st_calls] in Hc0.
  assert (Hhas : has_session st0) by (exists env0, session0; auto).
  rewrite sessionStarted_eq, He0, Hs0, Hnew.
  destruct (Session_New session) eqn:Hn.
  - intros Hh. destruct (handle_calls _ _ _ _ _ _ _ Hhas Hh) as [Hc Hs1].
    rewrite Hc0 in Hc. split; [|intros; exact Hs1].
    right. split; [exact Hc|]. exists env, session. auto.
  - intros [= <- <-]. split; [left; exact Hc0|intros; exact Hhas].
Qed.

(** X12: whatever the envelope, [ProcessRequest] calls at most two methods
    of the handler: [OnSessionStarted] at most once and before any other,
    then at most one of [OnLaunch], [OnIntent] and [OnSessionEnded]; and it
    does not call [OnSessionStarted] for a session that is not new. *)
Theorem at_most_two_callbacks alexa pkg now ctx requestEnv maps :
  let calls := st_calls (snd (ProcessRequest alexa pkg now ctx requestEnv maps)) in
  (exists first second,
     calls = (first ++ second)%list /\
     (first = [] \/ first = [MOnSessionStarted]) /\
     (second = [] \/ exists m, second = [m] /\ m <> MOnSessionStarted)) /\
  (forall env session,
     requestEnv = Some env -> RequestEnvelope_Session env = Some session ->
     Session_New session = false -> MOnSessionStarted ∉ calls).
Proof.
  intros calls. subst calls.
  assert (Hshape : exists first second,
     st_calls (snd (ProcessRequest alexa pkg now ctx requestEnv maps))
       = (first ++ second)%list /\
     (first = [] \/
      (first = [MOnSessionStarted] /\
       exists env session,
         requestEnv = Some env /\ RequestEnvelope_Session env = Some session /\
         Session_New session = true)) /\
     (second = [] \/ exists m, second = [m] /\ m <> MOnSessionStarted)).
  { rewrite ProcessRequest_eq.
    destruct (beforeSwitch alexa pkg now ctx (initial requestEnv maps)) as [x st1] eqn:Hb.
    destruct (beforeSwitch_calls _ _ _ _ _ _ _ _ Hb) as [Hfirst Hhas].
    exists (st_calls st1).
    destruct x as [response|r].
    2:{ exists []. rewrite app_nil_r. cbn. auto. }
    specialize (Hhas response eq_refl).
    rewrite dispatch_eq.
    destruct (st_envelope st1) as [env1|]; [|exists []; rewrite app_nil_r; cbn; auto].
    destruct (RequestEnvelope_Request env1) as [request|];
      [|exists []; rewrite app_nil_r; cbn; auto].
    destruct (method_of_type (Request_Type request)) as [m|] eqn:Hm.
    - exists [m].
      destruct (handle alexa m ctx response st1) as [[response'|r] st2] eqn:Hh;
        destruct (handle_calls _ _ _ _ _ _ _ Hhas Hh) as [Hc _].
      + split; [|split; [exact Hfirst|]].
        * destruct (copyAttributes response' st2) as [[responseEnv|r] st3] eqn:Hcp;
            cbn; rewrite (copyAttributes_calls _ _ _ _ Hcp); exact Hc.
        * right. exists m. split; [reflexivity|]. exact (method_of_type_specific _ _ Hm).
      + split; [exact Hc|]. split; [exact Hfirst|].
        right. exists m. split; [reflexivity|]. exact (method_of_type_specific _ _ Hm).
    - exists []. rewrite app_nil_r. split; [|auto].
      destruct (copyAttributes response st1) as [[responseEnv|r] st3] eqn:Hcp;
        cbn; exact (copyAttributes_calls _ _ _ _ Hcp). }
  destruct Hshape as (first & second & Heq & Hfirst & Hsecond).
  split.
  - exists first, second. split; [exact Heq|]. split; [|exact Hsecond].
    destruct Hfirst as [?|[? _]]; auto.
  - intros env session -> Hs Hn. rewrite Heq.
    destruct Hfirst as [->|[_ (env' & session' & [= <-] & Hs' & Hn')]]; [|congruence].
    cbn. destruct Hsecond as [->|(m & -> & Hm)].
    + apply not_elem_of_nil.
    + intros Hin. apply list_elem_of_singleton in Hin. congruence.
Qed.

(** ** What the method the switch selects decides *)

(** X13: when the method the switch of lines 407-426 selects returns an
    error, [ProcessRequest] returns that error and no envelope, and stops
    there: the objects are left as the method left them, and no map is made
    for the session attributes of a response. *)
Theorem callback_error_returned alexa pkg now ctx env maps response st1 env1 request m o err :
  beforeSwitch alexa pkg now ctx (initial (Some env) maps) = (Next response, st1) ->
  st_envelope st1 = Some env1 ->
  RequestEnvelope_Request env1 = Some request ->
  method_of_type (Request_Type request) = Some m ->
  objects st1 response = Value o ->
  fst (method (Alexa_RequestHandler alexa) m ctx o) = Some err ->
  ProcessRequest alexa pkg now ctx (Some env) maps
  = (Returned None (Some (HandlerError err)),
     after_call st1 m (snd (method (Alexa_RequestHandler alexa) m ctx o))).
Proof.
  intros Hb He Hr Hm Ho Herr.
  rewrite ProcessRequest_eq, Hb, dispatch_eq, He, Hr, Hm, handle_eq, Ho. cbv zeta.
  rewrite Herr. reflexivity.
Qed.

(** X14: when the method the switch selects returns no error,
    [ProcessRequest] returns no error either, and an envelope whose
    response is the response object as that method left it, the method
    having received it as the steps before the switch left it; the session
    attributes of the envelope are a map that did not exist when the method
    returned. *)
Theorem callback_response_returned alexa pkg now ctx env maps response st1 env1 request m o :
  beforeSwitch alexa pkg now ctx (initial (Some env) maps) = (Next response, st1) ->
  st_envelope st1 = Some env1 ->
  RequestEnvelope_Request env1 = Some request ->
  method_of_type (Request_Type request) = Some m ->
  objects st1 response = Value o ->
  fst (method (Alexa_RequestHandler alexa) m ctx o) = None ->
  obj_response o = response /\
  exists l,
    (l ∉ dom (obj_maps (snd (method (Alexa_RequestHandler alexa) m ctx o)))) /\
    fst (ProcessRequest alexa pkg now ctx (Some env) maps)
    = Returned
        (Some {| ResponseEnvelope_Version := "1.0";
                 ResponseEnvelope_SessionAttributes := Some l;
                 ResponseEnvelope_Response :=
                   obj_response (snd (method (Alexa_RequestHandler alexa) m ctx o)) |})
        None.
Proof.
  intros Hb He Hr Hm Ho Hok.
  destruct (switch_reached _ _ _ _ _ _ _ _ Hb) as [Hhas _].
  split.
  { destruct Hhas as (env' & session' & He' & Hs').
    rewrite (objects_Value _ _ _ _ He' Hs') in Ho. injection Ho as <-. reflexivity. }
  rewrite ProcessRequest_eq, Hb, dispatch_eq, He, Hr, Hm, handle_eq, Ho. cbv zeta.
  rewrite Hok.
  set (o' := snd (method (Alexa_RequestHandler alexa) m ctx o)).
  destruct (after_call_has_session st1 m o' Hhas) as (env2 & session2 & He2 & Hs2).
  rewrite copyAttributes_eq. cbv zeta. rewrite He2, Hs2.
  exists (fresh (dom (obj_maps o'))). split; [apply is_fresh|reflexivity].
Qed.

(** ** The two flags *)

Lemma parse_error_not_handler (err : E) : ~ parse_error (HandlerError err).
Proof. intros (msg & H). discriminate. Qed.

Lemma verifyApplicationID_not_timestamp alexa requestEnv e :
  verifyApplicationID alexa requestEnv = Value (Some e) ->
  ~ parse_error e /\ ~ tolerance_error e.
Proof.
  intros H. destruct (verifyApplicationID_error _ _ _ H) as [->|Hid].
  - split; [intros (msg & ?)|intros (t & n & z & ?)]; discriminate.
  - split; [exact (identity_error_not_parse _ Hid)|exact (identity_error_not_tolerance _ Hid)].
Qed.

Lemma verifyTimestamp_not_identity pkg now requestEnv e :
  verifyTimestamp pkg now requestEnv = Value (Some e) -> ~ identity_error e.
Proof.
  intros H Hid. destruct (verifyTimestamp_error _ _ _ _ H) as [->|[Hp|Ht]].
  - exact (identity_error_not_nil Hid).
  - exact (identity_error_not_parse _ Hid Hp).
  - exact (identity_error_not_tolerance _ Hid Ht).
Qed.

(** X15: the flags switch the verifications off.  With
    [IgnoreApplicationID] set, no call on an envelope fails with an error
    of the identity check, even with an empty [ApplicationID]; with
    [IgnoreTimestamp] set, none fails with an error of the timestamp check,
    whatever the timestamp; with both set, the only error [ProcessRequest]
    returns on an envelope is an error that a method of the handler
    returned. *)
Theorem ignored_checks_never_fail alexa pkg now ctx env maps e :
  fst (ProcessRequest alexa pkg now ctx (Some env) maps) = Returned None (Some e) ->
  (IgnoreApplicationID alexa = true -> ~ identity_error e) /\
  (IgnoreTimestamp alexa = true -> ~ parse_error e /\ ~ tolerance_error e) /\
  (IgnoreApplicationID alexa = true -> IgnoreTimestamp alexa = true ->
   exists err, e = HandlerError err).
Proof.
  intros Hres.
  destruct (validate alexa pkg now (Some env)) as [[e'|]|] eqn:Hv.
  - rewrite (ProcessRequest_invalid _ _ _ _ _ _ _ Hv) in Hres. injection Hres as ->.
    unfold validate in Hv.
    destruct (IgnoreApplicationID alexa), (IgnoreTimestamp alexa); cbn [negb] in Hv.
    + discriminate.
    + split; [intros _; exact (verifyTimestamp_not_identity _ _ _ _ Hv)|].
      split; discriminate.
    + destruct (verifyApplicationID alexa (Some env)) as [[e0|]|] eqn:Hid; try discriminate.
      injection Hv as ->. split; [discriminate|].
      split; [intros _; exact (verifyApplicationID_not_timestamp _ _ _ Hid)|discriminate].
    + split; [discriminate|]. split; discriminate.
  - destruct (ProcessRequest_valid alexa pkg now ctx (Some env) maps Hv) as [[r Hok]|Hb];
      [congruence|].
    rewrite Hres in Hb. cbn in Hb. destruct e as [| |err]; try contradiction.
    split; [intros _; apply identity_error_not_handler|].
    split; [intros _; split; [apply parse_error_not_handler|apply tolerance_error_not_handler]|].
    eauto.
  - rewrite (ProcessRequest_panics _ _ _ _ _ _ Hv) in Hres. discriminate.
Qed.

(** ** Session attributes that came with the request *)

(** X16: when the session of the envelope comes with an attribute map,
    [ProcessRequest] makes none for it, and with a handler whose methods
    leave the session an attribute map, the session attributes of the
    envelope it returns are another map object with the entries of the
    session's; when no method was called, those are the entries that came
    with the request, and the map of the envelope is one the program did
    not have before the call. *)
Theorem attributes_kept_and_copied alexa pkg now ctx env session a m0 maps responseEnv st' :
  (forall m, keeps_attributes (method (Alexa_RequestHandler alexa) m)) ->
  RequestEnvelope_Session env = Some session ->
  Session_Attributes session = Some a ->
  maps !! a = Some m0 ->
  ProcessRequest alexa pkg now ctx (Some env) maps = (Returned (Some responseEnv) None, st') ->
  exists env' session' a' l m,
    st_envelope st' = Some env' /\
    RequestEnvelope_Session env' = Some session' /\
    Session_Attributes session' = Some a' /\
    ResponseEnvelope_SessionAttributes responseEnv = Some l /\
    l <> a' /\
    st_maps st' !! a' = Some m /\
    st_maps st' !! l = Some m /\
    (st_calls st' = [] -> env' = env /\ a' = a /\ m = m0 /\ l ∉ dom maps).
Proof.
  intros Hk Hs Ha Hm0. rewrite ProcessRequest_eq, beforeSwitch_eq. cbn [initial st_envelope].
  destruct (validate alexa pkg now (Some env)) as [[e|]|]; try discriminate.
  rewrite prepare_eq. cbn [initial st_envelope]. rewrite Hs, Ha.
  set (st0 := initial (Some env) maps).
  assert (Hl0 : store_live st0).
  { exists env, session, a. cbn. rewrite Hm0. eauto. }
  assert (Hfinish : forall response st2,
    st2 = st0 \/ (store_live st2 /\ st_calls st2 <> []) ->
    match copyAttributes (E:=E) response st2 with
    | (Stop r, st3) => (r, st3)
    | (Next responseEnv, st3) => (Returned (Some responseEnv) None, st3)
    end = (Returned (Some responseEnv) None, st') ->
    exists env' session' a' l m,
      st_envelope st' = Some env' /\
      RequestEnvelope_Session env' = Some session' /\
      Session_Attributes session' = Some a' /\
      ResponseEnvelope_SessionAttributes responseEnv = Some l /\
      l <> a' /\
      st_maps st' !! a' = Some m /\
      st_maps st' !! l = Some m /\
      (st_calls st' = [] -> env' = env /\ a' = a /\ m = m0 /\ l ∉ dom maps)).
  { intros response st2 Hst2.
    assert (Hl2 : store_live st2) by (destruct Hst2 as [->|[? _]]; assumption).
    destruct (copyAttributes response st2) as [[responseEnv'|r] st3] eqn:Hc.
    2:{ intros [= Hr _]. apply copyAttributes_Stop in Hc. rewrite Hr in Hc. contradiction. }
    intros [= <- <-].
    destruct (copyAttributes_live _ _ _ _ Hl2 Hc)
      as (env' & session' & a' & l & m & He' & Hs' & Ha' & Hl & Hne & Hm2 & Hma & Hml & Hcalls).
    exists env', session', a', l, m. repeat (split; [assumption|]).
    intros Hnil. rewrite Hcalls in Hnil.
    destruct Hst2 as [->|[_ Hnon]]; [|contradiction].
    rewrite copyAttributes_eq in Hc. cbv zeta in Hc. cbn in Hc. rewrite Hs in Hc.
    injection Hc as Hre Hst3. rewrite <- Hst3 in He'. cbn in He'.
    injection He' as <-. rewrite Hs in Hs'. injection Hs' as <-.
    rewrite Ha in Ha'. injection Ha' as <-.
    cbn in Hm2. rewrite Hm0 in Hm2. injection Hm2 as <-.
    split; [reflexivity|]. split; [reflexivity|]. split; [reflexivity|].
    rewrite <- Hre in Hl. cbn in Hl. injection Hl as <-. apply is_fresh. }
  destruct (sessionStarted alexa ctx default_Response st0) as [[response1|r] st1] eqn:Hss.
  2:{ intros [= Hr _]. apply sessionStarted_Stop in Hss. rewrite Hr in Hss. contradiction. }
  pose proof (sessionStarted_live _ _ _ _ _ _ Hk Hl0 Hss) as H1.
  destruct (dispatch alexa ctx response1 st1) as [[response2|r] st2] eqn:Hd.
  2:{ intros [= Hr _]. apply dispatch_Stop in Hd. rewrite Hr in Hd. contradiction. }
  apply Hfinish.
  assert (Hl1 : store_live st1) by (destruct H1 as [->|[? _]]; assumption).
  destruct (dispatch_live _ _ _ _ _ _ Hk Hl1 Hd) as [->|H2]; [exact H1|right; exact H2].
Qed.

(** ** The tolerance that [SetTimestampTolerance] sets *)

(** X17: [SetTimestampTolerance] sets the tolerance of the package, for
    every [Alexa] value and whatever value it is called on.  After a call
    with a number of seconds below 2^24, [verifyTimestamp] accepts a
    timestamp that [time.Parse] accepts exactly when it is at most that
    many seconds from the time of the call, before or after; so after a
    call with 0 it accepts none but the very instant, and after a call with
    a negative number it accepts none at all. *)
Theorem SetTimestampTolerance_applies (receiver : @Alexa V E GoContext) seconds pkg now env
    request timestamp :
  RequestEnvelope_Request env = Some request ->
  time_Parse time_RFC3339 (Request_Timestamp request) = inl timestamp ->
  - 2 ^ 63 <= seconds < 2 ^ 24 ->
  let pkg' := SetTimestampTolerance receiver seconds pkg in
  (verifyTimestamp (E:=E) pkg' now (Some env) = Value None
   <-> Z.abs (Time_instant now - Time_instant timestamp) <= seconds * 10 ^ 9) /\
  (seconds = 0 ->
   (verifyTimestamp (E:=E) pkg' now (Some env) = Value None
    <-> Time_instant now = Time_instant timestamp)) /\
  (seconds < 0 ->
   exists e, verifyTimestamp pkg' now (Some env) = Value (Some e) /\ tolerance_error e).
Proof.
  intros Hr Hp HT pkg'.
  assert (Hiff : verifyTimestamp (E:=E) pkg' now (Some env) = Value None
                 <-> Z.abs (Time_instant now - Time_instant timestamp) <= seconds * 10 ^ 9).
  { rewrite (verifyTimestamp_parsed pkg' now env request timestamp Hr Hp HT).
    cbn [pkg' SetTimestampTolerance timestampTolerance].
    case_decide; split; try discriminate; try reflexivity; lia. }
  split; [exact Hiff|]. split.
  - intros ->. rewrite Hiff. lia.
  - intros Hneg.
    rewrite (verifyTimestamp_parsed pkg' now env request timestamp Hr Hp HT).
    cbn [pkg' SetTimestampTolerance timestampTolerance].
    case_decide; [|lia]. eexists. split; [reflexivity|]. do 3 eexists. reflexivity.
Qed.


(** ** What [ProcessRequest] changes by itself *)

Lemma after_call_unchanged st m o response :
  objects st response = Value o ->
  after_call st m o
  = {| st_envelope := st_envelope st; st_maps := st_maps st;
       st_calls := (st_calls st ++ [m])%list |}.
Proof.
  unfold objects, after_call.
  destruct (st_envelope st) as [[version [session|] request context]|]; cbn;
    try discriminate.
  intros [= <-]. cbn. destruct request, context; reflexivity.
Qed.

Lemma handle_unchanging alexa m ctx response st x st' :
  (forall m ctx o, snd (method (Alexa_RequestHandler alexa) m ctx o) = o) ->
  handle alexa m ctx response st = (x, st') ->
  st_envelope st' = st_envelope st /\ st_maps st' = st_maps st.
Proof.
  intros Hq. rewrite handle_eq. destruct (objects st response) as [o|] eqn:Ho.
  - cbv zeta. rewrite Hq, (after_call_unchanged _ _ _ _ Ho). intros [= _ <-]. auto.
  - intros [= _ <-]. auto.
Qed.

Lemma sessionStarted_unchanging alexa ctx response st x st' :
  (forall m ctx o, snd (method (Alexa_RequestHandler alexa) m ctx o) = o) ->
  sessionStarted alexa ctx response st = (x, st') ->
  st_envelope st' = st_envelope st /\ st_maps st' = st_maps st.
Proof.
  intros Hq. rewrite sessionStarted_eq.
  destruct (st_envelope st) as [env|] eqn:He; [|intros [= _ <-]; auto].
  destruct (RequestEnvelope_Session env) as [session|]; [|intros [= _ <-]; auto].
  destruct (Session_New session); [|intros [= _ <-]; auto].
  intros Hh. rewrite <- He. exact (handle_unchanging _ _ _ _ _ _ _ Hq Hh).
Qed.

Lemma dispatch_unchanging alexa ctx response st x st' :
  (forall m ctx o, snd (method (Alexa_RequestHandler alexa) m ctx o) = o) ->
  dispatch alexa ctx response st = (x, st') ->
  st_envelope st' = st_envelope st /\ st_maps st' = st_maps st.
Proof.
  intros Hq. rewrite dispatch_eq.
  destruct (st_envelope st) as [env|] eqn:He; [|intros [= _ <-]; auto].
  destruct (RequestEnvelope_Request env) as [request|]; [|intros [= _ <-]; auto].
  destruct (method_of_type (Request_Type request)); [|intros [= _ <-]; auto].
  intros Hh. rewrite <- He. exact (handle_unchanging _ _ _ _ _ _ _ Hq Hh).
Qed.

Lemma copyAttributes_keeps response st x st' :
  copyAttributes (E:=E) response st = (x, st') ->
  st_envelope st' = st_envelope st /\
  forall k v, st_maps st !! k = Some v -> st_maps st' !! k = Some v.
Proof.
  rewrite copyAttributes_eq. cbv zeta.
  assert (Hfresh : forall k v, st_maps st !! k = Some v -> fresh (dom (st_maps st)) <> k).
  { intros k v Hk Heq. apply (is_fresh (dom (st_maps st))). rewrite Heq.
    apply elem_of_dom. eauto. }
  destruct (st_envelope st) as [env|]; [destruct (RequestEnvelope_Session env)|];
    intros [= _ <-]; cbn; (split; [reflexivity|]);
    intros k v Hk; rewrite lookup_insert_ne by (eapply Hfresh; exact Hk); exact Hk.
Qed.

(** X18: what [ProcessRequest] changes by itself.  With a handler whose
    methods leave the objects they are called on as they are, a call leaves
    every map object of the program as it is, and the envelope too, but for
    the attributes of a session that came without a map, which are made an
    empty map that the program did not have before the call. *)
Theorem only_attributes_change alexa pkg now ctx env session maps :
  (forall m ctx o, snd (method (Alexa_RequestHandler alexa) m ctx o) = o) ->
  RequestEnvelope_Session env = Some session ->
  let st' := snd (ProcessRequest alexa pkg now ctx (Some env) maps) in
  (forall l m, maps !! l = Some m -> st_maps st' !! l = Some m) /\
  (st_envelope st' = Some env \/
   (Session_Attributes session = None /\
    exists a,
      (a ∉ dom maps) /\
      st_maps st' !! a = Some ∅ /\
      st_envelope st'
      = Some (set_RequestEnvelope_Session (set_Session_Attributes (Some a) session) env))).
Proof.
  intros Hq Hs st'. subst st'.
  destruct (validate alexa pkg now (Some env)) as [[e|]|] eqn:Hv.
  - rewrite (ProcessRequest_invalid _ _ _ _ _ _ _ Hv). cbn. auto.
  - rewrite ProcessRequest_eq, beforeSwitch_eq. cbn [initial st_envelope]. rewrite Hv.
    rewrite prepare_eq. cbn [initial st_envelope]. rewrite Hs.
    set (st0 := match Session_Attributes session with
                | Some _ => initial (Some env) maps
                | None => with_attributes (fresh (dom (st_maps (initial (Some env) maps))))
                            (initial (Some env) maps) env session
                end).
    assert (Hgoal : forall st,
              st_envelope st = st_envelope st0 ->
              (forall k v, st_maps st0 !! k = Some v -> st_maps st !! k = Some v) ->
              (forall l m, maps !! l = Some m -> st_maps st !! l = Some m) /\
              (st_envelope st = Some env \/
               (Session_Attributes session = None /\
                exists a,
                  (a ∉ dom maps) /\
                  st_maps st !! a = Some ∅ /\
                  st_envelope st
                  = Some (set_RequestEnvelope_Session
                            (set_Session_Attributes (Some a) session) env)))).
    { intros st He Hm. subst st0. destruct (Session_Attributes session) as [a0|].
      - split; [intros l m Hl; apply Hm; exact Hl|]. left. rewrite He. reflexivity.
      - cbn [initial st_maps] in *. split.
        + intros l m Hl. apply Hm. cbn. rewrite lookup_insert_ne; [exact Hl|].
          intros Heq. apply (is_fresh (dom maps)). rewrite Heq. apply elem_of_dom. eauto.
        + right. split; [reflexivity|]. exists (fresh (dom maps)).
          split; [apply is_fresh|]. split; [|rewrite He; reflexivity].
          apply Hm. cbn. apply lookup_insert_eq. }
    destruct (sessionStarted alexa ctx default_Response st0) as [x1 st1] eqn:H1.
    destruct (sessionStarted_unchanging _ _ _ _ _ _ Hq H1) as [He1 Hm1].
    destruct x1 as [response1|r1].
    2:{ cbn [snd]. apply Hgoal; [exact He1|]. intros k v. rewrite Hm1. auto. }
    destruct (dispatch alexa ctx response1 st1) as [x2 st2] eqn:H2.
    destruct (dispatch_unchanging _ _ _ _ _ _ Hq H2) as [He2 Hm2].
    destruct x2 as [response2|r2].
    2:{ cbn [snd]. apply Hgoal; [congruence|]. intros k v. rewrite Hm2, Hm1. auto. }
    destruct (copyAttributes response2 st2) as [x3 st3] eqn:H3.
    destruct (copyAttributes_keeps _ _ _ _ H3) as [He3 Hm3].
    assert (Hst3 : snd (match x3 with
                        | Next responseEnv => (Returned (Some responseEnv) None, st3)
                        | Stop r => (r, st3)
                        end) = st3) by (destruct x3; reflexivity).
    rewrite Hst3. apply Hgoal; [congruence|].
    intros k v Hk. apply Hm3. rewrite Hm2, Hm1. exact Hk.
  - rewrite (ProcessRequest_panics _ _ _ _ _ _ Hv). cbn. auto.
Qed.

(** ** From [OnSessionStarted] to the switch *)

(** X19: when [OnSessionStarted] returns no error, the method the switch
    selects is called on the objects as [OnSessionStarted] left them: the
    same response object, the session and the map objects as they are then,
    and the request and the context too when they are not nil. *)
Theorem session_started_changes_seen alexa pkg now ctx env session maps o0 :
  validate alexa pkg now (Some env) = Value None ->
  RequestEnvelope_Session env = Some session ->
  Session_New session = true ->
  objects (snd (prepare (E:=E) (initial (Some env) maps))) default_Response = Value o0 ->
  fst (OnSessionStarted (Alexa_RequestHandler alexa) ctx o0) = None ->
  let seen := snd (OnSessionStarted (Alexa_RequestHandler alexa) ctx o0) in
  exists st1 o1,
    beforeSwitch alexa pkg now ctx (initial (Some env) maps)
    = (Next (obj_response seen), st1) /\
    objects st1 (obj_response seen) = Value o1 /\
    obj_response o1 = obj_response seen /\
    obj_session o1 = obj_session seen /\
    obj_maps o1 = obj_maps seen /\
    obj_request o1 = pointee (RequestEnvelope_Request env) (obj_request seen) /\
    obj_context o1 = pointee (RequestEnvelope_Context env) (obj_context seen).
Proof.
  intros Hv Hs Hn Ho Hok seen.
  rewrite beforeSwitch_eq. cbn [initial st_envelope]. rewrite Hv.
  rewrite prepare_eq in Ho |- *. cbn [initial st_envelope] in Ho |- *.
  rewrite Hs in Ho |- *. cbn [snd] in Ho.
  set (st0 := match Session_Attributes session with
              | Some _ => initial (Some env) maps
              | None => with_attributes (fresh (dom (st_maps (initial (Some env) maps))))
                          (initial (Some env) maps) env session
              end) in *.
  assert (H0 : exists env0 session0,
             st_envelope st0 = Some env0 /\
             RequestEnvelope_Session env0 = Some session0 /\
             Session_New session0 = true /\
             RequestEnvelope_Request env0 = RequestEnvelope_Request env /\
             RequestEnvelope_Context env0 = RequestEnvelope_Context env).
  { subst st0. destruct (Session_Attributes session).
    - exists env, session. cbn. auto.
    - eexists _, _. cbn. split; [reflexivity|]. cbn. auto. }
  destruct H0 as (env0 & session0 & He0 & Hs0 & Hn0 & Hr0 & Hc0).
  rewrite sessionStarted_eq, He0, Hs0, Hn0, handle_eq, Ho. cbv zeta.
  change (method (Alexa_RequestHandler alexa) MOnSessionStarted ctx o0)
    with (OnSessionStarted (Alexa_RequestHandler alexa) ctx o0).
  rewrite Hok. fold seen.
  eexists _, _. split; [reflexivity|].
  unfold objects, after_call. cbn. rewrite He0. cbn.
  split; [reflexivity|]. cbn. rewrite Hr0, Hc0. auto.
Qed.

End Properties.

(** * The properties on the sample inputs *)

(** C9 on the sample intent request. *)
Lemma GetIntentName_by_type_witness :
  GetIntentName intent_envelope = Value "HelloIntent".
Proof.
  apply (proj1 (GetIntentName_by_type intent_envelope
                  (sample_request "IntentRequest" "2017-06-24T15:04:05Z") eq_refl)).
  reflexivity.
Defined.

(** C2 on the sample launch request, with a handler whose
    [OnSessionStarted] fails. *)
Lemma session_started_first_witness :
  st_calls (snd (ProcessRequest (sample_alexa failing_handler) Package_init sample_now tt
                   (Some launch_envelope) no_maps)) = [MOnSessionStarted] /\
  fst (ProcessRequest (sample_alexa failing_handler) Package_init sample_now tt
         (Some launch_envelope) no_maps)
  = Returned None (Some (HandlerError "session store unavailable")).
Proof.
  destruct (session_started_first (sample_alexa failing_handler) Package_init sample_now tt
              launch_envelope (sample_session true "amzn1.ask.skill.sample") no_maps)
    as [_ H]; [vm_compute; reflexivity | reflexivity | reflexivity |].
  eapply H; [vm_compute; reflexivity | reflexivity].
Defined.


(** C10 on the request sent to another skill. *)
Lemma failed_validation_changes_nothing_witness :
  st_envelope (snd (ProcessRequest (sample_alexa quiet_handler) Package_init sample_now tt
                      (Some foreign_envelope) no_maps)) = Some foreign_envelope /\
  st_maps (snd (ProcessRequest (sample_alexa quiet_handler) Package_init sample_now tt
                  (Some foreign_envelope) no_maps)) = no_maps /\
  st_calls (snd (ProcessRequest (sample_alexa quiet_handler) Package_init sample_now tt
                   (Some foreign_envelope) no_maps)) = [].
Proof.
  apply (failed_validation_changes_nothing (sample_alexa quiet_handler) Package_init
           sample_now tt (Some foreign_envelope) no_maps
           (errors_New "request Application ID does not match expected ApplicationId")).
  - vm_compute. reflexivity.
  - right; left. right; right. reflexivity.
Defined.

(** C7 (amended) on the sample request with a timestamp that is no time. *)
Lemma malformed_timestamp_rejected_witness :
  fst (ProcessRequest (sample_alexa quiet_handler) Package_init sample_now tt
         (Some undated_envelope) no_maps)
  = Returned None (Some (errors_New
      "unable to parse request timestamp.  Err: parsing time yesterday as 2006-01-02T15:04:05Z07:00: cannot parse")).
Proof.
  destruct (malformed_timestamp_rejected (sample_alexa quiet_handler) Package_init
              sample_now tt undated_envelope (sample_request "LaunchRequest" "yesterday")
              no_maps "parsing time yesterday as 2006-01-02T15:04:05Z07:00: cannot parse")
    as [_ H]; [reflexivity | vm_compute; reflexivity | reflexivity
              | right; vm_compute; reflexivity |].
  rewrite H. reflexivity.
Defined.

(** C1 (amended) on the sample launch request: the session is new, so
    [OnSessionStarted] is called and then [OnLaunch]. *)
Lemma dispatch_by_type_witness :
  st_calls (snd (ProcessRequest (sample_alexa quiet_handler) Package_init sample_now tt
                   (Some launch_envelope) no_maps)) = [MOnSessionStarted; MOnLaunch].
Proof.
  edestruct (dispatch_by_type (sample_alexa quiet_handler) Package_init sample_now tt
               launch_envelope no_maps) as (H & _);
    [vm_compute; reflexivity | vm_compute; reflexivity | vm_compute; reflexivity |].
  exact (H eq_refl).
Defined.


(** C1 as stated fails.  On a request of a type the switch has no case for
    that opens a session, a method of the handler is called all the same,
    [OnSessionStarted], and what it put in the response is returned: here a
    card.  And when [OnSessionStarted] fails on a launch request, no
    type-specific method is called at all. *)
Lemma dispatch_counterexample :
  (validate (sample_alexa welcome_handler) Package_init sample_now (Some other_envelope)
   = Value None /\
   method_of_type "CanFulfillIntentRequest" = None /\
   st_calls (snd (ProcessRequest (sample_alexa welcome_handler) Package_init sample_now tt
                    (Some other_envelope) no_maps)) = [MOnSessionStarted] /\
   exists responseEnv card,
     fst (ProcessRequest (sample_alexa welcome_handler) Package_init sample_now tt
            (Some other_envelope) no_maps) = Returned (Some responseEnv) None /\
     Response_Card (ResponseEnvelope_Response responseEnv) = Some card) /\
  (validate (sample_alexa failing_handler) Package_init sample_now (Some launch_envelope)
   = Value None /\
   st_calls (snd (ProcessRequest (sample_alexa failing_handler) Package_init sample_now tt
                    (Some launch_envelope) no_maps)) = [MOnSessionStarted]).
Proof.
  split.
  - split; [vm_compute; reflexivity|]. split; [reflexivity|].
    split; [vm_compute; reflexivity|]. eexists _, _. split; vm_compute; reflexivity.
  - split; vm_compute; reflexivity.
Qed.

(** C5 as stated fails.  An envelope whose context is absent passes the
    nil check and is handled like any other; one whose session is absent
    passes it too, and the identity check then dereferences the nil
    session. *)
Lemma absent_parts_counterexample :
  (RequestEnvelope_Context launch_envelope = None /\
   exists responseEnv,
     fst (ProcessRequest (sample_alexa quiet_handler) Package_init sample_now tt
            (Some launch_envelope) no_maps) = Returned (Some responseEnv) None) /\
  (RequestEnvelope_Session sessionless_envelope = None /\
   fst (ProcessRequest (sample_alexa quiet_handler) Package_init sample_now tt
          (Some sessionless_envelope) no_maps) = Panicked).
Proof.
  split; (split; [reflexivity|]).
  - eexists. vm_compute. reflexivity.
  - vm_compute. reflexivity.
Qed.

(** C7 as stated fails.  The identity check comes first: a request with a
    timestamp that is no time, sent to another skill, fails with the
    identity error, which is no parse error. *)
Lemma malformed_timestamp_counterexample :
  (exists msg, time_Parse time_RFC3339 "yesterday" = inr msg) /\
  IgnoreTimestamp (sample_alexa quiet_handler) = false /\
  fst (ProcessRequest (sample_alexa quiet_handler) Package_init sample_now tt
         (Some foreign_envelope) no_maps)
  = Returned None (Some (errors_New
      "request Application ID does not match expected ApplicationId")) /\
  ~ parse_error (E:=string) (errors_New
      "request Application ID does not match expected ApplicationId").
Proof.
  split; [eexists; vm_compute; reflexivity|]. split; [reflexivity|].
  split; [vm_compute; reflexivity|].
  intros [msg H]. discriminate H.
Qed.

(** C4 (amended) at the boundary: with the default tolerance, a call made
    150 seconds to the nanosecond after the timestamp passes the
    verifications. *)
Lemma tolerance_error_iff_apart_witness :
  validate (sample_alexa quiet_handler) Package_init 1498316795000000000
    (Some launch_envelope) = Value None.
Proof.
  refine (proj2 (tolerance_error_iff_apart (sample_alexa quiet_handler) Package_init
                   1498316795000000000 tt launch_envelope
                   (sample_request "LaunchRequest" "2017-06-24T15:04:05Z") no_maps
                   1498316645000000000 _ _ _ _ _) _).
  - reflexivity.
  - vm_compute. reflexivity.
  - reflexivity.
  - right. vm_compute. reflexivity.
  - vm_compute. split; congruence.
  - vm_compute. congruence.
Defined.

(** C4 as stated fails.  The identity check comes first: a request an hour
    old sent to another skill fails with the identity error, not with the
    tolerance error.  And the comparison is made on float64 values: with a
    tolerance of 2^24 seconds, a call 2^24 seconds and one nanosecond after
    the timestamp passes, the sum of the seconds and the billionth being
    rounded to 2^24. *)
Lemma tolerance_counterexample :
  (time_Parse time_RFC3339 "2017-06-24T15:04:05Z" = inl 1498316645000000000 /\
   150 * 10 ^ 9 < Z.abs (1498320245000000000 - 1498316645000000000) /\
   fst (ProcessRequest (sample_alexa quiet_handler) Package_init 1498320245000000000 tt
          (Some dated_foreign_envelope) no_maps)
   = Returned None (Some (errors_New
       "request Application ID does not match expected ApplicationId"))) /\
  (timestampTolerance lenient_package * 10 ^ 9
     < Z.abs (1515093861000000001 - 1498316645000000000) /\
   validate (sample_alexa quiet_handler) lenient_package 1515093861000000001
     (Some launch_envelope) = Value None).
Proof.
  split; (split; [vm_compute; reflexivity|]).
  - split; vm_compute; reflexivity.
  - vm_compute. reflexivity.
Qed.

(** * Further properties on the sample inputs *)

(** X3 on the sample order: no slot is filed under [crust]. *)
Lemma GetSlot_by_key_witness :
  GetSlot (E:=string) order_envelope "crust"
  = Value (None, Some (errors_New "slot name not found")).
Proof.
  destruct (GetSlot_by_key (E:=string) order_envelope order_request "crust" eq_refl)
    as (slots & _ & -> & _ & Hnone & _).
  apply Hnone. vm_compute. reflexivity.
Defined.

(** X4 on the sample order: the topping is there, and its value is empty. *)
Lemma GetSlotValue_by_key_witness :
  GetSlotValue (E:=string) order_envelope "topping" = Value ("", None).
Proof.
  pose proof (GetSlotValue_by_key (E:=string) order_envelope order_request "topping" eq_refl)
    as H.
  cbv zeta in H. destruct H as (_ & _ & _ & H). apply H.
  eexists. split; [vm_compute; reflexivity|reflexivity].
Defined.

(** X6: a link-account card replaces a simple card. *)
Lemma later_setter_wins_witness :
  SetLinkAccountCard (SetSimpleCard "Welcome" "Hello" (default_Response (V:=string)))
  = SetLinkAccountCard default_Response.
Proof.
  exact (later_setter_wins (default_Response (V:=string))
           (Call_SetSimpleCard "Welcome" "Hello") Call_SetLinkAccountCard
           eq_refl ltac:(discriminate)).
Defined.

(** X7: speech and a directive, in either order. *)
Lemma helpers_commute_witness :
  AddAudioPlayer "AudioPlayer.Play" "REPLACE_ALL" "track-1" "https://example.com/a.mp3" 0
    (SetOutputSpeech "Hello" (default_Response (V:=string)))
  = SetOutputSpeech "Hello"
      (AddAudioPlayer "AudioPlayer.Play" "REPLACE_ALL" "track-1" "https://example.com/a.mp3" 0
         default_Response).
Proof.
  exact (helpers_commute (default_Response (V:=string))
           (Call_SetOutputSpeech "Hello")
           (Call_Directive
              (Call_AddAudioPlayer "AudioPlayer.Play" "REPLACE_ALL" "track-1"
                 "https://example.com/a.mp3" 0))
           ltac:(discriminate)).
Defined.


(** X10 on the envelope that came without a session. *)
Lemma absent_session_outcome_witness :
  snd (ProcessRequest (sample_alexa quiet_handler) Package_init sample_now tt
         (Some sessionless_envelope) no_maps)
  = initial (Some sessionless_envelope) no_maps.
Proof.
  exact (proj1 (absent_session_outcome (sample_alexa quiet_handler) Package_init sample_now tt
                  sessionless_envelope no_maps eq_refl)).
Defined.

(** X11 on the envelope that came without a request. *)
Lemma absent_request_outcome_witness :
  st_calls (snd (ProcessRequest (lax_alexa quiet_handler) Package_init sample_now tt
                   (Some requestless_envelope) no_maps)) = [] \/
  st_calls (snd (ProcessRequest (lax_alexa quiet_handler) Package_init sample_now tt
                   (Some requestless_envelope) no_maps)) = [MOnSessionStarted].
Proof.
  exact (proj1 (proj2 (absent_request_outcome (lax_alexa quiet_handler) Package_init
                         sample_now tt requestless_envelope no_maps eq_refl))).
Defined.

(** X13 on the sample launch request, with a handler whose [OnLaunch]
    fails. *)
Lemma callback_error_returned_witness :
  exists st',
    ProcessRequest (sample_alexa refusing_handler) Package_init sample_now tt
      (Some launch_envelope) no_maps
    = (Returned None (Some (HandlerError "no launch today")), st').
Proof.
  eexists.
  eapply (callback_error_returned (sample_alexa refusing_handler) Package_init sample_now tt
            launch_envelope no_maps); vm_compute; reflexivity.
Defined.

(** X14 on the sample launch request, with a handler whose [OnLaunch] says
    hello. *)
Lemma callback_response_returned_witness :
  exists l,
    fst (ProcessRequest (sample_alexa greeting_handler) Package_init sample_now tt
           (Some launch_envelope) no_maps)
    = Returned
        (Some {| ResponseEnvelope_Version := "1.0";
                 ResponseEnvelope_SessionAttributes := Some l;
                 ResponseEnvelope_Response := SetOutputSpeech "Hello" default_Response |})
        None.
Proof.
  edestruct (callback_response_returned (sample_alexa greeting_handler) Package_init
               sample_now tt launch_envelope no_maps) as (_ & l & _ & H);
    [vm_compute; reflexivity | vm_compute; reflexivity | vm_compute; reflexivity
    | vm_compute; reflexivity | vm_compute; reflexivity | vm_compute; reflexivity |].
  exists l. exact H.
Defined.

(** X15 on a request sent to another skill with a timestamp that is no
    time, to a skill that ignores both verifications and whose
    [OnSessionStarted] fails. *)
Lemma ignored_checks_never_fail_witness :
  fst (ProcessRequest (lax_alexa failing_handler) Package_init sample_now tt
         (Some foreign_envelope) no_maps)
  = Returned None (Some (HandlerError "session store unavailable")) /\
  exists err, HandlerError (E:=string) "session store unavailable" = HandlerError err.
Proof.
  assert (H : fst (ProcessRequest (lax_alexa failing_handler) Package_init sample_now tt
                     (Some foreign_envelope) no_maps)
              = Returned None (Some (HandlerError "session store unavailable")))
    by (vm_compute; reflexivity).
  split; [exact H|].
  exact (proj2 (proj2 (ignored_checks_never_fail (lax_alexa failing_handler) Package_init
                         sample_now tt foreign_envelope no_maps _ H)) eq_refl eq_refl).
Defined.

(** X16 on the session that carries attributes. *)
Lemma attributes_kept_and_copied_witness :
  exists responseEnv st',
    ProcessRequest (sample_alexa quiet_handler) Package_init sample_now tt
      (Some returning_envelope) one_map = (Returned (Some responseEnv) None, st') /\
    exists env' session' a' l m,
      st_envelope st' = Some env' /\
      RequestEnvelope_Session env' = Some session' /\
      Session_Attributes session' = Some a' /\
      ResponseEnvelope_SessionAttributes responseEnv = Some l /\
      l <> a' /\
      st_maps st' !! a' = Some m /\
      st_maps st' !! l = Some m /\
      (st_calls st' = [] ->
       env' = returning_envelope /\ a' = 1%positive /\ m = <["visits" := "3"]> ∅ /\
       l ∉ dom one_map).
Proof.
  eexists _, _. split; [vm_compute; reflexivity|].
  eapply (attributes_kept_and_copied (sample_alexa quiet_handler) Package_init sample_now tt
            returning_envelope _ 1%positive (<["visits" := "3"]> ∅) one_map).
  - intros m ctx o Ho. destruct m; exact Ho.
  - reflexivity.
  - reflexivity.
  - vm_compute. reflexivity.
  - vm_compute. reflexivity.
Defined.

(** X17: after [SetTimestampTolerance(-1)] the sample launch request is
    rejected, thirty seconds old as it is. *)
Lemma SetTimestampTolerance_applies_witness :
  exists e,
    verifyTimestamp (E:=string)
      (SetTimestampTolerance (sample_alexa quiet_handler) (-1) Package_init) sample_now
      (Some launch_envelope) = Value (Some e) /\
    tolerance_error e.
Proof.
  pose proof (SetTimestampTolerance_applies (E:=string) (sample_alexa quiet_handler) (-1)
                Package_init sample_now launch_envelope
                (sample_request "LaunchRequest" "2017-06-24T15:04:05Z")
                1498316645000000000 eq_refl eq_refl) as H.
  cbv zeta in H. apply H; [vm_compute; split; congruence|reflexivity].
Defined.

(** X18 on the sample intent request, in a program that has a map object
    already: the call leaves it as it is. *)
Lemma only_attributes_change_witness :
  st_maps (snd (ProcessRequest (sample_alexa quiet_handler) Package_init sample_now tt
                  (Some intent_envelope) one_map)) !! 1%positive
  = Some (<["visits" := "3"]> ∅).
Proof.
  refine (proj1 (only_attributes_change (sample_alexa quiet_handler) Package_init sample_now
                   tt intent_envelope (sample_session false "amzn1.ask.skill.sample")
                   one_map _ eq_refl) 1%positive _ _).
  - intros m ctx o. destruct m; reflexivity.
  - vm_compute. reflexivity.
Defined.

(** X19 on the sample launch request, with a handler whose
    [OnSessionStarted] greets with a card: [OnLaunch] is called on a
    response that has the card. *)
Lemma session_started_changes_seen_witness :
  exists st1 o1,
    beforeSwitch (sample_alexa welcome_handler) Package_init sample_now tt
      (initial (Some launch_envelope) no_maps)
    = (Next (SetSimpleCard "Welcome" "Hello" default_Response), st1) /\
    objects st1 (SetSimpleCard "Welcome" "Hello" default_Response) = Value o1 /\
    obj_response o1 = SetSimpleCard "Welcome" "Hello" default_Response.
Proof.
  edestruct (session_started_changes_seen (sample_alexa welcome_handler) Package_init
               sample_now tt launch_envelope (sample_session true "amzn1.ask.skill.sample")
               no_maps) as (st1 & o1 & Hb & Ho & Hr & _);
    [vm_compute; reflexivity | reflexivity | reflexivity | vm_compute; reflexivity
    | vm_compute; reflexivity |].
  exists st1, o1. split; [exact Hb|]. split; [exact Ho|exact Hr].
Defined.
